(** * Recommendation routes of the API gateway

    A shallow embedding of
    - [services/api-gateway/src/routes/recommendations.ts]
      ([recommendationSchema], the [POST /] handler, [GET /trending],
      [GET /by-usage/:usage], [generateRecommendationReason],
      [getFallbackRecommendations]) and
    - [services/api-gateway/src/routes/laptops.ts] ([GET /], the browse
      listing),
    over a list model of the PostgreSQL tables of
    [data/sql/001_initial_schema.sql].

    JavaScript numbers that come from JSON are finite and are modelled as
    rationals ([Q]); SQL [INTEGER] columns are [Z], [DECIMAL] columns are [Q]
    (the driver hands their values to the handler as text, [numeric_text]),
    nullable columns are [option].  A table is the list of its rows in the
    order in which the database yields them; the order among rows that an
    [ORDER BY] does not tell apart is the server's ([tie_order]).  A query
    is an error when the server refuses its text ([grouping_accepted]) or a
    bound value ([bind_params], [uuid_in], [limit]). *)

From Stdlib Require Import List String Ascii Bool ZArith QArith Lia.
From Stdlib Require Import Permutation Sorted DecimalString.
From Stdlib Require Qcanon DecimalFacts DecimalPos.
Import ListNotations.
Open Scope string_scope.
Open Scope list_scope.

(* ================================================================== *)
(** * Errors and the result monad *)

Inductive Error : Type :=
| ZodError                          (* recommendationSchema.parse threw *)
| PoolNotInitialized                (* getPool() before app.register(db) *)
| FetchError                        (* fetch() rejected *)
| AiServiceError (statusText : string) (* !aiResponse.ok *)
| SyntaxError                       (* aiResponse.json() rejected *)
| TypeError                         (* property access on undefined / null *)
| ReferenceError (name : string)    (* unresolved identifier *)
| DbError.                          (* a query rejected *)

Inductive Result (A : Type) : Type :=
| Ok (a : A)
| Throw (e : Error).
Arguments Ok {A} a.
Arguments Throw {A} e.

Definition bind {A B} (r : Result A) (k : A -> Result B) : Result B :=
  match r with
  | Ok a => k a
  | Throw e => Throw e
  end.

Notation "x <- r ;; k" := (bind r (fun x => k))
  (at level 61, r at next level, right associativity).

Fixpoint mapM {A B} (f : A -> Result B) (l : list A) : Result (list B) :=
  match l with
  | [] => Ok []
  | a :: l' => b <- f a ;; bs <- mapM f l' ;; Ok (b :: bs)
  end.

(* ================================================================== *)
(** * JSON values *)

#[local] Unset Elimination Schemes.
Inductive Json : Type :=
| JNull
| JBool (b : bool)
| JNum (q : Q)
| JStr (s : string)
| JArr (items : list Json)
| JObj (props : list (string * Json)).
#[local] Set Elimination Schemes.

(** Property lookup on an object given by its property list. *)
Fixpoint get (k : string) (props : list (string * Json)) : option Json :=
  match props with
  | [] => None
  | (k', v) :: rest => if String.eqb k k' then Some v else get k rest
  end.

(** All string values occurring anywhere in a JSON value. *)
Fixpoint json_strings (j : Json) : list string :=
  match j with
  | JStr s => [s]
  | JArr items => flat_map json_strings items
  | JObj props => flat_map (fun kv : string * Json => json_strings (snd kv)) props
  | _ => []
  end.

(* ================================================================== *)
(** * [recommendationSchema] *)

Inductive Usage : Type :=
| Gaming | Programming | Design | VideoEditing
| Office | Student | General | Workstation.

Inductive GpuType : Type := Integrated | Dedicated | Hybrid.

Definition usage_name (u : Usage) : string :=
  match u with
  | Gaming => "Gaming" | Programming => "Programming" | Design => "Design"
  | VideoEditing => "Video Editing" | Office => "Office"
  | Student => "Student" | General => "General"
  | Workstation => "Workstation"
  end.

Definition all_usages : list Usage :=
  [Gaming; Programming; Design; VideoEditing; Office; Student; General;
   Workstation].

Definition gpu_name (g : GpuType) : string :=
  match g with
  | Integrated => "Integrated" | Dedicated => "Dedicated" | Hybrid => "Hybrid"
  end.

Definition all_gpu_types : list GpuType := [Integrated; Dedicated; Hybrid].

Definition usage_eqb (a b : Usage) : bool :=
  String.eqb (usage_name a) (usage_name b).

Definition gpu_eqb (a b : GpuType) : bool :=
  String.eqb (gpu_name a) (gpu_name b).

(** [z.enum([...])]: the string must be one of the listed literals. *)
Definition enum_of_string {A} (name : A -> string) (all : list A) (s : string)
  : option A :=
  find (fun a => String.eqb s (name a)) all.

Record UserPreferences : Type := {
  min_budget : option Q;
  max_budget : option Q;
  primary_usage : Usage;
  min_ram_gb : option Q;
  min_storage_gb : option Q;
  preferred_gpu_type : option GpuType;
  min_display_size : option Q;
  max_weight_kg : option Q;
  prefer_thin_and_light : option bool
}.

Record Body : Type := {
  user_preferences : UserPreferences;
  top_k : Z
}.

(** [z.number()] *)
Definition z_number (v : Json) : Result Q :=
  match v with JNum q => Ok q | _ => Throw ZodError end.

(** [z.boolean()] *)
Definition z_boolean (v : Json) : Result bool :=
  match v with JBool b => Ok b | _ => Throw ZodError end.

(** [z.enum] *)
Definition z_enum {A} (name : A -> string) (all : list A) (v : Json)
  : Result A :=
  match v with
  | JStr s =>
      match enum_of_string name all s with
      | Some a => Ok a
      | None => Throw ZodError
      end
  | _ => Throw ZodError
  end.

(** [.optional()]: a missing property is accepted and stays undefined; a
    present one must pass the inner schema ([null] is not [undefined]). *)
Definition z_optional {A} (inner : Json -> Result A) (v : option Json)
  : Result (option A) :=
  match v with
  | None => Ok None
  | Some j => a <- inner j ;; Ok (Some a)
  end.

(** A required property. *)
Definition z_required {A} (inner : Json -> Result A) (v : option Json)
  : Result A :=
  match v with
  | None => Throw ZodError
  | Some j => inner j
  end.

Definition is_integer (q : Q) : bool := Pos.eqb (Qden (Qred q)) 1.

(** [z.number().int().min(1).max(20)] *)
Definition z_top_k (v : Json) : Result Z :=
  q <- z_number v ;;
  if is_integer q && Qle_bool 1 q && Qle_bool q 20
  then Ok (Qnum (Qred q))
  else Throw ZodError.

(** [.default(5)] *)
Definition z_default {A} (inner : Json -> Result A) (d : A) (v : option Json)
  : Result A :=
  match v with
  | None => Ok d
  | Some j => inner j
  end.

Definition parse_user_preferences (v : Json) : Result UserPreferences :=
  match v with
  | JObj o =>
      minb <- z_optional z_number (get "min_budget" o) ;;
      maxb <- z_optional z_number (get "max_budget" o) ;;
      usage <- z_required (z_enum usage_name all_usages)
                 (get "primary_usage" o) ;;
      ram <- z_optional z_number (get "min_ram_gb" o) ;;
      sto <- z_optional z_number (get "min_storage_gb" o) ;;
      gpu <- z_optional (z_enum gpu_name all_gpu_types)
               (get "preferred_gpu_type" o) ;;
      disp <- z_optional z_number (get "min_display_size" o) ;;
      wt <- z_optional z_number (get "max_weight_kg" o) ;;
      thin <- z_optional z_boolean (get "prefer_thin_and_light" o) ;;
      Ok {| min_budget := minb; max_budget := maxb; primary_usage := usage;
            min_ram_gb := ram; min_storage_gb := sto;
            preferred_gpu_type := gpu; min_display_size := disp;
            max_weight_kg := wt; prefer_thin_and_light := thin |}
  | _ => Throw ZodError
  end.

(** [recommendationSchema.parse(request.body)]; [None] is an absent body. *)
Definition recommendationSchema_parse (raw : option Json) : Result Body :=
  match raw with
  | Some (JObj o) =>
      prefs <- z_required parse_user_preferences (get "user_preferences" o) ;;
      k <- z_default z_top_k 5%Z (get "top_k" o) ;;
      Ok {| user_preferences := prefs; top_k := k |}
  | _ => Throw ZodError
  end.

(* ================================================================== *)
(** * The catalog tables

    Columns are prefixed with the alias the queries use for their table
    ([lm], [b], [hs], [i], [r]).  Identifiers (UUIDs) are strings: the text
    the server writes for them. *)

Record Brand : Type := {
  b_brand_id : string;
  b_brand_name : string;
  b_brand_slug : string
}.

Record HardwareSpec : Type := {
  hs_spec_id : string;
  hs_processor_model : string;
  hs_processor_cores : Z;
  hs_ram_gb : Z;
  hs_storage_capacity_gb : Z;
  hs_gpu_type : GpuType;
  hs_gpu_model : option string;
  hs_display_size_inches : Q;
  hs_refresh_rate_hz : option Z;
  hs_weight_kg : option Q
}.

Record LaptopModel : Type := {
  lm_model_id : string;
  lm_brand_id : string;
  lm_spec_id : string;
  lm_model_name : string;
  lm_series : option string;
  lm_short_description : option string;
  lm_product_image_url : option string;
  lm_is_discontinued : option bool       (* BOOLEAN DEFAULT FALSE, nullable *)
}.

Record Inventory : Type := {
  i_inventory_id : string;
  i_model_id : string;
  i_unit_price : Q;
  i_stock_quantity : Z;
  i_is_available : option bool           (* BOOLEAN DEFAULT TRUE, nullable *)
}.

Record RecommendationRecord : Type := {
  r_recommendation_id : string;
  r_model_id : string;
  r_created_at : Z                       (* seconds *)
}.

(** The tables, and what the server leaves open: [tie_order x y] says, of
    two rows [x] and [y] that the keys of an [ORDER BY] do not tell apart,
    [x] being the one the executor reached first, whether [x] is put before
    [y].  PostgreSQL gives no rule for it. *)
Record Database : Type := {
  laptop_models : list LaptopModel;
  brands : list Brand;
  hardware_specs : list HardwareSpec;
  inventory : list Inventory;
  recommendations : list RecommendationRecord;
  tie_order : forall A : Type, A -> A -> bool
}.

(* ================================================================== *)
(** * Relational operators *)

Section Relational.
Context {A B : Type}.

(** [l JOIN r ON on] *)
Definition inner_join (on : A -> B -> bool) (l : list A) (r : list B)
  : list (A * B) :=
  flat_map (fun a => map (pair a) (filter (on a) r)) l.

(** [l LEFT JOIN r ON on] *)
Definition left_join (on : A -> B -> bool) (l : list A) (r : list B)
  : list (A * option B) :=
  flat_map (fun a =>
              match filter (on a) r with
              | [] => [(a, None)]
              | m => map (fun b => (a, Some b)) m
              end) l.
End Relational.

Section Ordering.
Context {A : Type} (tie : A -> A -> bool) (leb : A -> A -> bool).

(** [x] is put before [y]: [y] does not sort before [x] and, when neither
    sorts before the other, the server decides. *)
Definition goes_before (x y : A) : bool :=
  leb x y && (negb (leb y x) || tie x y).

Fixpoint insert_sorted (x : A) (l : list A) : list A :=
  match l with
  | [] => [x]
  | y :: l' => if goes_before x y then x :: l else y :: insert_sorted x l'
  end.

(** [ORDER BY]: the rows in the order of [leb]; where two rows compare
    equal the query does not fix which comes first, and [tie] stands for
    the choice of the server. *)
Fixpoint order_by (l : list A) : list A :=
  match l with
  | [] => []
  | x :: l' => insert_sorted x (order_by l')
  end.
End Ordering.

Section Grouping.
Context {A : Type} (same : A -> A -> bool).

Fixpoint add_to_groups (x : A) (groups : list (A * list A))
  : list (A * list A) :=
  match groups with
  | [] => [(x, [])]
  | (y, ys) :: gs =>
      if same y x then (y, ys ++ [x]) :: gs
      else (y, ys) :: add_to_groups x gs
  end.

(** [GROUP BY]: each group is its first row and the later rows with the
    same grouping columns, groups in order of first occurrence. *)
Definition group_by (rows : list A) : list (A * list A) :=
  fold_left (fun gs x => add_to_groups x gs) rows [].
End Grouping.

Definition members {A} (g : A * list A) : list A := fst g :: snd g.

(** The values of the type [bigint], which the count of [LIMIT] and of
    [OFFSET] has. *)
Definition int8_ok (n : Z) : bool :=
  ((- 2 ^ 63 <=? n) && (n <? 2 ^ 63))%Z.

(** [LIMIT n]: a count that is no [bigint], and a negative count, are errors
    of the query. *)
Definition limit {A} (n : Z) (rows : list A) : Result (list A) :=
  if (negb (int8_ok n) || (n <? 0)%Z)%bool then Throw DbError
  else Ok (firstn (Z.to_nat n) rows).

(** [OFFSET n] *)
Definition offset {A} (n : Z) (rows : list A) : Result (list A) :=
  if (negb (int8_ok n) || (n <? 0)%Z)%bool then Throw DbError
  else Ok (skipn (Z.to_nat n) rows).

(** [MIN(col)] and [MAX(col)] over the non-null values of a group. *)
Definition sql_min (vals : list Q) : option Q :=
  match vals with
  | [] => None
  | v :: vs => Some (fold_left (fun m x => if Qle_bool x m then x else m) vs v)
  end.

Definition sql_max (vals : list Q) : option Q :=
  match vals with
  | [] => None
  | v :: vs => Some (fold_left (fun m x => if Qle_bool m x then x else m) vs v)
  end.

(** Values of a nullable joined table within a group. *)
Definition non_null {A B} (f : A -> B) (l : list (option A)) : list B :=
  flat_map (fun o => match o with Some a => [f a] | None => [] end) l.

(* ================================================================== *)
(** * Joined rows and [WHERE] conditions *)

(** A row of [laptop_models lm JOIN brands b JOIN hardware_specs hs] joined
    (inner or left) with [inventory i]. *)
Record Joined : Type := {
  j_lm : LaptopModel;
  j_b : Brand;
  j_hs : HardwareSpec;
  j_i : option Inventory
}.

Definition on_brand (lm : LaptopModel) (b : Brand) : bool :=
  String.eqb (lm_brand_id lm) (b_brand_id b).

Definition on_spec (x : LaptopModel * Brand) (hs : HardwareSpec) : bool :=
  String.eqb (lm_spec_id (fst x)) (hs_spec_id hs).

(** [FROM laptop_models lm JOIN brands b ON lm.brand_id = b.brand_id
     JOIN hardware_specs hs ON lm.spec_id = hs.spec_id] *)
Definition from_catalog (d : Database)
  : list (LaptopModel * Brand * HardwareSpec) :=
  inner_join on_spec (inner_join on_brand (laptop_models d) (brands d))
    (hardware_specs d).

Definition sql_is (expected : bool) (v : option bool) : bool :=
  match v with
  | Some b => Bool.eqb b expected
  | None => false                        (* NULL = x is never true *)
  end.

(** The condition strings the handlers push, with their bound values. *)
Inductive Cond : Type :=
| NotDiscontinued                (* lm.is_discontinued = false *)
| OfferAvailable                 (* i.is_available = true *)
| OfferInStock                   (* i.stock_quantity > 0 *)
| PriceAtMost (v : Q)            (* i.unit_price <= $n *)
| RamAtLeast (v : Q)             (* hs.ram_gb >= $n *)
| RamAtMost (v : Q)              (* hs.ram_gb <= $n *)
| StorageAtLeast (v : Q)         (* hs.storage_capacity_gb >= $n *)
| StorageAtMost (v : Q)          (* hs.storage_capacity_gb <= $n *)
| GpuTypeIs (v : string)         (* hs.gpu_type = $n *)
| CoresAtLeast (v : Q)           (* hs.processor_cores >= $n *)
| RefreshAtLeast (v : Q)         (* hs.refresh_rate_hz >= $n *)
| BrandSlugIs (v : string)       (* b.brand_slug = $n *)
| SeriesIs (v : string).         (* lm.series = $n *)

Definition on_offer (f : Inventory -> bool) (j : Joined) : bool :=
  match j_i j with Some i => f i | None => false end.

Definition eval_cond (c : Cond) (j : Joined) : bool :=
  match c with
  | NotDiscontinued => sql_is false (lm_is_discontinued (j_lm j))
  | OfferAvailable => on_offer (fun i => sql_is true (i_is_available i)) j
  | OfferInStock => on_offer (fun i => (0 <? i_stock_quantity i)%Z) j
  | PriceAtMost v => on_offer (fun i => Qle_bool (i_unit_price i) v) j
  | RamAtLeast v => Qle_bool v (inject_Z (hs_ram_gb (j_hs j)))
  | RamAtMost v => Qle_bool (inject_Z (hs_ram_gb (j_hs j))) v
  | StorageAtLeast v =>
      Qle_bool v (inject_Z (hs_storage_capacity_gb (j_hs j)))
  | StorageAtMost v =>
      Qle_bool (inject_Z (hs_storage_capacity_gb (j_hs j))) v
  | GpuTypeIs v => String.eqb (gpu_name (hs_gpu_type (j_hs j))) v
  | CoresAtLeast v => Qle_bool v (inject_Z (hs_processor_cores (j_hs j)))
  | RefreshAtLeast v =>
      match hs_refresh_rate_hz (j_hs j) with
      | Some hz => Qle_bool v (inject_Z hz)
      | None => false
      end
  | BrandSlugIs v => String.eqb (b_brand_slug (j_b j)) v
  | SeriesIs v =>
      match lm_series (j_lm j) with
      | Some s => String.eqb s v
      | None => false
      end
  end.

(** [WHERE conditions.join(' AND ')] *)
Definition where_ (conditions : list Cond) (j : Joined) : bool :=
  forallb (fun c => eval_cond c j) conditions.

(** The values of the type [integer]. *)
Definition int4_ok (q : Q) : bool :=
  is_integer q && Qle_bool (- (2147483648)) q && Qle_bool q 2147483647.

(** A bound value is sent as text and read by the server in the type of the
    column it is compared with: [ram_gb], [storage_capacity_gb],
    [processor_cores] and [refresh_rate_hz] are [INTEGER], so a value with a
    fraction or out of the range of that type is refused; [unit_price] is
    [DECIMAL] and the other columns are text. *)
Definition bindable (c : Cond) : bool :=
  match c with
  | RamAtLeast v | RamAtMost v | StorageAtLeast v | StorageAtMost v
  | CoresAtLeast v | RefreshAtLeast v => int4_ok v
  | _ => true
  end.

(** Binding the values of the conditions: the query fails when one of them
    is refused. *)
Definition bind_params (conditions : list Cond) : Result unit :=
  if forallb bindable conditions then Ok tt else Throw DbError.

(** ** Values of the type [UUID]

    The identifiers of the tables are of the type [UUID].  A text bound to
    such a column is read by the input function of the type: 32 hexadecimal
    digits, optionally in braces, with an optional hyphen after any group of
    four digits but the last; anything else is a syntax error of the query.
    The value is the digits in lower case, as the server writes them. *)

Definition is_hex (c : ascii) : bool :=
  let n := nat_of_ascii c in
  ((Nat.leb 48 n && Nat.leb n 57) || (Nat.leb 65 n && Nat.leb n 70)
   || (Nat.leb 97 n && Nat.leb n 102))%bool.

Definition hex_lower (c : ascii) : ascii :=
  let n := nat_of_ascii c in
  if (Nat.leb 65 n && Nat.leb n 70)%bool then ascii_of_nat (n + 32) else c.

(** The next [count] bytes, two digits each, [i] being the index of the
    first of them; the digits read and the rest of the text. *)
Fixpoint uuid_bytes (count i : nat) (src : string)
  : option (list ascii * string) :=
  match count with
  | O => Some ([], src)
  | S count' =>
      match src with
      | String a (String b rest) =>
          if is_hex a && is_hex b
          then
            let rest' :=
              match rest with
              | String "-"%char r =>
                  if Nat.odd i && Nat.ltb i 15 then r else rest
              | _ => rest
              end in
            match uuid_bytes count' (S i) rest' with
            | Some (ds, tail) =>
                Some (hex_lower a :: hex_lower b :: ds, tail)
            | None => None
            end
          else None
      | _ => None
      end
  end.

(** The text the server writes for a value: groups of 8, 4, 4, 4 and 12
    digits. *)
Definition uuid_text (ds : list ascii) : string :=
  let part := fun from len =>
                string_of_list_ascii (firstn len (skipn from ds)) in
  String.concat "-" [part 0 8; part 8 4; part 12 4; part 16 4; part 20 12]%nat.

Definition uuid_in (source : string) : option string :=
  let braces := match source with String "{"%char _ => true | _ => false end in
  let src := match source with String "{"%char r => r | _ => source end in
  match uuid_bytes 16 0 src with
  | Some (ds, tail) =>
      let after :=
        if braces
        then match tail with String "}"%char r => Some r | _ => None end
        else Some tail in
      match after with
      | Some EmptyString => Some (uuid_text ds)
      | _ => None
      end
  | None => None
  end.

(** JavaScript truthiness of an optional number: [undefined] and [0] are
    falsy. *)
Definition truthy_num (v : option Q) : bool :=
  match v with
  | Some q => negb (Qeq_bool q 0)
  | None => false
  end.

(* ================================================================== *)
(** * The connection pool

    A query rejects when the database is unreachable, when the server
    refuses its text ([grouping_accepted]) or when it refuses a bound value
    ([bind_params], [uuid_in], [limit]); otherwise it has its relational
    meaning. *)

Record Pool : Type := {
  pool_data : Database;
  pool_up : bool
}.

Definition pool_query {A} (p : Pool) (q : Database -> Result A) : Result A :=
  if pool_up p then q (pool_data p) else Throw DbError.

(* ================================================================== *)
(** * [getFallbackRecommendations] *)

(** A result row of the fallback query. *)
Record FallbackRow : Type := {
  row_spec_id : string;                  (* lm.model_id as spec_id *)
  row_model_name : string;
  row_series : option string;
  row_brand_name : string;
  row_ram_gb : Z;
  row_storage_capacity_gb : Z;
  row_gpu_type : GpuType;
  row_min_price : Q;                     (* i.unit_price as min_price *)
  row_relevance_score : Q                (* 0.5 as relevance_score *)
}.

Record FallbackRec : Type := {
  spec_id : string;
  relevance_score : Q;
  laptop : FallbackRow;
  matched_features : list Json
}.

Definition Offer : Type := (LaptopModel * Brand * HardwareSpec * Inventory)%type.

Definition offer_lm (x : Offer) : LaptopModel := fst (fst (fst x)).
Definition offer_b (x : Offer) : Brand := snd (fst (fst x)).
Definition offer_hs (x : Offer) : HardwareSpec := snd (fst x).
Definition offer_i (x : Offer) : Inventory := snd x.

Definition on_inventory (x : LaptopModel * Brand * HardwareSpec)
  (i : Inventory) : bool :=
  String.eqb (lm_model_id (fst (fst x))) (i_model_id i).

(** [FROM laptop_models lm JOIN brands b ... JOIN hardware_specs hs ...
     JOIN inventory i ON lm.model_id = i.model_id] *)
Definition fallback_from (d : Database) : list Offer :=
  inner_join on_inventory (from_catalog d) (inventory d).

Definition as_joined (x : Offer) : Joined :=
  {| j_lm := offer_lm x; j_b := offer_b x; j_hs := offer_hs x;
     j_i := Some (offer_i x) |}.

(** [if (prefs.field) { conditions.push(...); values.push(prefs.field) }] *)
Definition push_if_truthy (v : option Q) (c : Q -> Cond) : list Cond :=
  match v with
  | Some q => if truthy_num v then [c q] else []
  | None => []
  end.

Definition fallback_conditions (prefs : UserPreferences) : list Cond :=
  [NotDiscontinued; OfferAvailable; OfferInStock]
  ++ push_if_truthy (max_budget prefs) PriceAtMost
  ++ push_if_truthy (min_ram_gb prefs) RamAtLeast
  ++ match preferred_gpu_type prefs with
     | Some g => [GpuTypeIs (gpu_name g)]
     | None => []
     end.

(** [ORDER BY i.unit_price ASC] *)
Definition price_leb (x y : Offer) : bool :=
  Qle_bool (i_unit_price (offer_i x)) (i_unit_price (offer_i y)).

Definition fallback_select (x : Offer) : FallbackRow :=
  {| row_spec_id := lm_model_id (offer_lm x);
     row_model_name := lm_model_name (offer_lm x);
     row_series := lm_series (offer_lm x);
     row_brand_name := b_brand_name (offer_b x);
     row_ram_gb := hs_ram_gb (offer_hs x);
     row_storage_capacity_gb := hs_storage_capacity_gb (offer_hs x);
     row_gpu_type := hs_gpu_type (offer_hs x);
     row_min_price := i_unit_price (offer_i x);
     row_relevance_score := 1 # 2 |}.

(** The offers that pass the [WHERE] clause of the fallback query. *)
Definition qualifying (body : Body) (d : Database) : list Offer :=
  filter (fun x => where_ (fallback_conditions (user_preferences body))
                     (as_joined x))
    (fallback_from d).

(** The rows the fallback query selects, before projection. *)
Definition fallback_offers (body : Body) (d : Database)
  : Result (list Offer) :=
  bound <- bind_params (fallback_conditions (user_preferences body)) ;;
  limit (top_k body)
    (order_by (tie_order d Offer) price_leb (qualifying body d)).

Definition fallback_query (body : Body) (d : Database)
  : Result (list FallbackRow) :=
  rows <- fallback_offers body d ;; Ok (map fallback_select rows).

Definition fallback_entry (row : FallbackRow) : FallbackRec :=
  {| spec_id := row_spec_id row;
     relevance_score := row_relevance_score row;
     laptop := row;
     matched_features := [] |}.

(** [getFallbackRecommendations(app, body)].

    The body of the function runs its query on the identifier [db], which is
    neither a parameter nor a local of the function; the first argument is what
    that identifier resolves to in the enclosing scope ([None]: no binding,
    evaluation raises a ReferenceError).  The parameter [app] is not used by
    the function. *)
Definition getFallbackRecommendations (db : option Pool) (body : Body)
  : Result (list FallbackRec) :=
  match db with
  | None => Throw (ReferenceError "db")
  | Some pool =>
      rows <- pool_query pool (fallback_query body) ;;
      Ok (map fallback_entry rows)
  end.

(** The module [recommendations.ts] imports [FastifyPluginAsync], [getPool]
    and [z] and declares [recommendationSchema], [AI_COMPUTE_URL],
    [recommendationsRoutes], [generateRecommendationReason] and
    [getFallbackRecommendations]; [db] is declared only as a local constant
    inside the route handlers.  At module level the identifier has no
    binding. *)
Definition module_db : option Pool := None.

(* ================================================================== *)
(** * [generateRecommendationReason] *)

(** The properties the function reads from [recommendation.laptop];
    [None] is a property that is undefined or null on the row.  A price
    that is present is truthy (prices are positive). *)
Record LaptopProps : Type := {
  gpu_type : option string;
  ram_gb : option Z;
  min_price : option Q
}.

(** Template-literal rendering of an integer. *)
Definition number_to_string (n : Z) : string :=
  NilZero.string_of_int (Z.to_int n).

Definition is_some {A} (o : option A) : bool :=
  match o with Some _ => true | None => false end.

Definition opt_bind {A B} (o : option A) (f : A -> option B) : option B :=
  match o with Some a => f a | None => None end.

Definition truthy_bool (v : option bool) : bool :=
  match v with Some b => b | None => false end.

Definition reason_gaming : string := "Dedicated GPU for gaming performance".
Definition reason_ram (n : Z) : string :=
  String.append (number_to_string n) "GB RAM for smooth multitasking".
Definition reason_portable : string := "Portable design for on-the-go use".
Definition reason_budget : string := "Within your budget".
Definition reason_generic : string := "Matches your preferences".

(** The four signals, one per [if] of the function. *)
Definition signal_gaming (laptop : option LaptopProps)
  (preferences : UserPreferences) : bool :=
  usage_eqb (primary_usage preferences) Gaming
  && match opt_bind laptop gpu_type with
     | Some g => String.eqb g "Dedicated"
     | None => false
     end.

Definition signal_ram (laptop : option LaptopProps) : option Z :=
  match opt_bind laptop ram_gb with
  | Some n => if (16 <=? n)%Z then Some n else None
  | None => None
  end.

Definition signal_portable (laptop : option LaptopProps)
  (preferences : UserPreferences) : bool :=
  truthy_bool (prefer_thin_and_light preferences) && is_some laptop.

Definition signal_budget (laptop : option LaptopProps)
  (preferences : UserPreferences) : bool :=
  match max_budget preferences, opt_bind laptop min_price with
  | Some maxb, Some price =>
      truthy_num (Some maxb) && Qle_bool price maxb
  | _, _ => false
  end.

(** The array [reasons] after the four conditional pushes. *)
Definition reasons (laptop : option LaptopProps)
  (preferences : UserPreferences) : list string :=
  (if signal_gaming laptop preferences then [reason_gaming] else [])
  ++ match signal_ram laptop with Some n => [reason_ram n] | None => [] end
  ++ (if signal_portable laptop preferences then [reason_portable] else [])
  ++ (if signal_budget laptop preferences then [reason_budget] else []).

Definition generateRecommendationReason (laptop : option LaptopProps)
  (preferences : UserPreferences) : string :=
  match reasons laptop preferences with
  | [] => reason_generic
  | rs => String.concat ", " rs
  end.

(* ================================================================== *)
(** * The enrichment query of the primary path *)

Record EnrichedLaptop : Type := {
  e_model_id : string;
  e_model_name : string;
  e_series : option string;
  e_short_description : option string;
  e_product_image_url : option string;
  e_brand_name : string;
  e_brand_slug : string;
  e_processor_model : string;
  e_ram_gb : Z;
  e_storage_capacity_gb : Z;
  e_gpu_model : option string;
  e_display_size_inches : Q;
  e_min_price : option Q;                (* MIN(i.unit_price) *)
  e_available_from : Z                   (* COUNT(i.inventory_id) *)
}.

Definition CatalogRow : Type :=
  (LaptopModel * Brand * HardwareSpec * option Inventory)%type.

Definition left_joined (x : CatalogRow) : Joined :=
  {| j_lm := fst (fst (fst x)); j_b := snd (fst (fst x));
     j_hs := snd (fst x); j_i := snd x |}.

(** [LEFT JOIN inventory i ON lm.model_id = i.model_id
     AND i.is_available = true] *)
Definition on_available (x : LaptopModel * Brand * HardwareSpec)
  (i : Inventory) : bool :=
  on_inventory x i && sql_is true (i_is_available i).

Definition opt_eqb {A} (eqb : A -> A -> bool) (x y : option A) : bool :=
  match x, y with
  | Some a, Some b => eqb a b
  | None, None => true
  | _, _ => false
  end.

(** [GROUP BY lm.model_id, b.brand_name, hs.processor_model, hs.ram_gb,
     hs.storage_capacity_gb, hs.gpu_model, hs.display_size_inches] *)
Definition same_enrich_group (x y : Joined) : bool :=
  String.eqb (lm_model_id (j_lm x)) (lm_model_id (j_lm y))
  && String.eqb (b_brand_name (j_b x)) (b_brand_name (j_b y))
  && String.eqb (hs_processor_model (j_hs x)) (hs_processor_model (j_hs y))
  && Z.eqb (hs_ram_gb (j_hs x)) (hs_ram_gb (j_hs y))
  && Z.eqb (hs_storage_capacity_gb (j_hs x)) (hs_storage_capacity_gb (j_hs y))
  && opt_eqb String.eqb (hs_gpu_model (j_hs x)) (hs_gpu_model (j_hs y))
  && Qeq_bool (hs_display_size_inches (j_hs x))
       (hs_display_size_inches (j_hs y)).

Definition group_prices (g : Joined * list Joined) : list Q :=
  non_null i_unit_price (map j_i (members g)).

Definition group_count (g : Joined * list Joined) : Z :=
  Z.of_nat (List.length (non_null i_inventory_id (map j_i (members g)))).

Definition enrich_select (g : Joined * list Joined) : EnrichedLaptop :=
  let j := fst g in
  {| e_model_id := lm_model_id (j_lm j);
     e_model_name := lm_model_name (j_lm j);
     e_series := lm_series (j_lm j);
     e_short_description := lm_short_description (j_lm j);
     e_product_image_url := lm_product_image_url (j_lm j);
     e_brand_name := b_brand_name (j_b j);
     e_brand_slug := b_brand_slug (j_b j);
     e_processor_model := hs_processor_model (j_hs j);
     e_ram_gb := hs_ram_gb (j_hs j);
     e_storage_capacity_gb := hs_storage_capacity_gb (j_hs j);
     e_gpu_model := hs_gpu_model (j_hs j);
     e_display_size_inches := hs_display_size_inches (j_hs j);
     e_min_price := sql_min (group_prices g);
     e_available_from := group_count g |}.

(** The bound value [$1 = rec.spec_id]: only a string can equal a model id. *)
Definition id_param (v : option Json) : option string :=
  match v with Some (JStr s) => Some s | _ => None end.

(** ** The rule of the server for grouped queries

    A column of a table, by the alias of the table. *)
Definition Column : Type := (string * string)%type.

Definition column_eqb (x y : Column) : bool :=
  String.eqb (fst x) (fst y) && String.eqb (snd x) (snd y).

(** The primary keys of [data/sql/001_initial_schema.sql]. *)
Definition table_keys : list Column :=
  [("lm", "model_id"); ("b", "brand_id"); ("hs", "spec_id");
   ("i", "inventory_id"); ("r", "recommendation_id")].

(** PostgreSQL accepts a column outside an aggregate in the select list of
    a grouped query when it is a grouping column or when the primary key of
    its table is one; a unique column that is not the primary key does not
    count. *)
Definition column_accepted (grouping : list Column) (c : Column) : bool :=
  existsb (column_eqb c) grouping
  || existsb (fun k => String.eqb (fst k) (fst c)
                       && existsb (column_eqb k) grouping) table_keys.

Definition grouping_accepted (selected grouping : list Column) : bool :=
  forallb (column_accepted grouping) selected.

(** The select list of the enrichment query outside [MIN] and [COUNT], and
    its [GROUP BY]. *)
Definition enrich_selected : list Column :=
  [("lm", "model_id"); ("lm", "model_name"); ("lm", "series");
   ("lm", "short_description"); ("lm", "product_image_url");
   ("b", "brand_name"); ("b", "brand_slug"); ("hs", "processor_model");
   ("hs", "ram_gb"); ("hs", "storage_capacity_gb"); ("hs", "gpu_model");
   ("hs", "display_size_inches")].

Definition enrich_grouping : list Column :=
  [("lm", "model_id"); ("b", "brand_name"); ("hs", "processor_model");
   ("hs", "ram_gb"); ("hs", "storage_capacity_gb"); ("hs", "gpu_model");
   ("hs", "display_size_inches")].

(** The enrichment query: the server checks the text of the query before it
    runs it, and what it would select were the text accepted. *)
Definition enrich_query (param : option string) (d : Database)
  : Result (list EnrichedLaptop) :=
  let rows := map left_joined
                (left_join on_available (from_catalog d) (inventory d)) in
  let matching :=
    filter (fun j => match param with
                     | Some s => String.eqb (lm_model_id (j_lm j)) s
                     | None => false
                     end) rows in
  if grouping_accepted enrich_selected enrich_grouping
  then Ok (map enrich_select (group_by same_enrich_group matching))
  else Throw DbError.

(** The select list of the enrichment query has no [gpu_type] column. *)
Definition props_of_enriched (l : EnrichedLaptop) : LaptopProps :=
  {| gpu_type := None; ram_gb := Some (e_ram_gb l);
     min_price := e_min_price l |}.

(* ================================================================== *)
(** * JavaScript values of the handler *)

(** [v.k]: reading a property of [null] throws; values other than objects
    have none of the properties the handler reads. *)
Definition prop (k : string) (v : Json) : Result (option Json) :=
  match v with
  | JNull => Throw TypeError
  | JObj props => Ok (get k props)
  | _ => Ok None
  end.

(** [v.map(...)]: only an array has the method. *)
Definition as_array (v : option Json) : Result (list Json) :=
  match v with
  | Some (JArr items) => Ok items
  | _ => Throw TypeError
  end.

Definition truthy (v : Json) : bool :=
  match v with
  | JNull => false
  | JBool b => b
  | JNum q => negb (Qeq_bool q 0)
  | JStr s => negb (String.eqb s "")
  | _ => true
  end.

(** [v || d] *)
Definition or_else (v : option Json) (d : Json) : Json :=
  match v with
  | Some j => if truthy j then j else d
  | None => d
  end.

Definition index_key (n : nat) : string :=
  NilZero.string_of_uint (Nat.to_uint n).

Definition indexed (items : list Json) : list (string * Json) :=
  combine (map index_key (seq 0 (List.length items))) items.

(** [{...v}]: the own enumerable properties of [v]. *)
Definition spread (v : Json) : list (string * Json) :=
  match v with
  | JObj props => props
  | JArr items => indexed items
  | JStr s =>
      indexed (map (fun c => JStr (String c "")) (list_ascii_of_string s))
  | _ => []
  end.

(** [{...props, k: v}] *)
Fixpoint set_prop (k : string) (v : Json) (props : list (string * Json))
  : list (string * Json) :=
  match props with
  | [] => [(k, v)]
  | (k', v') :: rest =>
      if String.eqb k k' then (k, v) :: rest
      else (k', v') :: set_prop k v rest
  end.

Definition opt_json {A} (f : A -> Json) (o : option A) : Json :=
  match o with Some a => f a | None => JNull end.

(** A property whose value is [undefined] is left out of the serialization. *)
Definition opt_field {A} (k : string) (f : A -> Json) (o : option A)
  : list (string * Json) :=
  match o with Some a => [(k, f a)] | None => [] end.

Definition JInt (n : Z) : Json := JNum (inject_Z n).

Fixpoint zeros (n : nat) : string :=
  match n with
  | O => EmptyString
  | S n' => String "0"%char (zeros n')
  end.

(** The driver hands a [DECIMAL] value (and a [bigint], as [COUNT] yields
    it) to the handler as the text the server writes for it: for a value
    with [scale] digits after the point, those digits in full. *)
Definition numeric_text (scale : nat) (q : Q) : string :=
  let unit := (10 ^ Z.of_nat scale)%Z in
  let n := (Qnum q * unit / Zpos (Qden q))%Z in
  let a := Z.abs n in
  let fraction := number_to_string (a mod unit) in
  String.append (if (n <? 0)%Z then "-" else "")
    (String.append (number_to_string (a / unit))
       (match scale with
        | O => ""
        | _ => String.append "."
                 (String.append (zeros (scale - String.length fraction))
                    fraction)
        end)).

Definition prefs_json (p : UserPreferences) : Json :=
  JObj (opt_field "min_budget" JNum (min_budget p)
        ++ opt_field "max_budget" JNum (max_budget p)
        ++ [("primary_usage", JStr (usage_name (primary_usage p)))]
        ++ opt_field "min_ram_gb" JNum (min_ram_gb p)
        ++ opt_field "min_storage_gb" JNum (min_storage_gb p)
        ++ opt_field "preferred_gpu_type" (fun g => JStr (gpu_name g))
             (preferred_gpu_type p)
        ++ opt_field "min_display_size" JNum (min_display_size p)
        ++ opt_field "max_weight_kg" JNum (max_weight_kg p)
        ++ opt_field "prefer_thin_and_light" JBool (prefer_thin_and_light p)).

Definition fallback_row_json (r : FallbackRow) : Json :=
  JObj [("spec_id", JStr (row_spec_id r));
        ("model_name", JStr (row_model_name r));
        ("series", opt_json JStr (row_series r));
        ("brand_name", JStr (row_brand_name r));
        ("ram_gb", JInt (row_ram_gb r));
        ("storage_capacity_gb", JInt (row_storage_capacity_gb r));
        ("gpu_type", JStr (gpu_name (row_gpu_type r)));
        ("min_price", JStr (numeric_text 2 (row_min_price r)));
        ("relevance_score", JStr (numeric_text 1 (row_relevance_score r)))].

Definition fallback_rec_json (r : FallbackRec) : Json :=
  JObj [("spec_id", JStr (spec_id r));
        ("relevance_score", JStr (numeric_text 1 (relevance_score r)));
        ("laptop", fallback_row_json (laptop r));
        ("matched_features", JArr (matched_features r))].

Definition enriched_laptop_json (l : EnrichedLaptop) : Json :=
  JObj [("model_id", JStr (e_model_id l));
        ("model_name", JStr (e_model_name l));
        ("series", opt_json JStr (e_series l));
        ("short_description", opt_json JStr (e_short_description l));
        ("product_image_url", opt_json JStr (e_product_image_url l));
        ("brand_name", JStr (e_brand_name l));
        ("brand_slug", JStr (e_brand_slug l));
        ("processor_model", JStr (e_processor_model l));
        ("ram_gb", JInt (e_ram_gb l));
        ("storage_capacity_gb", JInt (e_storage_capacity_gb l));
        ("gpu_model", opt_json JStr (e_gpu_model l));
        ("display_size_inches",
          JStr (numeric_text 1 (e_display_size_inches l)));
        ("min_price",
          opt_json (fun p => JStr (numeric_text 2 p)) (e_min_price l));
        ("available_from", JStr (number_to_string (e_available_from l)))].

(** [{ ...rec, laptop: laptopResult.rows[0] || null }] *)
Record EnrichedRec : Type := {
  ai_rec : Json;
  enriched_laptop : option EnrichedLaptop
}.

Definition enriched_props (e : EnrichedRec) : list (string * Json) :=
  set_prop "laptop" (opt_json enriched_laptop_json (enriched_laptop e))
    (spread (ai_rec e)).

Definition enriched_rec_json (e : EnrichedRec) : Json :=
  JObj (enriched_props e).

(* ================================================================== *)
(** * The [POST /] handler *)

(** What the AI compute service answers to the forwarded body. *)
Inductive AiOutcome : Type :=
| FetchRejected
| Responded (ok : bool) (statusText : string) (json : option Json).

(** The bound values of one analytics [INSERT]. *)
Record InsertValues : Type := {
  iv_user_id : string;
  iv_model_id : option string;
  iv_relevance_score : option Json;
  iv_confidence_score : Json;
  iv_recommendation_reason : string;
  iv_matched_features : Json             (* before JSON.stringify *)
}.

Inductive LogEntry : Type :=
| LogError (msg : string) (e : Error)
| LogWarn (msg : string).

(** Everything outside the handler that a request depends on. *)
Record World : Type := {
  w_pool : option Pool;                  (* the singleton [pool] of db/index *)
  w_ai : Body -> AiOutcome;
  w_insert_ok : InsertValues -> bool;    (* does this INSERT resolve *)
  w_now : string                         (* new Date().toISOString() *)
}.

(** [getPool()] *)
Definition getPool (w : World) : Result Pool :=
  match w_pool w with
  | Some p => Ok p
  | None => Throw PoolNotInitialized
  end.

(** [fetch], the [ok] check and [aiResponse.json()]. *)
Definition fetch_ai (w : World) (body : Body) : Result Json :=
  match w_ai w body with
  | FetchRejected => Throw FetchError
  | Responded ok statusText json =>
      if ok
      then match json with
           | Some j => Ok j
           | None => Throw SyntaxError
           end
      else Throw (AiServiceError statusText)
  end.

Definition enrich (db : Pool) (rec : Json) : Result EnrichedRec :=
  sid <- prop "spec_id" rec ;;
  rows <- pool_query db (enrich_query (id_param sid)) ;;
  Ok {| ai_rec := rec; enriched_laptop := hd_error rows |}.

(** The part of the [try] block that can throw. *)
Definition primary_path (w : World) (db : Pool) (body : Body)
  : Result (Json * list EnrichedRec) :=
  aiData <- fetch_ai w body ;;
  recs <- prop "recommendations" aiData ;;
  items <- as_array recs ;;
  enriched <- mapM (enrich db) items ;;
  Ok (aiData, enriched).

Definition userId : string := "user-uuid-from-jwt".

Definition insert_values (aiData : Json) (prefs : UserPreferences)
  (rec : EnrichedRec) : InsertValues :=
  {| iv_user_id := userId;
     iv_model_id := option_map e_model_id (enriched_laptop rec);
     iv_relevance_score := get "relevance_score" (enriched_props rec);
     iv_confidence_score :=
       or_else (match aiData with
                | JObj props => get "confidence" props
                | _ => None
                end) JNull;
     iv_recommendation_reason :=
       generateRecommendationReason
         (option_map props_of_enriched (enriched_laptop rec)) prefs;
     iv_matched_features :=
       or_else (get "matched_features" (enriched_props rec)) (JArr []) |}.

(** One [INSERT]: the value bound to [user_id], a column of the type
    [UUID], has to be the text of a UUID; beyond that the outcome is up to
    the database. *)
Definition insert_resolves (w : World) (v : InsertValues) : bool :=
  is_some (uuid_in (iv_user_id v)) && w_insert_ok w v.

(** The analytics inserts: each one either lands in the table or, when it
    rejects, is turned into a warning by its [.catch]. *)
Definition record_analytics (w : World) (aiData : Json)
  (prefs : UserPreferences) (recs : list EnrichedRec)
  : list InsertValues * list LogEntry :=
  let vals := map (insert_values aiData prefs) recs in
  (filter (insert_resolves w) vals,
   map (fun _ => LogWarn "Failed to store recommendation")
     (filter (fun v => negb (insert_resolves w v)) vals)).

Definition fallback_note : string :=
  "Fallback recommendations (AI service unavailable)".

Definition primary_payload (w : World) (body : Body)
  (recs : list EnrichedRec) : Json :=
  JObj [("success", JBool true);
        ("data",
          JObj [("recommendations", JArr (map enriched_rec_json recs));
                ("user_preferences", prefs_json (user_preferences body));
                ("generated_at", JStr (w_now w))])].

Definition fallback_payload (w : World) (body : Body)
  (recs : list FallbackRec) : Json :=
  JObj [("success", JBool true);
        ("data",
          JObj [("recommendations", JArr (map fallback_rec_json recs));
                ("user_preferences", prefs_json (user_preferences body));
                ("generated_at", JStr (w_now w));
                ("note", JStr fallback_note)])].

(** What a request leaves behind: the reply ([Ok]: the payload given to
    [reply.send]; [Throw]: the handler rejected and the error handler of the
    application answers with an error), the log lines and the rows added to
    [recommendations]. *)
Record Outcome : Type := {
  reply : Result Json;
  logged : list LogEntry;
  inserted : list InsertValues
}.

Definition rejected (e : Error) : Outcome :=
  {| reply := Throw e; logged := []; inserted := [] |}.

(** The [catch] block. *)
Definition on_primary_failure (fallback_db : option Pool) (w : World)
  (body : Body) (error : Error) : Outcome :=
  let log := [LogError "Recommendation error:" error] in
  match getFallbackRecommendations fallback_db body with
  | Ok fallbackRecs =>
      {| reply := Ok (fallback_payload w body fallbackRecs);
         logged := log; inserted := [] |}
  | Throw e => {| reply := Throw e; logged := log; inserted := [] |}
  end.

(** [app.post('/', ...)], for a given resolution [fallback_db] of the
    identifier [db] inside [getFallbackRecommendations]. *)
Definition post_recommendations (fallback_db : option Pool) (w : World)
  (raw : option Json) : Outcome :=
  match getPool w with
  | Throw e => rejected e
  | Ok db =>
      match recommendationSchema_parse raw with
      | Throw e => rejected e
      | Ok body =>
          match primary_path w db body with
          | Ok (aiData, enrichedRecommendations) =>
              let (rows, warnings) :=
                record_analytics w aiData (user_preferences body)
                  enrichedRecommendations in
              {| reply := Ok (primary_payload w body enrichedRecommendations);
                 logged := warnings; inserted := rows |}
          | Throw error => on_primary_failure fallback_db w body error
          end
      end
  end.

(** The handler of the module as it is written. *)
Definition recommendationsRoutes_post (w : World) (raw : option Json)
  : Outcome :=
  post_recommendations module_db w raw.

(* ================================================================== *)
(** * [parseInt] and [toLowerCase] *)

Definition is_space (c : ascii) : bool :=
  let n := nat_of_ascii c in
  (Nat.eqb n 32 || (Nat.leb 9 n && Nat.leb n 13))%bool.

Fixpoint skip_spaces (s : string) : string :=
  match s with
  | String c rest => if is_space c then skip_spaces rest else s
  | EmptyString => s
  end.

(** Value of a digit character in the given radix. *)
Definition digit_of (radix : Z) (c : ascii) : option Z :=
  let n := Z.of_nat (nat_of_ascii c) in
  let d := if ((48 <=? n) && (n <=? 57))%Z%bool then Some (n - 48)%Z
           else if ((97 <=? n) && (n <=? 122))%Z%bool then Some (n - 87)%Z
           else if ((65 <=? n) && (n <=? 90))%Z%bool then Some (n - 55)%Z
           else None in
  match d with
  | Some v => if (v <? radix)%Z then Some v else None
  | None => None
  end.

(** The longest prefix of digits; [None] (NaN) when there is none. *)
Fixpoint digits (radix : Z) (s : string) (acc : option Z) : option Z :=
  match s with
  | String c rest =>
      match digit_of radix c with
      | Some d =>
          digits radix rest
            (Some (radix * match acc with Some a => a | None => 0 end + d)%Z)
      | None => acc
      end
  | EmptyString => acc
  end.

Definition signed (s : string) (k : string -> option Z) : option Z :=
  match s with
  | String "-"%char rest => option_map Z.opp (k rest)
  | String "+"%char rest => k rest
  | _ => k s
  end.

(** A natural number without its [k] lowest bits, rounded to the nearest,
    a tie to the even one. *)
Definition round_bits (k : Z) (a : Z) : Z :=
  let q := Z.shiftr a k in
  let r := Z.land a (Z.ones k) in
  let half := Z.shiftl 1 (k - 1) in
  let q' := if (r <? half)%Z then q
            else if (half <? r)%Z then (q + 1)%Z
            else if Z.even q then q else (q + 1)%Z in
  Z.shiftl q' k.

(** The integer as a [Number]: a double has 53 significant bits, and what
    is beyond the largest double is an infinity, for which [2 ^ 1024]
    stands. *)
Definition to_double (n : Z) : Z :=
  let a := Z.abs n in
  let k := (Z.log2 a + 1 - 53)%Z in
  let m := if (k <=? 0)%Z then a else round_bits k a in
  (Z.sgn n * (if (2 ^ 1024 <=? m)%Z then 2 ^ 1024 else m))%Z.

(** [parseInt(s, 10)]; [None] is NaN. *)
Definition parseInt10 (s : string) : option Z :=
  option_map to_double
    (signed (skip_spaces s) (fun t => digits 10 t None)).

(** [parseInt(s)]: a [0x] prefix selects radix 16. *)
Definition parseInt (s : string) : option Z :=
  option_map to_double
    (signed (skip_spaces s)
       (fun t =>
          match t with
          | String "0"%char (String x rest) =>
              if (Ascii.eqb x "x" || Ascii.eqb x "X")%bool
              then digits 16 rest None
              else digits 10 t None
          | _ => digits 10 t None
          end)).

Definition lower (c : ascii) : ascii :=
  let n := nat_of_ascii c in
  if (Nat.leb 65 n && Nat.leb n 90)%bool then ascii_of_nat (n + 32) else c.

Fixpoint toLowerCase (s : string) : string :=
  match s with
  | String c rest => String (lower c) (toLowerCase rest)
  | EmptyString => EmptyString
  end.

(** A number bound to a query parameter: NaN makes the query fail (a
    number that the type of the parameter does not hold fails where the
    parameter is used, see [bind_params] and [limit]). *)
Definition int_param (v : option Z) : Result Z :=
  match v with
  | Some n => Ok n
  | None => Throw DbError
  end.

(** Truthiness of an optional string: [undefined] and [""] are falsy. *)
Definition truthy_str (v : option string) : option string :=
  match v with
  | Some s => if String.eqb s "" then None else Some s
  | None => None
  end.

(** [NULLS LAST] ascending order of an optional price. *)
Definition price_opt_leb (x y : option Q) : bool :=
  match x, y with
  | Some a, Some b => Qle_bool a b
  | Some _, None => true
  | None, Some _ => false
  | None, None => true
  end.

(** [LEFT JOIN inventory i ON lm.model_id = i.model_id] with extra
    conditions on the offer. *)
Definition catalog_left_join (on : LaptopModel * Brand * HardwareSpec ->
                                   Inventory -> bool)
  (d : Database) : list Joined :=
  map left_joined (left_join on (from_catalog d) (inventory d)).

(* ================================================================== *)
(** * [GET /trending] *)

Record TrendingRow : Type := {
  tr_model_id : string;
  tr_model_name : string;
  tr_series : option string;
  tr_brand_name : string;
  tr_ram_gb : Z;
  tr_storage_capacity_gb : Z;
  tr_gpu_type : GpuType;
  tr_min_price : option Q;
  tr_recommendation_count : Z
}.

Definition seven_days : Z := 7 * 24 * 60 * 60.

(** [LEFT JOIN recommendations r ON lm.model_id = r.model_id
     AND r.created_at > NOW() - INTERVAL '7 days'] *)
Definition on_recent (now : Z) (j : Joined) (r : RecommendationRecord)
  : bool :=
  String.eqb (lm_model_id (j_lm j)) (r_model_id r)
  && (now - seven_days <? r_created_at r)%Z.

Definition TrendingJoined : Type :=
  (Joined * option RecommendationRecord)%type.

(** [GROUP BY lm.model_id, b.brand_name, hs.ram_gb, hs.storage_capacity_gb,
     hs.gpu_type] *)
Definition same_trending_group (x y : TrendingJoined) : bool :=
  String.eqb (lm_model_id (j_lm (fst x))) (lm_model_id (j_lm (fst y)))
  && String.eqb (b_brand_name (j_b (fst x))) (b_brand_name (j_b (fst y)))
  && Z.eqb (hs_ram_gb (j_hs (fst x))) (hs_ram_gb (j_hs (fst y)))
  && Z.eqb (hs_storage_capacity_gb (j_hs (fst x)))
       (hs_storage_capacity_gb (j_hs (fst y)))
  && gpu_eqb (hs_gpu_type (j_hs (fst x))) (hs_gpu_type (j_hs (fst y))).

Definition trending_select (g : TrendingJoined * list TrendingJoined)
  : TrendingRow :=
  let j := fst (fst g) in
  {| tr_model_id := lm_model_id (j_lm j);
     tr_model_name := lm_model_name (j_lm j);
     tr_series := lm_series (j_lm j);
     tr_brand_name := b_brand_name (j_b j);
     tr_ram_gb := hs_ram_gb (j_hs j);
     tr_storage_capacity_gb := hs_storage_capacity_gb (j_hs j);
     tr_gpu_type := hs_gpu_type (j_hs j);
     tr_min_price :=
       sql_min (non_null i_unit_price (map (fun x => j_i (fst x)) (members g)));
     tr_recommendation_count :=
       Z.of_nat (List.length (non_null r_recommendation_id
                                (map snd (members g)))) |}.

(** [ORDER BY recommendation_count DESC, min_price ASC] *)
Definition trending_leb (x y : TrendingRow) : bool :=
  if (tr_recommendation_count y <? tr_recommendation_count x)%Z then true
  else if (tr_recommendation_count x <? tr_recommendation_count y)%Z
       then false
       else price_opt_leb (tr_min_price x) (tr_min_price y).

Definition trending_query (now : Z) (d : Database)
  : Result (list TrendingRow) :=
  let joined :=
    left_join (on_recent now) (catalog_left_join on_available d)
      (recommendations d) in
  let kept := filter (fun x => where_ [NotDiscontinued] (fst x)) joined in
  limit 10
    (order_by (tie_order d TrendingRow) trending_leb
       (map trending_select (group_by same_trending_group kept))).

(** [app.get('/trending', ...)]; [now] is the clock of the database. *)
Definition get_trending (w : World) (now : Z) : Result (list TrendingRow) :=
  db <- getPool w ;; pool_query db (trending_query now).

(* ================================================================== *)
(** * [GET /by-usage/:usage] *)

Record UsageSpec : Type := {
  us_min_gpu_score : option Q;
  us_min_ram_gb : option Q;
  us_min_refresh_rate : option Q;
  us_min_cores : option Q;
  us_min_display_quality : option Q;
  us_max_weight_kg : option Q;
  us_min_battery : option Q;
  us_max_price : option Q
}.

Definition no_spec : UsageSpec :=
  {| us_min_gpu_score := None; us_min_ram_gb := None;
     us_min_refresh_rate := None; us_min_cores := None;
     us_min_display_quality := None; us_max_weight_kg := None;
     us_min_battery := None; us_max_price := None |}.

Definition usageSpecs : list (string * UsageSpec) :=
  [("gaming",
     {| us_min_gpu_score := Some 5; us_min_ram_gb := Some 16;
        us_min_refresh_rate := Some 120; us_min_cores := None;
        us_min_display_quality := None; us_max_weight_kg := None;
        us_min_battery := None; us_max_price := None |});
   ("programming",
     {| us_min_gpu_score := None; us_min_ram_gb := Some 16;
        us_min_refresh_rate := None; us_min_cores := Some 6;
        us_min_display_quality := None; us_max_weight_kg := None;
        us_min_battery := None; us_max_price := None |});
   ("design",
     {| us_min_gpu_score := None; us_min_ram_gb := Some 16;
        us_min_refresh_rate := None; us_min_cores := None;
        us_min_display_quality := Some 6; us_max_weight_kg := None;
        us_min_battery := None; us_max_price := None |});
   ("video editing",
     {| us_min_gpu_score := None; us_min_ram_gb := Some 32;
        us_min_refresh_rate := None; us_min_cores := Some 8;
        us_min_display_quality := None; us_max_weight_kg := None;
        us_min_battery := None; us_max_price := None |});
   ("office",
     {| us_min_gpu_score := None; us_min_ram_gb := None;
        us_min_refresh_rate := None; us_min_cores := None;
        us_min_display_quality := None; us_max_weight_kg := Some 2;
        us_min_battery := Some 60; us_max_price := None |});
   ("student",
     {| us_min_gpu_score := None; us_min_ram_gb := Some 8;
        us_min_refresh_rate := None; us_min_cores := None;
        us_min_display_quality := None; us_max_weight_kg := None;
        us_min_battery := None; us_max_price := Some 150000 |})].

(** [usageSpecs[usage.toLowerCase()] || {}] *)
Definition specs_of (usage : string) : UsageSpec :=
  match find (fun kv => String.eqb (toLowerCase usage) (fst kv)) usageSpecs
  with
  | Some kv => snd kv
  | None => no_spec
  end.

Definition usage_conditions (specs : UsageSpec) : list Cond :=
  [NotDiscontinued]
  ++ push_if_truthy (us_min_ram_gb specs) RamAtLeast
  ++ push_if_truthy (us_min_cores specs) CoresAtLeast
  ++ push_if_truthy (us_min_refresh_rate specs) RefreshAtLeast.

Record UsageRow : Type := {
  ur_lm : LaptopModel;                   (* model_id, model_name, series *)
  ur_b : Brand;                          (* brand_name *)
  ur_hs : HardwareSpec;                  (* the selected hs columns *)
  ur_min_price : option Q
}.

(** [GROUP BY lm.model_id, b.brand_name, hs.spec_id] *)
Definition same_usage_group (x y : Joined) : bool :=
  String.eqb (lm_model_id (j_lm x)) (lm_model_id (j_lm y))
  && String.eqb (b_brand_name (j_b x)) (b_brand_name (j_b y))
  && String.eqb (hs_spec_id (j_hs x)) (hs_spec_id (j_hs y)).

Definition usage_select (g : Joined * list Joined) : UsageRow :=
  {| ur_lm := j_lm (fst g); ur_b := j_b (fst g); ur_hs := j_hs (fst g);
     ur_min_price := sql_min (group_prices g) |}.

(** [ORDER BY min_price ASC] *)
Definition usage_leb (x y : UsageRow) : bool :=
  price_opt_leb (ur_min_price x) (ur_min_price y).

(** [parseInt(request.query.limit) || 10] *)
Definition usage_limit (limit_param : option string) : Z :=
  match opt_bind limit_param parseInt with
  | Some n => if (n =? 0)%Z then 10%Z else n
  | None => 10%Z
  end.

Definition by_usage_query (usage : string) (limit_param : option string)
  (d : Database) : Result (list UsageRow) :=
  let kept := filter (where_ (usage_conditions (specs_of usage)))
                (catalog_left_join on_available d) in
  bound <- bind_params (usage_conditions (specs_of usage)) ;;
  limit (usage_limit limit_param)
    (order_by (tie_order d UsageRow) usage_leb
       (map usage_select (group_by same_usage_group kept))).

(** [app.get('/by-usage/:usage', ...)] *)
Definition get_by_usage (w : World) (usage : string)
  (limit_param : option string) : Result (list UsageRow) :=
  db <- getPool w ;; pool_query db (by_usage_query usage limit_param).

(* ================================================================== *)
(** * [GET /] of [laptops.ts]: the browse listing *)

Record BrowseParams : Type := {
  brand : option string;
  minRam : option string;
  maxRam : option string;
  minStorage : option string;
  maxStorage : option string;
  gpuType : option string;
  minPrice : option string;              (* read, never used *)
  maxPrice : option string;              (* read, never used *)
  series : option string;
  limit_ : option string;                (* limit = '50' *)
  offset_ : option string                (* offset = '0' *)
}.

Definition push_str (v : option string) (c : string -> Cond) : list Cond :=
  match truthy_str v with Some s => [c s] | None => [] end.

(** [if (p) { conditions.push(...); values.push(parseInt(p, 10)) }] *)
Definition push_int (v : option string) (c : Q -> Cond)
  : Result (list Cond) :=
  match truthy_str v with
  | Some s => n <- int_param (parseInt10 s) ;; Ok [c (inject_Z n)]
  | None => Ok []
  end.

Definition browse_conditions (p : BrowseParams) : Result (list Cond) :=
  c_minRam <- push_int (minRam p) RamAtLeast ;;
  c_maxRam <- push_int (maxRam p) RamAtMost ;;
  c_minStorage <- push_int (minStorage p) StorageAtLeast ;;
  c_maxStorage <- push_int (maxStorage p) StorageAtMost ;;
  Ok ([NotDiscontinued]
      ++ push_str (brand p) BrandSlugIs
      ++ c_minRam ++ c_maxRam ++ c_minStorage ++ c_maxStorage
      ++ push_str (gpuType p) GpuTypeIs
      ++ push_str (series p) SeriesIs).

Record BrowseRow : Type := {
  br_lm : LaptopModel;                   (* the selected lm columns *)
  br_b : Brand;                          (* brand_id, brand_name, brand_slug *)
  br_hs : HardwareSpec;                  (* the selected hs columns *)
  br_min_price : option Q;
  br_max_price : option Q;
  br_available_count : Z
}.

(** [LEFT JOIN inventory i ON lm.model_id = i.model_id
     AND i.is_available = true AND i.stock_quantity > 0] *)
Definition on_in_stock (x : LaptopModel * Brand * HardwareSpec)
  (i : Inventory) : bool :=
  on_available x i && (0 <? i_stock_quantity i)%Z.

(** [GROUP BY lm.model_id, b.brand_id, hs.spec_id] *)
Definition same_browse_group (x y : Joined) : bool :=
  String.eqb (lm_model_id (j_lm x)) (lm_model_id (j_lm y))
  && String.eqb (b_brand_id (j_b x)) (b_brand_id (j_b y))
  && String.eqb (hs_spec_id (j_hs x)) (hs_spec_id (j_hs y)).

Definition browse_select (g : Joined * list Joined) : BrowseRow :=
  {| br_lm := j_lm (fst g); br_b := j_b (fst g); br_hs := j_hs (fst g);
     br_min_price := sql_min (group_prices g);
     br_max_price := sql_max (group_prices g);
     br_available_count := group_count g |}.

(** [ORDER BY lm.model_name] *)
Definition browse_leb (x y : BrowseRow) : bool :=
  String.leb (lm_model_name (br_lm x)) (lm_model_name (br_lm y)).

Definition default (d : string) (v : option string) : string :=
  match v with Some s => s | None => d end.

Definition browse_query (p : BrowseParams) (d : Database)
  : Result (list BrowseRow) :=
  conditions <- browse_conditions p ;;
  lim <- int_param (parseInt10 (default "50" (limit_ p))) ;;
  off <- int_param (parseInt10 (default "0" (offset_ p))) ;;
  bound <- bind_params conditions ;;
  let kept := filter (where_ conditions) (catalog_left_join on_in_stock d) in
  let ordered :=
    order_by (tie_order d BrowseRow) browse_leb
      (map browse_select (group_by same_browse_group kept))
  in
  skipped <- offset off ordered ;;
  limit lim skipped.

(** [app.get('/', ...)] of [laptopsRoutes]; [app_db] is [app.db]. *)
Definition get_laptops (app_db : Pool) (p : BrowseParams)
  : Result (list BrowseRow) :=
  pool_query app_db (browse_query p).

(* ================================================================== *)
(** * A sample catalog

    Models after the sample data of the repository: two offers share a
    price, one offer is out of stock and one model is discontinued.  Short
    names stand for the identifiers. *)

Definition dell : Brand :=
  {| b_brand_id := "b-dell"; b_brand_name := "Dell"; b_brand_slug := "dell" |}.
Definition lenovo : Brand :=
  {| b_brand_id := "b-lenovo"; b_brand_name := "Lenovo";
     b_brand_slug := "lenovo" |}.

Definition spec_inspiron : HardwareSpec :=
  {| hs_spec_id := "s-inspiron"; hs_processor_model := "Core i5-1335U";
     hs_processor_cores := 10; hs_ram_gb := 8; hs_storage_capacity_gb := 256;
     hs_gpu_type := Integrated; hs_gpu_model := Some "Iris Xe";
     hs_display_size_inches := 156 # 10; hs_refresh_rate_hz := Some 60%Z;
     hs_weight_kg := Some (170 # 100) |}.
Definition spec_legion : HardwareSpec :=
  {| hs_spec_id := "s-legion"; hs_processor_model := "Ryzen 7 7840HS";
     hs_processor_cores := 8; hs_ram_gb := 16; hs_storage_capacity_gb := 1024;
     hs_gpu_type := Dedicated; hs_gpu_model := Some "RTX 4060";
     hs_display_size_inches := 156 # 10; hs_refresh_rate_hz := Some 165%Z;
     hs_weight_kg := Some (240 # 100) |}.
Definition spec_thinkpad : HardwareSpec :=
  {| hs_spec_id := "s-thinkpad"; hs_processor_model := "Core i7-1355U";
     hs_processor_cores := 10; hs_ram_gb := 16; hs_storage_capacity_gb := 512;
     hs_gpu_type := Integrated; hs_gpu_model := Some "Iris Xe";
     hs_display_size_inches := 14; hs_refresh_rate_hz := Some 60%Z;
     hs_weight_kg := Some (147 # 100) |}.

Definition model (id brand spec name : string) (disc : option bool)
  : LaptopModel :=
  {| lm_model_id := id; lm_brand_id := brand; lm_spec_id := spec;
     lm_model_name := name; lm_series := None;
     lm_short_description := None; lm_product_image_url := None;
     lm_is_discontinued := disc |}.

Definition inspiron : LaptopModel :=
  model "m-inspiron" "b-dell" "s-inspiron" "Inspiron 15 3530" (Some false).
Definition legion : LaptopModel :=
  model "m-legion" "b-lenovo" "s-legion" "Legion 5 Pro" (Some false).
Definition thinkpad : LaptopModel :=
  model "m-thinkpad" "b-lenovo" "s-thinkpad" "ThinkPad X1 Carbon" (Some false).
Definition latitude : LaptopModel :=
  model "m-latitude" "b-dell" "s-thinkpad" "Latitude 7440" (Some true).

Definition offer (id model_ : string) (price : Q) (stock : Z) : Inventory :=
  {| i_inventory_id := id; i_model_id := model_; i_unit_price := price;
     i_stock_quantity := stock; i_is_available := Some true |}.

Definition sample_db : Database :=
  {| laptop_models := [thinkpad; legion; inspiron; latitude];
     brands := [dell; lenovo];
     hardware_specs := [spec_inspiron; spec_legion; spec_thinkpad];
     inventory := [offer "i-1" "m-thinkpad" 189999 6;
                   offer "i-2" "m-legion" 189999 8;
                   offer "i-3" "m-inspiron" 119999 15;
                   offer "i-4" "m-latitude" 99999 3;
                   offer "i-5" "m-legion" 179999 0];
     recommendations := [];
     tie_order := fun _ _ _ => true |}.

Definition sample_pool : Pool := {| pool_data := sample_db; pool_up := true |}.

Definition prefs_of (usage : Usage) : UserPreferences :=
  {| min_budget := None; max_budget := None; primary_usage := usage;
     min_ram_gb := None; min_storage_gb := None; preferred_gpu_type := None;
     min_display_size := None; max_weight_kg := None;
     prefer_thin_and_light := None |}.

(** [{ min_budget: 150000, max_weight_kg: 2, primary_usage: 'Student' }],
    [top_k] left to its default. *)
Definition picky_prefs : UserPreferences :=
  {| min_budget := Some 150000; max_budget := None; primary_usage := Student;
     min_ram_gb := None; min_storage_gb := None; preferred_gpu_type := None;
     min_display_size := None; max_weight_kg := Some 2;
     prefer_thin_and_light := None |}.

Definition picky_body : Body :=
  {| user_preferences := picky_prefs; top_k := 5 |}.

Definition general_body : Body :=
  {| user_preferences := prefs_of General; top_k := 5 |}.

Definition general_request : option Json :=
  Some (JObj [("user_preferences",
                JObj [("primary_usage", JStr "General")])]).

(** A world in which the AI compute service cannot be reached. *)
Definition ai_down : World :=
  {| w_pool := Some sample_pool;
     w_ai := fun _ => FetchRejected;
     w_insert_ok := fun _ => true;
     w_now := "2024-01-01T00:00:00.000Z" |}.

(** A world in which the AI compute service ranks two models. *)
Definition ai_answer : Json :=
  JObj [("recommendations",
          JArr [JObj [("spec_id", JStr "m-legion");
                      ("relevance_score", JNum (9 # 10))];
                JObj [("spec_id", JStr "m-inspiron");
                      ("relevance_score", JNum (7 # 10))]]);
        ("confidence", JNum (8 # 10))].

Definition ai_up : World :=
  {| w_pool := Some sample_pool;
     w_ai := fun _ => Responded true "OK" (Some ai_answer);
     w_insert_ok := fun _ => false;
     w_now := "2024-01-01T00:00:00.000Z" |}.

(* ================================================================== *)
(** * Vocabulary of the statements *)

Definition price (x : Offer) : Q := i_unit_price (offer_i x).

Definition price_le (x y : Offer) : Prop := price x <= price y.

(** The request leaves [top_k] out. *)
Definition top_k_absent (raw : option Json) : Prop :=
  match raw with
  | Some (JObj o) => get "top_k" o = None
  | _ => False
  end.

(** [payload.data] *)
Definition payload_data (payload : Json) : list (string * Json) :=
  match payload with
  | JObj ps => match get "data" ps with Some (JObj d) => d | _ => [] end
  | _ => []
  end.


(** [payload.data.note] *)
Definition payload_note (payload : Json) : option Json :=
  get "note" (payload_data payload).

(** Some string value of the payload is [primary] or [fallback]. *)
Definition carries_source_flag (payload : Json) : Prop :=
  In "primary" (json_strings payload) \/ In "fallback" (json_strings payload).


(** The property names of [user_preferences] in [recommendationSchema]. *)
Definition preference_keys : list string :=
  ["min_budget"; "max_budget"; "primary_usage"; "min_ram_gb";
   "min_storage_gb"; "preferred_gpu_type"; "min_display_size";
   "max_weight_kg"; "prefer_thin_and_light"].

(** [{ max_budget: 150000, min_ram_gb: 8, primary_usage: 'Student' }] *)
Definition budget_body : Body :=
  {| user_preferences :=
       {| min_budget := None; max_budget := Some 150000;
          primary_usage := Student; min_ram_gb := Some 8;
          min_storage_gb := None; preferred_gpu_type := Some Integrated;
          min_display_size := None; max_weight_kg := None;
          prefer_thin_and_light := None |};
     top_k := 5 |}.

(** [{ user_preferences: { primary_usage: 'General',
       preferred_gpu_type: 'Integrated' }, top_k: 5 }] *)
Definition integrated_body : Body :=
  {| user_preferences :=
       {| min_budget := None; max_budget := None; primary_usage := General;
          min_ram_gb := None; min_storage_gb := None;
          preferred_gpu_type := Some Integrated; min_display_size := None;
          max_weight_kg := None; prefer_thin_and_light := None |};
     top_k := 5 |}.

Definition integrated_request : option Json :=
  Some (JObj [("user_preferences",
                JObj [("primary_usage", JStr "General");
                      ("preferred_gpu_type", JStr "Integrated")]);
              ("top_k", JNum 5)]).

Definition inspiron_offer : Offer :=
  (inspiron, dell, spec_inspiron, offer "i-3" "m-inspiron" 119999 15).
Definition thinkpad_offer : Offer :=
  (thinkpad, lenovo, spec_thinkpad, offer "i-1" "m-thinkpad" 189999 6).
Definition legion_offer : Offer :=
  (legion, lenovo, spec_legion, offer "i-2" "m-legion" 189999 8).

Definition entry_of (x : Offer) : FallbackRec :=
  fallback_entry (fallback_select x).

(** The value is of the type the schema declares for the property. *)
Definition field_accepts (k : string) (v : Json) : bool :=
  match v with
  | JNum _ =>
      existsb (String.eqb k)
        ["min_budget"; "max_budget"; "min_ram_gb"; "min_storage_gb";
         "min_display_size"; "max_weight_kg"]
  | JBool _ => String.eqb k "prefer_thin_and_light"
  | JStr s =>
      (String.eqb k "primary_usage"
       && existsb (String.eqb s) (map usage_name all_usages))
      || (String.eqb k "preferred_gpu_type"
          && existsb (String.eqb s) (map gpu_name all_gpu_types))
  | _ => false
  end.

(** A request that carries nothing but the given preferences. *)
Definition request_of (prefs : UserPreferences) : option Json :=
  Some (JObj [("user_preferences", prefs_json prefs)]).


Definition no_usage_request : option Json :=
  Some (JObj [("user_preferences", JObj [("max_budget", JNum 150000)])]).

Definition malformed_request : option Json :=
  Some (JObj [("user_preferences",
                JObj [("primary_usage", JStr "Gaming");
                      ("min_ram_gb", JStr "16")])]).

(** Some signal of the reason generator applies. *)
Definition some_signal (laptop : option LaptopProps)
  (preferences : UserPreferences) : bool :=
  signal_gaming laptop preferences
  || is_some (signal_ram laptop)
  || signal_portable laptop preferences
  || signal_budget laptop preferences.

(** An 8 GB laptop without a price, in the columns of the enrichment
    query. *)
Definition plain_laptop : LaptopProps :=
  {| gpu_type := None; ram_gb := Some 8%Z; min_price := None |}.

Definition no_params : BrowseParams :=
  {| brand := None; minRam := None; maxRam := None; minStorage := None;
     maxStorage := None; gpuType := None; minPrice := None;
     maxPrice := None; series := None; limit_ := None; offset_ := None |}.

(** The only error of the parser is a ZodError. *)
Definition only_zod {A} (r : Result A) : Prop :=
  forall e, r = Throw e -> e = ZodError.

(* ================================================================== *)
(** * [GET /:id] of [laptops.ts]: one laptop with its offers

    The query joins [inventory] with [vendors] on the column [vendor_id],
    which the catalog tables above leave out; the column and the table are
    given to the handler. *)

Record Vendor : Type := {
  v_vendor_id : string;
  v_shop_name : string;
  v_shop_number : option string;
  v_plaza_name : option string
}.

Inductive LaptopDetail : Type :=
| DetailNotFound                         (* reply.code(404) *)
| DetailFound (row : LaptopModel * Brand * HardwareSpec)
    (offers : list (Inventory * Vendor)).   (* rows[0] and inventory *)

(** [ORDER BY i.unit_price ASC] *)
Definition vendor_offer_leb (x y : Inventory * Vendor) : bool :=
  Qle_bool (i_unit_price (fst x)) (i_unit_price (fst y)).

Section LaptopById.
Variable vendors : list Vendor.
Variable i_vendor_id : Inventory -> string.

(** [FROM inventory i JOIN vendors v ON i.vendor_id = v.vendor_id] *)
Definition on_vendor (i : Inventory) (v : Vendor) : bool :=
  String.eqb (i_vendor_id i) (v_vendor_id v).

(** [WHERE i.model_id = $1 AND i.is_available = true
     AND i.stock_quantity > 0] *)
Definition offered_for (id : string) (x : Inventory * Vendor) : bool :=
  String.eqb (i_model_id (fst x)) id
  && sql_is true (i_is_available (fst x))
  && (0 <? i_stock_quantity (fst x))%Z.

(** [... FROM laptop_models lm JOIN brands b ... JOIN hardware_specs hs ...
     WHERE lm.model_id = $1] *)
Definition detail_query (id : string) (d : Database)
  : Result (list (LaptopModel * Brand * HardwareSpec)) :=
  match uuid_in id with
  | Some u =>
      Ok (filter (fun y => String.eqb (lm_model_id (fst (fst y))) u)
            (from_catalog d))
  | None => Throw DbError            (* invalid input syntax for type uuid *)
  end.

Definition detail_offers_query (id : string) (d : Database)
  : Result (list (Inventory * Vendor)) :=
  match uuid_in id with
  | Some u =>
      Ok (order_by (tie_order d (Inventory * Vendor)%type) vendor_offer_leb
            (filter (offered_for u)
               (inner_join on_vendor (inventory d) vendors)))
  | None => Throw DbError
  end.

(** [app.get('/:id', ...)] *)
Definition get_laptop_by_id (app_db : Pool) (id : string)
  : Result LaptopDetail :=
  result <- pool_query app_db (detail_query id) ;;
  match result with
  | [] => Ok DetailNotFound
  | row :: _ =>
      inventoryResult <- pool_query app_db (detail_offers_query id) ;;
      Ok (DetailFound row inventoryResult)
  end.
End LaptopById.

(* ================================================================== *)
(** * [GET /search/:query] of [laptops.ts]

    [ILIKE] is the database's pattern match; it is given to the handler as
    [ilike text pattern]. *)

Record SearchRow : Type := {
  sr_model_id : string;
  sr_model_name : string;
  sr_series : option string;
  sr_brand_name : string;
  sr_processor_model : string;
  sr_ram_gb : Z;
  sr_storage_capacity_gb : Z;
  sr_min_price : option Q
}.

(** [GROUP BY lm.model_id, b.brand_name, hs.processor_model, hs.ram_gb,
     hs.storage_capacity_gb] *)
Definition same_search_group (x y : Joined) : bool :=
  String.eqb (lm_model_id (j_lm x)) (lm_model_id (j_lm y))
  && String.eqb (b_brand_name (j_b x)) (b_brand_name (j_b y))
  && String.eqb (hs_processor_model (j_hs x)) (hs_processor_model (j_hs y))
  && Z.eqb (hs_ram_gb (j_hs x)) (hs_ram_gb (j_hs y))
  && Z.eqb (hs_storage_capacity_gb (j_hs x)) (hs_storage_capacity_gb (j_hs y)).

Definition search_select (g : Joined * list Joined) : SearchRow :=
  let j := fst g in
  {| sr_model_id := lm_model_id (j_lm j);
     sr_model_name := lm_model_name (j_lm j);
     sr_series := lm_series (j_lm j);
     sr_brand_name := b_brand_name (j_b j);
     sr_processor_model := hs_processor_model (j_hs j);
     sr_ram_gb := hs_ram_gb (j_hs j);
     sr_storage_capacity_gb := hs_storage_capacity_gb (j_hs j);
     sr_min_price := sql_min (group_prices g) |}.

Section Search.
Variable ilike : string -> string -> bool.

(** [`%${query}%`] *)
Definition search_pattern (query : string) : string :=
  String.append "%" (String.append query "%").

(** [lm.model_name ILIKE $1 OR lm.series ILIKE $1 OR b.brand_name ILIKE $1
     OR hs.processor_model ILIKE $1]; a null series matches nothing. *)
Definition search_hit (pattern : string) (j : Joined) : bool :=
  ilike (lm_model_name (j_lm j)) pattern
  || match lm_series (j_lm j) with
     | Some s => ilike s pattern
     | None => false
     end
  || ilike (b_brand_name (j_b j)) pattern
  || ilike (hs_processor_model (j_hs j)) pattern.

Definition search_query (query : string) (d : Database)
  : Result (list SearchRow) :=
  let kept :=
    filter (fun j => sql_is false (lm_is_discontinued (j_lm j))
                     && search_hit (search_pattern query) j)
      (catalog_left_join on_available d) in
  limit 20 (map search_select (group_by same_search_group kept)).

(** [app.get('/search/:query', ...)] *)
Definition search_laptops (app_db : Pool) (query : string)
  : Result (list SearchRow) :=
  pool_query app_db (search_query query).
End Search.

(* ================================================================== *)
(** * [POST /compare] *)

Record CompareRow : Type := {
  cmp_lm : LaptopModel;                  (* model_id, model_name, series *)
  cmp_b : Brand;                         (* brand_name *)
  cmp_hs : HardwareSpec;                 (* hs.* *)
  cmp_min_price : option Q
}.

Inductive CompareReply : Type :=
| CompareBadRequest                      (* reply.code(400) *)
| CompareRows (rows : list CompareRow).

Definition compare_select (g : Joined * list Joined) : CompareRow :=
  {| cmp_lm := j_lm (fst g); cmp_b := j_b (fst g); cmp_hs := j_hs (fst g);
     cmp_min_price := sql_min (group_prices g) |}.

(** [WHERE lm.model_id IN ($1, ..., $n)
     GROUP BY lm.model_id, b.brand_name, hs.spec_id] *)
Definition compare_query (model_ids : list string) (d : Database)
  : Result (list CompareRow) :=
  let kept :=
    filter (fun j => existsb (String.eqb (lm_model_id (j_lm j))) model_ids)
      (catalog_left_join on_available d) in
  Ok (map compare_select (group_by same_usage_group kept)).

(** [app.post('/compare', ...)]; [model_ids] is the property of that name
    of the body, [None] when the body has none. *)
Definition post_compare (w : World) (model_ids : option (list string))
  : Result CompareReply :=
  db <- getPool w ;;
  match model_ids with
  | None => Ok CompareBadRequest
  | Some ids =>
      if (Nat.eqb (List.length ids) 0 || Nat.ltb 4 (List.length ids))%bool
      then Ok CompareBadRequest
      else rows <- pool_query db (compare_query ids) ;; Ok (CompareRows rows)
  end.

(* ================================================================== *)
(** * [truncate] of [lib/utils.ts]

    A string is the sequence of its code units. *)

(** [ToIntegerOrInfinity] of a finite number: rounding towards zero. *)
Definition to_integer (q : Q) : Z := Z.quot (Qnum q) (Zpos (Qden q)).

(** [text.slice(0, stop)] *)
Definition slice0 (text : string) (stop : Q) : string :=
  let len := Z.of_nat (String.length text) in
  let n := to_integer stop in
  let final := if (n <? 0)%Z then Z.max (len + n) 0 else Z.min n len in
  substring 0 (Z.to_nat final) text.

Definition truncate (text : string) (length : Q) : string :=
  if Qle_bool (inject_Z (Z.of_nat (String.length text))) length
  then text
  else String.append (slice0 text length) "...".

(* ================================================================== *)
(** * Further vocabulary *)

(** The preferences with another maximum budget. *)
Definition with_max_budget (p : UserPreferences) (v : option Q)
  : UserPreferences :=
  {| min_budget := min_budget p; max_budget := v;
     primary_usage := primary_usage p; min_ram_gb := min_ram_gb p;
     min_storage_gb := min_storage_gb p;
     preferred_gpu_type := preferred_gpu_type p;
     min_display_size := min_display_size p;
     max_weight_kg := max_weight_kg p;
     prefer_thin_and_light := prefer_thin_and_light p |}.

(** The preferences with another minimum RAM. *)
Definition with_min_ram (p : UserPreferences) (v : option Q)
  : UserPreferences :=
  {| min_budget := min_budget p; max_budget := max_budget p;
     primary_usage := primary_usage p; min_ram_gb := v;
     min_storage_gb := min_storage_gb p;
     preferred_gpu_type := preferred_gpu_type p;
     min_display_size := min_display_size p;
     max_weight_kg := max_weight_kg p;
     prefer_thin_and_light := prefer_thin_and_light p |}.

Definition with_prefs (b : Body) (p : UserPreferences) : Body :=
  {| user_preferences := p; top_k := top_k b |}.

(** An entry of the AI service's list with a [laptop] attached. *)
Definition with_laptop (rec : Json) (l : option EnrichedLaptop)
  : EnrichedRec :=
  {| ai_rec := rec; enriched_laptop := l |}.

(** The columns the enrichment query selects, for the Legion of the sample
    catalog and its first offer. *)
Definition legion_laptop : EnrichedLaptop :=
  enrich_select
    ({| j_lm := legion; j_b := lenovo; j_hs := spec_legion;
        j_i := Some (offer "i-2" "m-legion" 189999 8) |}, []).

(** The select lists outside the aggregates, and the [GROUP BY] lists, of
    the queries of [GET /trending], [GET /by-usage/:usage], [POST /compare],
    [GET /] and [GET /search/:query]. *)
Definition other_grouped_queries : list (list Column * list Column) :=
  [ ([("lm", "model_id"); ("lm", "model_name"); ("lm", "series");
      ("b", "brand_name"); ("hs", "ram_gb"); ("hs", "storage_capacity_gb");
      ("hs", "gpu_type")],
     [("lm", "model_id"); ("b", "brand_name"); ("hs", "ram_gb");
      ("hs", "storage_capacity_gb"); ("hs", "gpu_type")]);
    ([("lm", "model_id"); ("lm", "model_name"); ("lm", "series");
      ("b", "brand_name"); ("hs", "processor_model");
      ("hs", "processor_cores"); ("hs", "ram_gb");
      ("hs", "storage_capacity_gb"); ("hs", "gpu_type"); ("hs", "gpu_model");
      ("hs", "display_size_inches"); ("hs", "refresh_rate_hz");
      ("hs", "weight_kg")],
     [("lm", "model_id"); ("b", "brand_name"); ("hs", "spec_id")]);
    ([("lm", "model_id"); ("lm", "model_name"); ("lm", "series");
      ("b", "brand_name"); ("hs", "*")],
     [("lm", "model_id"); ("b", "brand_name"); ("hs", "spec_id")]);
    ([("lm", "model_id"); ("lm", "model_name"); ("lm", "model_number");
      ("lm", "series"); ("lm", "release_year"); ("lm", "short_description");
      ("lm", "product_image_url"); ("b", "brand_id"); ("b", "brand_name");
      ("b", "brand_slug"); ("hs", "processor_brand");
      ("hs", "processor_model"); ("hs", "processor_cores"); ("hs", "ram_gb");
      ("hs", "storage_type"); ("hs", "storage_capacity_gb");
      ("hs", "gpu_type"); ("hs", "gpu_brand"); ("hs", "gpu_model");
      ("hs", "display_size_inches"); ("hs", "display_resolution");
      ("hs", "weight_kg"); ("hs", "battery_whr")],
     [("lm", "model_id"); ("b", "brand_id"); ("hs", "spec_id")]);
    ([("lm", "model_id"); ("lm", "model_name"); ("lm", "series");
      ("b", "brand_name"); ("hs", "processor_model"); ("hs", "ram_gb");
      ("hs", "storage_capacity_gb")],
     [("lm", "model_id"); ("b", "brand_name"); ("hs", "processor_model");
      ("hs", "ram_gb"); ("hs", "storage_capacity_gb")]) ].

(** Ascending order of optional prices, absent prices last. *)
Definition price_opt_le (x y : option Q) : Prop :=
  match x, y with
  | Some a, Some b => a <= b
  | Some _, None => True
  | None, Some _ => False
  | None, None => True
  end.

(** The order of the trending list: more recommendations first, among
    equals the lower price first. *)
Definition trending_le (x y : TrendingRow) : Prop :=
  (tr_recommendation_count y < tr_recommendation_count x)%Z \/
  (tr_recommendation_count x = tr_recommendation_count y /\
   price_opt_le (tr_min_price x) (tr_min_price y)).

(** The vendors of the sample catalog, every offer sold by the first. *)
Definition sample_vendors : list Vendor :=
  [ {| v_vendor_id := "v-ali"; v_shop_name := "Ali Electronics";
       v_shop_number := Some "Shop #123"; v_plaza_name := None |};
    {| v_vendor_id := "v-tech"; v_shop_name := "Tech World";
       v_shop_number := Some "Shop #45"; v_plaza_name := None |} ].

Definition sample_vendor_id (i : Inventory) : string :=
  if String.eqb (i_model_id i) "m-legion" then "v-ali" else "v-tech".

(** A pattern match that looks for the query as a prefix of the text. *)
Definition prefix_match (text pattern : string) : bool :=
  prefix (substring 1 (String.length pattern - 2) pattern) text.

(** The stored reason is the generic one or the reasons joined. *)
Definition joined_reasons (rs : list string) : string :=
  match rs with
  | [] => reason_generic
  | _ => String.concat ", " rs
  end.

(** An entry of the AI service's list that names the discontinued model and
    brings a [laptop] property of its own. *)
Definition latitude_rec : Json :=
  JObj [("spec_id", JStr "m-latitude"); ("laptop", JStr "mine");
        ("relevance_score", JNum (9 # 10))].

(** A catalog whose one model is stored under the text of a UUID, with
    one offer for it. *)
Definition latitude_uuid : string := "a0eebc99-9c0b-4ef8-bb6d-6bb9bd380a14".

Definition keyed_db : Database :=
  {| laptop_models :=
       [model latitude_uuid "b-dell" "s-thinkpad" "Latitude 7440" (Some true)];
     brands := [dell];
     hardware_specs := [spec_thinkpad];
     inventory := [offer "i-4" latitude_uuid 99999 3];
     recommendations := [];
     tie_order := fun _ _ _ => true |}.

Definition keyed_pool : Pool := {| pool_data := keyed_db; pool_up := true |}.

(** The sample catalog behind a connection that is down. *)
Definition down_pool : Pool := {| pool_data := sample_db; pool_up := false |}.

Definition empty_answer : Json := JObj [("recommendations", JArr [])].

(** A world whose AI service ranks nothing and whose database is down. *)
Definition ai_empty : World :=
  {| w_pool := Some down_pool;
     w_ai := fun _ => Responded true "OK" (Some empty_answer);
     w_insert_ok := fun _ => true;
     w_now := "2024-01-01T00:00:00.000Z" |}.

(** The hardware meets the minima the by-usage endpoint reads from the
    table entry of a usage. *)
Definition meets_minima (specs : UsageSpec) (hs : HardwareSpec) : Prop :=
  (forall m, us_min_ram_gb specs = Some m -> m <= inject_Z (hs_ram_gb hs)) /\
  (forall m, us_min_cores specs = Some m ->
             m <= inject_Z (hs_processor_cores hs)) /\
  (forall m, us_min_refresh_rate specs = Some m ->
             exists hz, hs_refresh_rate_hz hs = Some hz /\ m <= inject_Z hz).

(** Rows of the by-usage list in ascending order of price, unpriced last. *)
Definition usage_le (x y : UsageRow) : Prop :=
  price_opt_le (ur_min_price x) (ur_min_price y).

(** [?brand=lenovo&minRam=16&limit=5] *)
Definition lenovo_params : BrowseParams :=
  {| brand := Some "lenovo"; minRam := Some "16"; maxRam := None;
     minStorage := None; maxStorage := None; gpuType := None;
     minPrice := None; maxPrice := None; series := None;
     limit_ := Some "5"; offset_ := None |}.

(** Offers with their vendors in ascending order of price. *)
Definition vendor_offer_le (x y : Inventory * Vendor) : Prop :=
  i_unit_price (fst x) <= i_unit_price (fst y).

(** The pattern matches one of the four searched columns of a catalog
    row. *)
Definition search_matches (ilike : string -> string -> bool)
  (pattern : string) (y : LaptopModel * Brand * HardwareSpec) : Prop :=
  ilike (lm_model_name (fst (fst y))) pattern = true \/
  (exists s, lm_series (fst (fst y)) = Some s /\ ilike s pattern = true) \/
  ilike (b_brand_name (snd (fst y))) pattern = true \/
  ilike (hs_processor_model (snd y)) pattern = true.

(** The offers of a model that are marked available. *)
Definition available_offers (d : Database) (id : string) : list Inventory :=
  filter (fun i => String.eqb id (i_model_id i)
                   && sql_is true (i_is_available i))
    (inventory d).

(** The stored recommendations of a model from the last seven days. *)
Definition recent_recommendations (now : Z) (d : Database) (id : string)
  : list RecommendationRecord :=
  filter (fun r => String.eqb id (r_model_id r)
                   && (now - seven_days <? r_created_at r)%Z)
    (recommendations d).

(** The primary keys of the three catalog tables. *)
Definition primary_keys (d : Database) : Prop :=
  NoDup (map lm_model_id (laptop_models d)) /\
  NoDup (map b_brand_id (brands d)) /\
  NoDup (map hs_spec_id (hardware_specs d)).

(** The sample catalog with two recommendations of the Legion from the
    last week and an older one of the ThinkPad. *)
Definition trending_db : Database :=
  {| laptop_models := laptop_models sample_db;
     brands := brands sample_db;
     hardware_specs := hardware_specs sample_db;
     inventory := inventory sample_db;
     recommendations :=
       [ {| r_recommendation_id := "r-1"; r_model_id := "m-legion";
            r_created_at := 900000 |};
         {| r_recommendation_id := "r-2"; r_model_id := "m-thinkpad";
            r_created_at := 100000 |};
         {| r_recommendation_id := "r-3"; r_model_id := "m-legion";
            r_created_at := 950000 |} ];
     tie_order := tie_order sample_db |}.

Definition trending_pool : Pool :=
  {| pool_data := trending_db; pool_up := true |}.

Definition trending_world : World :=
  {| w_pool := Some trending_pool;
     w_ai := fun _ => Responded true "OK" (Some empty_answer);
     w_insert_ok := fun _ => true;
     w_now := "2024-01-01T00:00:00.000Z" |}.

(** The offers of a model that are marked available and are in stock. *)
Definition offers_in_stock (d : Database) (id : string) : list Inventory :=
  filter (fun i => String.eqb id (i_model_id i)
                   && sql_is true (i_is_available i)
                   && (0 <? i_stock_quantity i)%Z)
    (inventory d).

(** Conditions on the columns of the catalog, none on the offer. *)
Definition catalog_cond (c : Cond) : bool :=
  match c with
  | OfferAvailable | OfferInStock | PriceAtMost _ => false
  | _ => true
  end.

(* ================================================================== *)
(** * Facts about the result monad and the relational operators *)

Lemma bind_ok {A B} (r : Result A) (k : A -> Result B) (b : B) :
  bind r k = Ok b -> exists a, r = Ok a /\ k a = Ok b.
Proof.
  destruct r as [a | e]; simpl; intros H.
  - exists a. split; [reflexivity | exact H].
  - discriminate H.
Qed.

Lemma mapM_length {A B} (f : A -> Result B) (l : list A) (l' : list B) :
  mapM f l = Ok l' -> List.length l' = List.length l.
Proof.
  revert l'. induction l as [| a l IH]; simpl; intros l' H.
  - inversion H. reflexivity.
  - apply bind_ok in H. destruct H as (b & _ & H).
    apply bind_ok in H. destruct H as (bs & Hbs & H).
    inversion H. simpl. f_equal. apply IH. exact Hbs.
Qed.

Lemma pool_query_ok {A} (p : Pool) (q : Database -> Result A) (a : A) :
  pool_query p q = Ok a -> pool_up p = true /\ q (pool_data p) = Ok a.
Proof.
  unfold pool_query. destruct (pool_up p); intros H.
  - split; [reflexivity | exact H].
  - discriminate H.
Qed.

Lemma limit_ok {A} (n : Z) (l l' : list A) :
  limit n l = Ok l' -> (0 <= n)%Z /\ l' = firstn (Z.to_nat n) l.
Proof.
  unfold limit. destruct (int8_ok n); simpl; [| discriminate].
  destruct (Z.ltb_spec n 0) as [Hn | Hn]; intros H.
  - discriminate H.
  - inversion H. split; [exact Hn | reflexivity].
Qed.

Lemma limit_int8 {A} (n : Z) (l l' : list A) :
  limit n l = Ok l' -> (n < 2 ^ 63)%Z.
Proof.
  unfold limit, int8_ok. destruct (Z.ltb_spec n (2 ^ 63)) as [Hn | Hn].
  - intros _. exact Hn.
  - rewrite andb_false_r. discriminate.
Qed.

Lemma offset_ok {A} (n : Z) (l l' : list A) :
  offset n l = Ok l' -> (0 <= n)%Z /\ l' = skipn (Z.to_nat n) l.
Proof.
  unfold offset. destruct (int8_ok n); simpl; [| discriminate].
  destruct (Z.ltb_spec n 0) as [Hn | Hn]; intros H.
  - discriminate H.
  - inversion H. split; [exact Hn | reflexivity].
Qed.

Lemma in_firstn {A} (n : nat) (l : list A) (x : A) :
  In x (firstn n l) -> In x l.
Proof.
  revert l. induction n as [| n IH]; intros [| y l]; simpl; try tauto.
  intros [H | H]; [left; exact H | right; apply IH; exact H].
Qed.

Lemma in_skipn {A} (n : nat) (l : list A) (x : A) :
  In x (skipn n l) -> In x l.
Proof.
  revert l. induction n as [| n IH]; intros [| y l]; simpl; try tauto.
  intros H. right. apply IH. exact H.
Qed.

Section JoinFacts.
Context {A B : Type} (on : A -> B -> bool).

Lemma in_inner_join (l : list A) (r : list B) (x : A * B) :
  In x (inner_join on l r) <->
  In (fst x) l /\ In (snd x) r /\ on (fst x) (snd x) = true.
Proof.
  unfold inner_join. rewrite in_flat_map. split.
  - intros (a & Ha & Hin). apply in_map_iff in Hin.
    destruct Hin as (b & Heq & Hb). subst x. simpl.
    apply filter_In in Hb. tauto.
  - intros (Ha & Hb & Hon). exists (fst x). split; [exact Ha |].
    apply in_map_iff. exists (snd x). split.
    + destruct x; reflexivity.
    + apply filter_In. tauto.
Qed.

Lemma in_left_join (l : list A) (r : list B) (x : A * option B) :
  In x (left_join on l r) ->
  In (fst x) l /\
  match snd x with
  | Some b => In b r /\ on (fst x) b = true
  | None => True
  end.
Proof.
  unfold left_join. rewrite in_flat_map. intros (a & Ha & Hin).
  destruct (filter (on a) r) as [| b0 m] eqn:Hf.
  - destruct Hin as [Hx | []]. subst x. simpl. tauto.
  - apply in_map_iff in Hin. destruct Hin as (b & Heq & Hb). subst x.
    simpl. rewrite <- Hf in Hb. apply filter_In in Hb. tauto.
Qed.
End JoinFacts.

Section OrderFacts.
Context {A : Type} (tie : A -> A -> bool) (leb : A -> A -> bool).

Lemma insert_sorted_perm (x : A) (l : list A) :
  Permutation (insert_sorted tie leb x l) (x :: l).
Proof.
  induction l as [| y l IH]; simpl.
  - apply Permutation_refl.
  - destruct (goes_before tie leb x y).
    + apply Permutation_refl.
    + eapply perm_trans; [apply perm_skip, IH | apply perm_swap].
Qed.

Lemma order_by_perm (l : list A) : Permutation (order_by tie leb l) l.
Proof.
  induction l as [| x l IH]; simpl.
  - apply perm_nil.
  - eapply perm_trans; [apply insert_sorted_perm | apply perm_skip, IH].
Qed.

Lemma in_order_by (l : list A) (x : A) :
  In x (order_by tie leb l) <-> In x l.
Proof.
  split; apply Permutation_in;
    [apply order_by_perm | apply Permutation_sym, order_by_perm].
Qed.

Lemma order_by_length (l : list A) :
  List.length (order_by tie leb l) = List.length l.
Proof. apply Permutation_length, order_by_perm. Qed.

(** Sortedness for any transitive relation that [leb] decides totally,
    whatever the server makes of the ties. *)
Section Sorted.
Variable le : A -> A -> Prop.
Hypothesis le_trans : forall x y z, le x y -> le y z -> le x z.
Hypothesis leb_true : forall x y, leb x y = true -> le x y.
Hypothesis leb_false : forall x y, leb x y = false -> le y x.

Lemma goes_before_true (x y : A) : goes_before tie leb x y = true -> le x y.
Proof.
  unfold goes_before. intros H. apply andb_prop in H.
  apply leb_true. apply H.
Qed.

Lemma goes_before_false (x y : A) :
  goes_before tie leb x y = false -> le y x.
Proof.
  unfold goes_before. destruct (leb x y) eqn:Hxy; simpl.
  - destruct (leb y x) eqn:Hyx; simpl.
    + intros _. apply leb_true. exact Hyx.
    + discriminate.
  - intros _. apply leb_false. exact Hxy.
Qed.

Lemma insert_sorted_sorted (x : A) (l : list A) :
  StronglySorted le l -> StronglySorted le (insert_sorted tie leb x l).
Proof.
  induction 1 as [| y l Hl IH Hy]; simpl.
  - constructor; constructor.
  - destruct (goes_before tie leb x y) eqn:Hxy.
    + constructor; [constructor; assumption |].
      constructor; [apply goes_before_true; exact Hxy |].
      eapply Forall_impl; [| exact Hy].
      intros z Hz.
      eapply le_trans; [apply goes_before_true; exact Hxy | exact Hz].
    + constructor; [exact IH |].
      eapply Permutation_Forall.
      * apply Permutation_sym, insert_sorted_perm.
      * constructor; [apply goes_before_false; exact Hxy | exact Hy].
Qed.

Lemma order_by_sorted (l : list A) : StronglySorted le (order_by tie leb l).
Proof.
  induction l as [| x l IH]; simpl.
  - constructor.
  - apply insert_sorted_sorted. exact IH.
Qed.
End Sorted.
End OrderFacts.

Section GroupFacts.
Context {A : Type} (same : A -> A -> bool).

Lemma add_to_groups_incl (s : list A) (x : A) (gs : list (A * list A)) :
  In x s ->
  Forall (fun g => incl (members g) s) gs ->
  Forall (fun g => incl (members g) s) (add_to_groups same x gs).
Proof.
  intros Hx. induction 1 as [| [y ys] gs Hg Hgs IH]; simpl.
  - constructor; [| constructor].
    intros z [Hz | []]. subst z. exact Hx.
  - destruct (same y x).
    + constructor; [| exact Hgs].
      intros z [Hz | Hz].
      * apply Hg. left. exact Hz.
      * simpl in Hz. apply in_app_or in Hz. destruct Hz as [Hz | [Hz | []]].
        -- apply Hg. right. exact Hz.
        -- subst z. exact Hx.
    + constructor; [exact Hg | exact IH].
Qed.

Lemma fold_groups_incl (s rows : list A) (acc : list (A * list A)) :
  incl rows s ->
  Forall (fun g => incl (members g) s) acc ->
  Forall (fun g => incl (members g) s)
    (fold_left (fun gs x => add_to_groups same x gs) rows acc).
Proof.
  revert acc. induction rows as [| x rows IH]; simpl; intros acc Hs Hacc.
  - exact Hacc.
  - apply IH.
    + intros z Hz. apply Hs. right. exact Hz.
    + apply add_to_groups_incl; [apply Hs; left; reflexivity | exact Hacc].
Qed.

(** Every group is made of rows of the grouped list. *)
Lemma group_by_incl (rows : list A) (g : A * list A) :
  In g (group_by same rows) -> incl (members g) rows.
Proof.
  intros Hg.
  assert (H : Forall (fun g => incl (members g) rows)
                (group_by same rows)).
  { apply fold_groups_incl; [apply incl_refl | constructor]. }
  rewrite Forall_forall in H. apply H. exact Hg.
Qed.

Lemma group_by_first (rows : list A) (g : A * list A) :
  In g (group_by same rows) -> In (fst g) rows.
Proof.
  intros Hg. apply (group_by_incl rows g Hg). left. reflexivity.
Qed.
End GroupFacts.

(** Order of rationals as decided by [Qle_bool]. *)
Lemma Qle_bool_false (x y : Q) : Qle_bool x y = false -> y <= x.
Proof.
  intros H. apply Qlt_le_weak. apply Qnot_le_lt. intros Hle.
  apply Qle_bool_iff in Hle. congruence.
Qed.

Lemma StronglySorted_firstn {A} (R : A -> A -> Prop) (n : nat) (l : list A) :
  StronglySorted R l -> StronglySorted R (firstn n l).
Proof.
  revert l. induction n as [| n IH]; intros l Hl.
  - constructor.
  - destruct l as [| x l]; simpl; [constructor |].
    apply StronglySorted_inv in Hl. destruct Hl as [Hl Hx].
    constructor; [apply IH; exact Hl |].
    rewrite Forall_forall in *. intros y Hy. apply Hx.
    apply in_firstn in Hy. exact Hy.
Qed.


(* ================================================================== *)
(** * Facts about the fallback query *)

Lemma order_by_price_sorted (tie : Offer -> Offer -> bool) (l : list Offer) :
  StronglySorted price_le (order_by tie price_leb l).
Proof.
  apply order_by_sorted; unfold price_le, price_leb, price.
  - intros x y z Hxy Hyz. eapply Qle_trans; eassumption.
  - intros x y H. apply Qle_bool_iff. exact H.
  - intros x y H. apply Qle_bool_false. exact H.
Qed.

Lemma gpu_name_inj (a b : GpuType) :
  String.eqb (gpu_name a) (gpu_name b) = true -> a = b.
Proof. destruct a, b; simpl; intros H; try reflexivity; discriminate H. Qed.

Lemma in_from_catalog (d : Database) (y : LaptopModel * Brand * HardwareSpec) :
  In y (from_catalog d) -> In (fst (fst y)) (laptop_models d).
Proof.
  unfold from_catalog. intros H. apply in_inner_join in H.
  destruct H as (H & _ & _). apply in_inner_join in H. tauto.
Qed.

Lemma in_fallback_from (d : Database) (x : Offer) :
  In x (fallback_from d) ->
  In (offer_lm x) (laptop_models d) /\
  In (offer_i x) (inventory d) /\
  lm_model_id (offer_lm x) = i_model_id (offer_i x).
Proof.
  unfold fallback_from. intros H. apply in_inner_join in H.
  destruct H as (Hc & Hi & Hon). split; [| split].
  - apply in_from_catalog. exact Hc.
  - exact Hi.
  - apply String.eqb_eq. exact Hon.
Qed.

(** A qualifying offer passes every pushed condition. *)
Lemma qualifying_cond (body : Body) (d : Database) (x : Offer) (c : Cond) :
  In x (qualifying body d) ->
  In c (fallback_conditions (user_preferences body)) ->
  eval_cond c (as_joined x) = true.
Proof.
  unfold qualifying, where_. intros Hx Hc. apply filter_In in Hx.
  destruct Hx as [_ Hw]. rewrite forallb_forall in Hw. apply Hw. exact Hc.
Qed.

Lemma push_if_truthy_in (v : option Q) (c : Q -> Cond) (q : Q) :
  v = Some q -> ~ q == 0 -> In (c q) (push_if_truthy v c).
Proof.
  intros Hv Hq. subst v. unfold push_if_truthy, truthy_num.
  destruct (Qeq_bool q 0) eqn:E.
  - apply Qeq_bool_iff in E. contradiction.
  - left. reflexivity.
Qed.

Lemma bind_params_ok (conditions : list Cond) (u : unit) :
  bind_params conditions = Ok u -> forallb bindable conditions = true.
Proof.
  unfold bind_params. destruct (forallb bindable conditions);
    [reflexivity | discriminate].
Qed.

Lemma fallback_offers_ok (body : Body) (d : Database) (chosen : list Offer) :
  fallback_offers body d = Ok chosen ->
  forallb bindable (fallback_conditions (user_preferences body)) = true /\
  (0 <= top_k body < 2 ^ 63)%Z /\
  chosen = firstn (Z.to_nat (top_k body))
             (order_by (tie_order d Offer) price_leb (qualifying body d)).
Proof.
  unfold fallback_offers. intros H. apply bind_ok in H.
  destruct H as (u & Hu & H). apply bind_params_ok in Hu.
  pose proof (limit_int8 _ _ _ H) as Hhi. apply limit_ok in H.
  destruct H as [Hlo H]. split; [exact Hu |]. split; [lia | exact H].
Qed.

Lemma getFallbackRecommendations_ok (db : option Pool) (body : Body)
  (recs : list FallbackRec) :
  getFallbackRecommendations db body = Ok recs ->
  exists pool,
    db = Some pool /\ pool_up pool = true /\ (0 <= top_k body)%Z /\
    recs = map fallback_entry
             (map fallback_select
                (firstn (Z.to_nat (top_k body))
                   (order_by (tie_order (pool_data pool) Offer) price_leb
                      (qualifying body (pool_data pool))))).
Proof.
  unfold getFallbackRecommendations. destruct db as [pool |]; [| discriminate].
  intros H. apply bind_ok in H. destruct H as (rows & Hq & H).
  apply pool_query_ok in Hq. destruct Hq as [Hup Hq].
  unfold fallback_query in Hq. apply bind_ok in Hq.
  destruct Hq as (offers & Ho & Hq). apply fallback_offers_ok in Ho.
  destruct Ho as (_ & Hk & Ho). inversion Hq. inversion H. subst.
  exists pool. repeat split; try assumption. lia.
Qed.

(** Every returned entry stems from a qualifying offer. *)
Lemma fallback_entry_origin (db : option Pool) (body : Body)
  (recs : list FallbackRec) (r : FallbackRec) :
  getFallbackRecommendations db body = Ok recs -> In r recs ->
  exists pool x,
    db = Some pool /\ In x (qualifying body (pool_data pool)) /\
    r = fallback_entry (fallback_select x).
Proof.
  intros H Hr. apply getFallbackRecommendations_ok in H.
  destruct H as (pool & Hdb & _ & _ & Hrecs). subst recs.
  rewrite map_map in Hr. apply in_map_iff in Hr.
  destruct Hr as (x & Hx & Hin). apply in_firstn in Hin.
  apply in_order_by in Hin. exists pool, x. auto.
Qed.

Lemma budget_body_result :
  getFallbackRecommendations (Some sample_pool) budget_body =
  Ok [entry_of inspiron_offer].
Proof. vm_compute. reflexivity. Qed.

Lemma general_request_parses :
  recommendationSchema_parse general_request = Ok general_body.
Proof. reflexivity. Qed.

Lemma general_body_result :
  getFallbackRecommendations (Some sample_pool) general_body =
  Ok [entry_of inspiron_offer; entry_of thinkpad_offer;
      entry_of legion_offer].
Proof. vm_compute. reflexivity. Qed.

(** In the module as it is written the identifier [db] of the function has
    no binding. *)
Lemma unbound_db_throws (body : Body) :
  getFallbackRecommendations module_db body = Throw (ReferenceError "db").
Proof. reflexivity. Qed.

(* ================================================================== *)
(** * Facts about the primary path *)

Lemma Qred_integer (k : Z) : Qred (inject_Z k) = inject_Z k.
Proof. apply Qcanon.Qred_identity. simpl. apply Z.gcd_1_r. Qed.

Lemma z_top_k_range (v : Json) (k : Z) :
  z_top_k v = Ok k -> (1 <= k <= 20)%Z.
Proof.
  unfold z_top_k. destruct v as [| b | q | s | items | props]; simpl;
    try discriminate.
  destruct (is_integer q) eqn:Hint; simpl; [| discriminate].
  destruct (Qle_bool 1 q) eqn:Hlo; simpl; [| discriminate].
  destruct (Qle_bool q 20) eqn:Hhi; simpl; [| discriminate].
  intros H. inversion H. clear H.
  apply Qle_bool_iff in Hlo. apply Qle_bool_iff in Hhi.
  unfold is_integer in Hint. apply Pos.eqb_eq in Hint.
  pose proof (Qred_correct q) as Hred.
  destruct (Qred q) as [n d]. simpl in *. subst d.
  rewrite <- Hred in Hlo, Hhi. unfold Qle in Hlo, Hhi. simpl in Hlo, Hhi.
  lia.
Qed.

(** The value the schema makes of a [top_k] that is present. *)
Lemma z_top_k_value (v : Json) (k : Z) :
  z_top_k v = Ok k -> exists q, v = JNum q /\ q == inject_Z k.
Proof.
  unfold z_top_k. destruct v as [| b | q | s | items | props]; simpl;
    try discriminate.
  destruct (is_integer q) eqn:Hint; simpl; [| discriminate].
  destruct (Qle_bool 1 q && Qle_bool q 20); simpl; [| discriminate].
  intros H. inversion H. clear H. exists q. split; [reflexivity |].
  unfold is_integer in Hint. apply Pos.eqb_eq in Hint.
  apply Qeq_trans with (Qred q); [symmetry; apply Qred_correct |].
  destruct (Qred q) as [n d]. simpl in *. subst d. reflexivity.
Qed.

Lemma parse_top_k (raw : option Json) (body : Body) :
  recommendationSchema_parse raw = Ok body ->
  (1 <= top_k body <= 20)%Z /\
  (top_k_absent raw -> top_k body = 5%Z) /\
  (forall o v,
      raw = Some (JObj o) -> get "top_k" o = Some v ->
      exists q, v = JNum q /\ q == inject_Z (top_k body)).
Proof.
  unfold recommendationSchema_parse, top_k_absent.
  destruct raw as [[| b | q | s | items | o] |]; try discriminate.
  intros H. apply bind_ok in H. destruct H as (prefs & _ & H).
  apply bind_ok in H. destruct H as (k & Hk & H). inversion H. simpl.
  unfold z_default in Hk. destruct (get "top_k" o) as [j |] eqn:Hget.
  - split; [apply z_top_k_range with (v := j); exact Hk |].
    split; [discriminate |].
    intros o' v Ho Hv. inversion Ho. subst o'. rewrite Hget in Hv.
    inversion Hv. subst v. apply z_top_k_value. exact Hk.
  - inversion Hk. split; [lia |]. split; [reflexivity |].
    intros o' v Ho Hv. inversion Ho. subst o'. rewrite Hget in Hv.
    discriminate Hv.
Qed.

(** The server refuses the text of the enrichment query: [b.brand_slug] is
    selected, and neither it nor [b.brand_id] is a grouping column. *)
Lemma enrich_query_refused (param : option string) (d : Database) :
  enrich_query param d = Throw DbError.
Proof.
  unfold enrich_query.
  assert (E : grouping_accepted enrich_selected enrich_grouping = false)
    by (vm_compute; reflexivity).
  rewrite E. reflexivity.
Qed.

Lemma enrich_throws (db : Pool) (rec : Json) :
  enrich db rec
  = Throw (match rec with JNull => TypeError | _ => DbError end).
Proof.
  unfold enrich, pool_query.
  destruct rec as [| b | q | s | items | props]; simpl;
    try reflexivity;
    rewrite enrich_query_refused; destruct (pool_up db); reflexivity.
Qed.

Lemma mapM_enrich_ok (db : Pool) (items : list Json)
  (enriched : list EnrichedRec) :
  mapM (enrich db) items = Ok enriched -> items = [] /\ enriched = [].
Proof.
  destruct items as [| rec items]; simpl.
  - intros H. inversion H. split; reflexivity.
  - rewrite enrich_throws. discriminate.
Qed.

Lemma primary_path_ok (w : World) (db : Pool) (body : Body) (aiData : Json)
  (enriched : list EnrichedRec) :
  primary_path w db body = Ok (aiData, enriched) ->
  fetch_ai w body = Ok aiData /\
  prop "recommendations" aiData = Ok (Some (JArr [])) /\
  enriched = [].
Proof.
  unfold primary_path. intros H.
  apply bind_ok in H. destruct H as (ai & Hai & H).
  apply bind_ok in H. destruct H as (recs & Hrecs & H).
  apply bind_ok in H. destruct H as (items & Hitems & H).
  apply bind_ok in H. destruct H as (en & Hen & H).
  inversion H. subst ai en. apply mapM_enrich_ok in Hen.
  destruct Hen as [Hnil Hen]. subst items.
  split; [exact Hai |]. split; [| exact Hen].
  unfold as_array in Hitems.
  destruct recs as [[| b | q | s | l | o] |]; try discriminate Hitems.
  inversion Hitems. subst l. exact Hrecs.
Qed.

(** What a request that is answered has gone through: the reply is the
    payload of the primary path with an empty list, and nothing was logged
    or stored. *)
Lemma answered_request (w : World) (raw : option Json) (payload : Json) :
  reply (recommendationsRoutes_post w raw) = Ok payload ->
  exists db body aiData,
    getPool w = Ok db /\
    recommendationSchema_parse raw = Ok body /\
    primary_path w db body = Ok (aiData, []) /\
    payload = primary_payload w body [] /\
    logged (recommendationsRoutes_post w raw) = [] /\
    inserted (recommendationsRoutes_post w raw) = [].
Proof.
  unfold recommendationsRoutes_post, post_recommendations.
  destruct (getPool w) as [db | e] eqn:Hdb; [| discriminate].
  destruct (recommendationSchema_parse raw) as [body | e] eqn:Hbody;
    [| discriminate].
  destruct (primary_path w db body) as [[aiData enriched] | e] eqn:Hp.
  - destruct (primary_path_ok _ _ _ _ _ Hp) as (_ & _ & Hnil). subst enriched.
    simpl. intros H. inversion H.
    exists db, body, aiData. repeat split; first [reflexivity | exact Hp].
  - unfold on_primary_failure. rewrite unbound_db_throws. discriminate.
Qed.

(* ================================================================== *)
(** * The [catch] block of the handler *)

(** With [db] bound to the pool the other handlers use, a request made
    while the AI service is unreachable is answered with the fallback list. *)
Lemma bound_db_replies_with_fallback :
  reply (post_recommendations (w_pool ai_down) ai_down general_request) =
  Ok (fallback_payload ai_down general_body
        [entry_of inspiron_offer; entry_of thinkpad_offer;
         entry_of legion_offer]).
Proof. vm_compute. reflexivity. Qed.

(** C2.  In the module as it is written, whatever makes the primary path
    of a valid request fail, the handler does not answer with the fallback
    list: it logs the failure, calls [getFallbackRecommendations], and that
    call raises a ReferenceError for [db], which the handler passes on to
    the caller as an error. *)
Theorem primary_failure_ends_in_reference_error :
  forall (w : World) (raw : option Json) (db : Pool) (body : Body)
         (e : Error),
    getPool w = Ok db ->
    recommendationSchema_parse raw = Ok body ->
    primary_path w db body = Throw e ->
    reply (recommendationsRoutes_post w raw) = Throw (ReferenceError "db") /\
    logged (recommendationsRoutes_post w raw) =
      [LogError "Recommendation error:" e].
Proof.
  intros w raw db body e Hdb Hbody Hp.
  unfold recommendationsRoutes_post, post_recommendations.
  rewrite Hdb, Hbody, Hp. unfold on_primary_failure, module_db.
  simpl. split; reflexivity.
Qed.

Lemma primary_failure_ends_in_reference_error_witness :
  reply (recommendationsRoutes_post ai_down general_request) =
    Throw (ReferenceError "db") /\
  logged (recommendationsRoutes_post ai_down general_request) =
    [LogError "Recommendation error:" FetchError].
Proof.
  apply (primary_failure_ends_in_reference_error ai_down general_request
           sample_pool general_body FetchError).
  - reflexivity.
  - exact general_request_parses.
  - reflexivity.
Defined.

(* ================================================================== *)
(** * Parsing the preferences *)

Lemma parse_prefs_json (prefs : UserPreferences) :
  parse_user_preferences (prefs_json prefs) = Ok prefs.
Proof.
  destruct prefs as [a b u c d g e f t].
  destruct a, b, c, d, e, f, t, g as [[| |] |], u; vm_compute; reflexivity.
Qed.

Lemma only_zod_bind {A B} (r : Result A) (k : A -> Result B) :
  only_zod r -> (forall a, only_zod (k a)) -> only_zod (bind r k).
Proof.
  intros Hr Hk e. destruct r as [a | e0]; simpl.
  - apply Hk.
  - intros H. inversion H. subst e0. apply Hr. reflexivity.
Qed.

Lemma only_zod_ok {A} (a : A) : only_zod (Ok a).
Proof. intros e H. discriminate H. Qed.

Lemma only_zod_throw {A} : only_zod (@Throw A ZodError).
Proof. intros e H. inversion H. reflexivity. Qed.

Lemma only_zod_number (v : Json) : only_zod (z_number v).
Proof. destruct v; simpl; (apply only_zod_ok || apply only_zod_throw). Qed.

Lemma only_zod_boolean (v : Json) : only_zod (z_boolean v).
Proof. destruct v; simpl; (apply only_zod_ok || apply only_zod_throw). Qed.

Lemma only_zod_enum {A} (name : A -> string) (all : list A) (v : Json) :
  only_zod (z_enum name all v).
Proof.
  destruct v; simpl; try apply only_zod_throw.
  destruct (enum_of_string name all s);
    (apply only_zod_ok || apply only_zod_throw).
Qed.

Lemma only_zod_optional {A} (inner : Json -> Result A) (v : option Json) :
  (forall j, only_zod (inner j)) -> only_zod (z_optional inner v).
Proof.
  intros H. destruct v as [j |]; simpl.
  - apply only_zod_bind; [apply H | intros a; apply only_zod_ok].
  - apply only_zod_ok.
Qed.

Lemma only_zod_required {A} (inner : Json -> Result A) (v : option Json) :
  (forall j, only_zod (inner j)) -> only_zod (z_required inner v).
Proof.
  intros H. destruct v as [j |]; simpl; [apply H | apply only_zod_throw].
Qed.

Create HintDb zod.
#[local] Hint Resolve only_zod_ok only_zod_throw only_zod_number
  only_zod_boolean only_zod_enum only_zod_optional only_zod_required
  : zod.

Lemma only_zod_preferences (v : Json) : only_zod (parse_user_preferences v).
Proof.
  destruct v; simpl; auto with zod.
  repeat (apply only_zod_bind; [auto with zod | intros ?]).
  apply only_zod_ok.
Qed.

(** What a successful parse says about each property of the object. *)
Lemma parse_fields (o : list (string * Json)) (p : UserPreferences) :
  parse_user_preferences (JObj o) = Ok p ->
  z_optional z_number (get "min_budget" o) = Ok (min_budget p) /\
  z_optional z_number (get "max_budget" o) = Ok (max_budget p) /\
  z_required (z_enum usage_name all_usages) (get "primary_usage" o)
    = Ok (primary_usage p) /\
  z_optional z_number (get "min_ram_gb" o) = Ok (min_ram_gb p) /\
  z_optional z_number (get "min_storage_gb" o) = Ok (min_storage_gb p) /\
  z_optional (z_enum gpu_name all_gpu_types) (get "preferred_gpu_type" o)
    = Ok (preferred_gpu_type p) /\
  z_optional z_number (get "min_display_size" o)
    = Ok (min_display_size p) /\
  z_optional z_number (get "max_weight_kg" o) = Ok (max_weight_kg p) /\
  z_optional z_boolean (get "prefer_thin_and_light" o)
    = Ok (prefer_thin_and_light p).
Proof.
  unfold parse_user_preferences. intros H.
  repeat (apply bind_ok in H; destruct H as (? & ? & H)).
  inversion H. simpl. repeat split; assumption.
Qed.

Lemma rejected_by_number (k : string) (v : Json) (r : option Q) :
  field_accepts k v = false ->
  existsb (String.eqb k)
    ["min_budget"; "max_budget"; "min_ram_gb"; "min_storage_gb";
     "min_display_size"; "max_weight_kg"] = true ->
  z_optional z_number (Some v) <> Ok r.
Proof.
  intros Hacc Hk. destruct v; simpl; try discriminate.
  unfold field_accepts in Hacc. congruence.
Qed.

Lemma enum_accepts {A} (name : A -> string) (all : list A) (s : string) :
  existsb (String.eqb s) (map name all) = false ->
  enum_of_string name all s = None.
Proof.
  unfold enum_of_string. induction all as [| a all IH]; simpl.
  - reflexivity.
  - destruct (String.eqb s (name a)); simpl; [discriminate | exact IH].
Qed.

Lemma accepts_usage (s : string) :
  field_accepts "primary_usage" (JStr s) =
  existsb (String.eqb s) (map usage_name all_usages).
Proof.
  unfold field_accepts.
  change (String.eqb "primary_usage" "primary_usage") with true.
  change (String.eqb "primary_usage" "preferred_gpu_type") with false.
  rewrite andb_true_l, andb_false_l, orb_false_r. reflexivity.
Qed.

Lemma accepts_gpu (s : string) :
  field_accepts "preferred_gpu_type" (JStr s) =
  existsb (String.eqb s) (map gpu_name all_gpu_types).
Proof.
  unfold field_accepts.
  change (String.eqb "preferred_gpu_type" "primary_usage") with false.
  change (String.eqb "preferred_gpu_type" "preferred_gpu_type") with true.
  rewrite andb_true_l, andb_false_l, orb_false_l. reflexivity.
Qed.

Lemma get_other (k k' : string) (v : Json) (o : list (string * Json)) :
  k <> k' -> get k ((k', v) :: o) = get k o.
Proof.
  intros Hk. simpl. destruct (String.eqb_spec k k') as [E | _];
    [contradiction | reflexivity].
Qed.

(** C4, as stated, fails: a request without [primary_usage] and a request
    with a preference of the wrong type are both rejected, by the parser and
    so by the handler. *)
Lemma missing_usage_and_malformed_field_are_rejected :
  recommendationSchema_parse no_usage_request = Throw ZodError /\
  reply (recommendationsRoutes_post ai_up no_usage_request) = Throw ZodError /\
  recommendationSchema_parse malformed_request = Throw ZodError /\
  reply (recommendationsRoutes_post ai_up malformed_request) = Throw ZodError.
Proof. repeat split; reflexivity. Qed.

(** C4, as the code has it.  Every preference other than [primary_usage]
    may be left out, in any combination, and is then absent from the parsed
    preferences; properties the schema does not name are dropped.  A request
    without [primary_usage], or with a named property whose value is not of
    the declared type, is rejected with a ZodError. *)
Theorem preferences_optional_except_usage :
  (forall prefs : UserPreferences,
      recommendationSchema_parse (request_of prefs) =
      Ok {| user_preferences := prefs; top_k := 5 |}) /\
  (forall (o : list (string * Json)) (k : string) (v : Json),
      ~ In k preference_keys ->
      parse_user_preferences (JObj ((k, v) :: o)) =
      parse_user_preferences (JObj o)) /\
  (forall o : list (string * Json),
      get "primary_usage" o = None ->
      parse_user_preferences (JObj o) = Throw ZodError) /\
  (forall (o : list (string * Json)) (k : string) (v : Json),
      In k preference_keys ->
      get k o = Some v ->
      field_accepts k v = false ->
      parse_user_preferences (JObj o) = Throw ZodError).
Proof.
  split; [| split; [| split]].
  - intros prefs. unfold request_of, recommendationSchema_parse.
    change (get "user_preferences" [("user_preferences", prefs_json prefs)])
      with (Some (prefs_json prefs)).
    change (get "top_k" [("user_preferences", prefs_json prefs)])
      with (@None Json).
    unfold z_required, z_default. rewrite parse_prefs_json. reflexivity.
  - intros o k v Hk. unfold parse_user_preferences.
    assert (Hget : forall k', In k' preference_keys ->
                              get k' ((k, v) :: o) = get k' o).
    { intros k' Hk'. apply get_other. intros E. subst k'. contradiction. }
    rewrite !Hget by (simpl; tauto). reflexivity.
  - intros o Hu.
    destruct (parse_user_preferences (JObj o)) as [p | e] eqn:Hp.
    + apply parse_fields in Hp. destruct Hp as (_ & _ & Hp & _).
      rewrite Hu in Hp. discriminate Hp.
    + f_equal. apply (only_zod_preferences (JObj o)). exact Hp.
  - intros o k v Hk Hget Hacc.
    destruct (parse_user_preferences (JObj o)) as [p | e] eqn:Hp.
    + exfalso. apply parse_fields in Hp.
      destruct Hp as (H1 & H2 & H3 & H4 & H5 & H6 & H7 & H8 & H9).
      simpl in Hk.
      destruct Hk as [E | [E | [E | [E | [E | [E | [E | [E | [E | []]]]]]]]]];
        subst k.
      * rewrite Hget in H1. exact (rejected_by_number _ v _ Hacc eq_refl H1).
      * rewrite Hget in H2. exact (rejected_by_number _ v _ Hacc eq_refl H2).
      * rewrite Hget in H3. unfold z_required, z_enum in H3.
        destruct v; try discriminate H3.
        rewrite accepts_usage in Hacc.
        rewrite (enum_accepts usage_name all_usages s Hacc) in H3.
        discriminate H3.
      * rewrite Hget in H4. exact (rejected_by_number _ v _ Hacc eq_refl H4).
      * rewrite Hget in H5. exact (rejected_by_number _ v _ Hacc eq_refl H5).
      * rewrite Hget in H6. unfold z_optional, z_enum in H6.
        destruct v; try discriminate H6.
        rewrite accepts_gpu in Hacc.
        rewrite (enum_accepts gpu_name all_gpu_types s Hacc) in H6.
        discriminate H6.
      * rewrite Hget in H7. exact (rejected_by_number _ v _ Hacc eq_refl H7).
      * rewrite Hget in H8. exact (rejected_by_number _ v _ Hacc eq_refl H8).
      * rewrite Hget in H9. destruct v; simpl in H9; try discriminate H9.
        simpl in Hacc. discriminate Hacc.
    + f_equal. apply (only_zod_preferences (JObj o)). exact Hp.
Qed.

Lemma preferences_optional_except_usage_witness :
  parse_user_preferences
    (JObj [("colour", JStr "red"); ("primary_usage", JStr "Office")]) =
    parse_user_preferences (JObj [("primary_usage", JStr "Office")]) /\
  parse_user_preferences (JObj [("max_budget", JNum 150000)]) =
    Throw ZodError /\
  parse_user_preferences
    (JObj [("primary_usage", JStr "Gaming"); ("min_ram_gb", JStr "16")]) =
    Throw ZodError.
Proof.
  destruct preferences_optional_except_usage as (_ & Hdrop & Husage & Htype).
  split; [| split].
  - apply Hdrop. simpl. intuition discriminate.
  - apply Husage. reflexivity.
  - apply (Htype _ "min_ram_gb" (JStr "16")).
    + simpl. tauto.
    + reflexivity.
    + reflexivity.
Defined.

(* ================================================================== *)
(** * What the caller of [POST /] receives *)

Lemma firstn_whole {A} (n : nat) (l : list A) :
  (List.length l <= n)%nat -> firstn n l = l.
Proof.
  revert n. induction l as [| x l IH]; intros n H.
  - destruct n; reflexivity.
  - destruct n as [| n]; simpl in H; [lia |].
    simpl. rewrite IH by lia. reflexivity.
Qed.

Lemma z_top_k_accepts (k : Z) :
  (1 <= k <= 20)%Z -> z_top_k (JInt k) = Ok k.
Proof.
  intros [Hlo Hhi]. unfold z_top_k, JInt. cbn [z_number bind].
  assert (H1 : Qle_bool 1 (inject_Z k) = true).
  { apply Qle_bool_iff. unfold Qle. simpl. lia. }
  assert (H2 : Qle_bool (inject_Z k) 20 = true).
  { apply Qle_bool_iff. unfold Qle. simpl. lia. }
  unfold is_integer. rewrite Qred_integer, H1, H2. reflexivity.
Qed.

(** The strings [user_preferences] echoes are enum literals. *)
Lemma prefs_json_strings (p : UserPreferences) (s : string) :
  In s (json_strings (prefs_json p)) ->
  (exists u, s = usage_name u) \/ (exists g, s = gpu_name g).
Proof.
  destruct p as [a b u c d g e f t].
  destruct a, b, c, d, g, e, f, t; simpl; intros H;
    repeat match goal with
      | H : _ \/ _ |- _ => destruct H as [H | H]
      | H : False |- _ => destruct H
      end;
    subst s; eauto.
Qed.

Lemma answer_strings (w : World) (body : Body) (s : string) :
  In s (json_strings (primary_payload w body [])) ->
  (exists u, s = usage_name u) \/ (exists g, s = gpu_name g) \/ s = w_now w.
Proof.
  unfold primary_payload.
  cbn [json_strings flat_map snd map app].
  rewrite !app_nil_r. intros H. apply in_app_or in H. destruct H as [H | H].
  - apply prefs_json_strings in H. tauto.
  - destruct H as [H | []]. right. right. symmetry. exact H.
Qed.

(** The placeholder of the handler is not the text of a UUID. *)
Lemma userId_is_no_uuid : uuid_in userId = None.
Proof. vm_compute. reflexivity. Qed.

Lemma insert_never_resolves (w : World) (aiData : Json)
  (prefs : UserPreferences) (rec : EnrichedRec) :
  insert_resolves w (insert_values aiData prefs rec) = false.
Proof.
  unfold insert_resolves. cbn [insert_values iv_user_id].
  rewrite userId_is_no_uuid. reflexivity.
Qed.

Lemma record_analytics_warns (w : World) (aiData : Json)
  (prefs : UserPreferences) (recs : list EnrichedRec) :
  record_analytics w aiData prefs recs =
  ([], map (fun _ => LogWarn "Failed to store recommendation") recs).
Proof.
  unfold record_analytics.
  assert (Hrows : filter (insert_resolves w)
                    (map (insert_values aiData prefs) recs) = []).
  { induction recs as [| rec recs IH]; [reflexivity |].
    cbn [map filter]. rewrite insert_never_resolves. exact IH. }
  assert (Hwarn : filter (fun v => negb (insert_resolves w v))
                    (map (insert_values aiData prefs) recs)
                  = map (insert_values aiData prefs) recs).
  { induction recs as [| rec recs IH]; [reflexivity |].
    cbn [map filter]. rewrite insert_never_resolves. cbn [negb].
    rewrite IH; [reflexivity |].
    cbn [map filter] in Hrows. rewrite insert_never_resolves in Hrows.
    exact Hrows. }
  rewrite Hrows, Hwarn, map_map. reflexivity.
Qed.





(** C5.  [top_k] is validated as the claim says: an integer from 1 to 20,
    5 when it is left out, and every such integer is accepted and kept.  The
    fallback query is limited to [top_k] rows, one for each qualifying
    offer, and returns exactly the qualifying offers when these are no more
    than [top_k].  But a request for which two offers qualify, with [top_k]
    5, is not answered with two entries: it ends in the ReferenceError of
    [db], whether the AI compute service is unreachable or ranks models. *)
Theorem top_k_is_validated_but_no_list_is_served :
  (forall (raw : option Json) (body : Body),
      recommendationSchema_parse raw = Ok body ->
      (1 <= top_k body <= 20)%Z /\
      (top_k_absent raw -> top_k body = 5%Z) /\
      (forall o v,
          raw = Some (JObj o) -> get "top_k" o = Some v ->
          exists q, v = JNum q /\ q == inject_Z (top_k body))) /\
  (forall (prefs : UserPreferences) (k : Z),
      (1 <= k <= 20)%Z ->
      recommendationSchema_parse
        (Some (JObj [("user_preferences", prefs_json prefs);
                     ("top_k", JInt k)])) =
      Ok {| user_preferences := prefs; top_k := k |}) /\
  (forall (body : Body) (d : Database) (chosen : list Offer),
      fallback_offers body d = Ok chosen ->
      List.length chosen =
        Nat.min (Z.to_nat (top_k body)) (List.length (qualifying body d)) /\
      ((Z.of_nat (List.length (qualifying body d)) <= top_k body)%Z ->
       Permutation chosen (qualifying body d))) /\
  recommendationSchema_parse integrated_request = Ok integrated_body /\
  List.length (qualifying integrated_body sample_db) = 2%nat /\
  reply (recommendationsRoutes_post ai_down integrated_request) =
    Throw (ReferenceError "db") /\
  reply (recommendationsRoutes_post ai_up integrated_request) =
    Throw (ReferenceError "db").
Proof.
  split; [exact parse_top_k |].
  split.
  { intros prefs k Hk. unfold recommendationSchema_parse.
    cbn [get String.eqb Ascii.eqb Bool.eqb].
    unfold z_required. rewrite parse_prefs_json. cbn [bind].
    unfold z_default. rewrite (z_top_k_accepts k Hk). reflexivity. }
  split.
  { intros body d chosen H. apply fallback_offers_ok in H.
    destruct H as (_ & Hk & Hc). subst chosen. split.
    - rewrite length_firstn, order_by_length. reflexivity.
    - intros Hfew. rewrite firstn_whole.
      + apply order_by_perm.
      + rewrite order_by_length. lia. }
  repeat split; vm_compute; reflexivity.
Qed.

Lemma top_k_is_validated_but_no_list_is_served_witness :
  (1 <= top_k integrated_body <= 20)%Z /\
  recommendationSchema_parse
    (Some (JObj [("user_preferences", prefs_json (prefs_of General));
                 ("top_k", JInt 20)])) =
    Ok {| user_preferences := prefs_of General; top_k := 20 |} /\
  Permutation [inspiron_offer; thinkpad_offer]
    (qualifying integrated_body sample_db).
Proof.
  destruct top_k_is_validated_but_no_list_is_served
    as (Hparse & Haccept & Hquery & Hreq & _).
  split; [exact (proj1 (Hparse integrated_request integrated_body Hreq)) |].
  split.
  - apply (Haccept (prefs_of General) 20%Z). lia.
  - apply (proj2 (Hquery integrated_body sample_db
                    [inspiron_offer; thinkpad_offer]
                    ltac:(vm_compute; reflexivity))).
    vm_compute. discriminate.
Defined.



(** C7, as stated, fails: the reply to a request for which the AI compute
    service ranks nothing holds neither the value [primary] nor the value
    [fallback]. *)
Lemma empty_answer_holds_no_source_value :
  exists payload,
    reply (recommendationsRoutes_post ai_empty general_request) =
      Ok payload /\
    ~ carries_source_flag payload.
Proof.
  eexists. split; [vm_compute; reflexivity |].
  unfold carries_source_flag. simpl. intuition discriminate.
Qed.

(** C7, as the code has it.  No reply of the handler says which path its
    list came from: it holds neither the value [primary] nor the value
    [fallback], and no [note].  ([generated_at] is the text of
    [toISOString], of 24 characters or more.) *)
Theorem replies_name_no_source :
  forall (w : World) (raw : option Json) (payload : Json),
    (24 <= String.length (w_now w))%nat ->
    reply (recommendationsRoutes_post w raw) = Ok payload ->
    ~ carries_source_flag payload /\ payload_note payload = None.
Proof.
  intros w raw payload Hnow H. apply answered_request in H.
  destruct H as (db & body & aiData & _ & _ & _ & Hpayload & _).
  subst payload. split; [| reflexivity].
  unfold carries_source_flag. intros [H | H];
    apply answer_strings in H;
    destruct H as [[u H] | [[g H] | H]];
    try (destruct u; discriminate H);
    try (destruct g; discriminate H);
    rewrite <- H in Hnow; simpl in Hnow; lia.
Qed.

Lemma replies_name_no_source_witness :
  ~ carries_source_flag (primary_payload ai_empty general_body []) /\
  payload_note (primary_payload ai_empty general_body []) = None.
Proof.
  apply (replies_name_no_source ai_empty general_request).
  - simpl. lia.
  - vm_compute. reflexivity.
Defined.


(* ================================================================== *)
(** * The reason generator *)

Lemma append_nonempty_l (s t : string) : s <> "" -> String.append s t <> "".
Proof. destruct s; simpl; [congruence | discriminate]. Qed.

Lemma append_nonempty_r (s t : string) : t <> "" -> String.append s t <> "".
Proof. destruct s; simpl; [tauto | discriminate]. Qed.

Lemma concat_nonempty (sep r : string) (rs : list string) :
  r <> "" -> String.concat sep (r :: rs) <> "".
Proof.
  intros Hr. destruct rs as [| r' rs]; simpl.
  - exact Hr.
  - apply append_nonempty_l. exact Hr.
Qed.

Lemma reasons_nonempty_strings (laptop : option LaptopProps)
  (preferences : UserPreferences) :
  Forall (fun r => r <> "") (reasons laptop preferences).
Proof.
  unfold reasons.
  apply Forall_app; split;
    [| apply Forall_app; split; [| apply Forall_app; split]].
  - destruct (signal_gaming laptop preferences); constructor;
      [discriminate | constructor].
  - destruct (signal_ram laptop) as [n |]; constructor; [| constructor].
    apply append_nonempty_r. discriminate.
  - destruct (signal_portable laptop preferences); constructor;
      [discriminate | constructor].
  - destruct (signal_budget laptop preferences); constructor;
      [discriminate | constructor].
Qed.

Lemma reasons_nil_iff (laptop : option LaptopProps)
  (preferences : UserPreferences) :
  reasons laptop preferences = [] <-> some_signal laptop preferences = false.
Proof.
  unfold reasons, some_signal.
  destruct (signal_gaming laptop preferences),
    (signal_ram laptop) as [n |],
    (signal_portable laptop preferences),
    (signal_budget laptop preferences); simpl; split; intros H;
    (reflexivity || discriminate H).
Qed.

(** C9.  The reason generator never returns the empty string: when none of
    its four signals applies the result is the generic reason, and otherwise
    it is the non-empty list of the reasons of the signals that apply. *)
Theorem reason_is_never_empty :
  forall (laptop : option LaptopProps) (preferences : UserPreferences),
    generateRecommendationReason laptop preferences <> "" /\
    (some_signal laptop preferences = false ->
     generateRecommendationReason laptop preferences = reason_generic) /\
    (some_signal laptop preferences = true ->
     reasons laptop preferences <> [] /\
     generateRecommendationReason laptop preferences =
       String.concat ", " (reasons laptop preferences)).
Proof.
  intros laptop preferences.
  pose proof (reasons_nonempty_strings laptop preferences) as Hne.
  pose proof (reasons_nil_iff laptop preferences) as Hnil.
  unfold generateRecommendationReason.
  destruct (reasons laptop preferences) as [| r rs] eqn:Hr.
  - split; [discriminate |]. split; [reflexivity |].
    intros Hs. destruct Hnil as [Hnil _]. rewrite (Hnil eq_refl) in Hs.
    discriminate Hs.
  - apply Forall_inv in Hne. split; [| split].
    + apply concat_nonempty. exact Hne.
    + intros Hs. apply Hnil in Hs. discriminate Hs.
    + intros _. split; [discriminate | reflexivity].
Qed.

Lemma reason_is_never_empty_witness :
  generateRecommendationReason (Some plain_laptop) (prefs_of General) =
    "Matches your preferences" /\
  generateRecommendationReason
    (Some {| gpu_type := Some "Dedicated"; ram_gb := Some 16%Z;
             min_price := Some 119999 |})
    (user_preferences budget_body) =
    "16GB RAM for smooth multitasking, Within your budget".
Proof.
  split.
  - destruct (reason_is_never_empty (Some plain_laptop) (prefs_of General))
      as (_ & Hgeneric & _).
    apply Hgeneric. reflexivity.
  - destruct (reason_is_never_empty
                (Some {| gpu_type := Some "Dedicated"; ram_gb := Some 16%Z;
                         min_price := Some 119999 |})
                (user_preferences budget_body)) as (_ & _ & Hsome).
    destruct (Hsome eq_refl) as [_ Heq]. rewrite Heq. reflexivity.
Defined.

(* ================================================================== *)
(** * Discontinued models *)

Lemma in_catalog_left_join
  (on : LaptopModel * Brand * HardwareSpec -> Inventory -> bool)
  (d : Database) (j : Joined) :
  In j (catalog_left_join on d) -> In (j_lm j) (laptop_models d).
Proof.
  unfold catalog_left_join. intros H. apply in_map_iff in H.
  destruct H as (x & Hx & Hin). subst j. apply in_left_join in Hin.
  destruct Hin as [Hc _]. apply in_from_catalog in Hc. exact Hc.
Qed.

Lemma where_not_discontinued (conditions : list Cond) (j : Joined) :
  In NotDiscontinued conditions ->
  where_ conditions j = true ->
  lm_is_discontinued (j_lm j) = Some false.
Proof.
  unfold where_. intros Hin Hw. rewrite forallb_forall in Hw.
  specialize (Hw NotDiscontinued Hin). simpl in Hw.
  destruct (lm_is_discontinued (j_lm j)) as [[|] |]; simpl in Hw;
    try discriminate Hw; reflexivity.
Qed.

Lemma browse_conditions_head (p : BrowseParams) (conditions : list Cond) :
  browse_conditions p = Ok conditions -> In NotDiscontinued conditions.
Proof.
  unfold browse_conditions. intros H.
  repeat (apply bind_ok in H; destruct H as (? & _ & H)).
  inversion H. left. reflexivity.
Qed.

(** A group of kept rows of a catalog join starts with a row of a model
    that is not discontinued. *)
Lemma kept_group_first (same : Joined -> Joined -> bool)
  (on : LaptopModel * Brand * HardwareSpec -> Inventory -> bool)
  (conditions : list Cond) (d : Database) (g : Joined * list Joined) :
  In NotDiscontinued conditions ->
  In g (group_by same
          (filter (where_ conditions) (catalog_left_join on d))) ->
  In (j_lm (fst g)) (laptop_models d) /\
  lm_is_discontinued (j_lm (fst g)) = Some false.
Proof.
  intros Hc Hg. apply group_by_first in Hg. apply filter_In in Hg.
  destruct Hg as [Hin Hw]. split.
  - apply in_catalog_left_join with (on := on). exact Hin.
  - apply where_not_discontinued with (conditions := conditions);
      assumption.
Qed.

Lemma browse_rows_not_discontinued (p : BrowseParams) (d : Database)
  (rows : list BrowseRow) (row : BrowseRow) :
  browse_query p d = Ok rows -> In row rows ->
  In (br_lm row) (laptop_models d) /\
  lm_is_discontinued (br_lm row) = Some false.
Proof.
  unfold browse_query. intros H Hrow.
  apply bind_ok in H. destruct H as (conditions & Hc & H).
  apply bind_ok in H. destruct H as (lim & _ & H).
  apply bind_ok in H. destruct H as (off & _ & H).
  apply bind_ok in H. destruct H as (bound & _ & H).
  apply bind_ok in H. destruct H as (skipped & Hs & H).
  apply offset_ok in Hs. destruct Hs as [_ Hs].
  apply limit_ok in H. destruct H as [_ H]. subst rows skipped.
  apply in_firstn, in_skipn, in_order_by, in_map_iff in Hrow.
  destruct Hrow as (g & Hg & Hin). subst row. simpl.
  apply kept_group_first
    with (same := same_browse_group) (on := on_in_stock)
         (conditions := conditions).
  - apply browse_conditions_head with (p := p). exact Hc.
  - exact Hin.
Qed.

Lemma usage_rows_not_discontinued (usage : string)
  (limit_param : option string) (d : Database) (rows : list UsageRow)
  (row : UsageRow) :
  by_usage_query usage limit_param d = Ok rows -> In row rows ->
  In (ur_lm row) (laptop_models d) /\
  lm_is_discontinued (ur_lm row) = Some false.
Proof.
  unfold by_usage_query. intros H Hrow.
  apply bind_ok in H. destruct H as (bound & _ & H).
  apply limit_ok in H. destruct H as [_ H]. subst rows.
  apply in_firstn, in_order_by, in_map_iff in Hrow.
  destruct Hrow as (g & Hg & Hin). subst row. simpl.
  apply kept_group_first
    with (same := same_usage_group) (on := on_available)
         (conditions := usage_conditions (specs_of usage)).
  - left. reflexivity.
  - exact Hin.
Qed.

Lemma trending_rows_not_discontinued (now : Z) (d : Database)
  (rows : list TrendingRow) (row : TrendingRow) :
  trending_query now d = Ok rows -> In row rows ->
  exists lm,
    In lm (laptop_models d) /\ lm_model_id lm = tr_model_id row /\
    lm_is_discontinued lm = Some false.
Proof.
  unfold trending_query. intros H Hrow.
  apply limit_ok in H. destruct H as [_ H]. subst rows.
  apply in_firstn, in_order_by, in_map_iff in Hrow.
  destruct Hrow as (g & Hg & Hin). subst row. simpl.
  apply group_by_first in Hin. apply filter_In in Hin.
  destruct Hin as [Hin Hw]. apply in_left_join in Hin.
  destruct Hin as [Hin _].
  exists (j_lm (fst (fst g))). split; [| split].
  - apply in_catalog_left_join with (on := on_available). exact Hin.
  - reflexivity.
  - apply where_not_discontinued with (conditions := [NotDiscontinued]).
    + left. reflexivity.
    + exact Hw.
Qed.

Lemma getPool_ok (w : World) (db : Pool) :
  getPool w = Ok db -> w_pool w = Some db.
Proof.
  unfold getPool. destruct (w_pool w); intros H; inversion H. reflexivity.
Qed.

(** C10.  The browse listing, the trending endpoint, the by-usage endpoint
    and the fallback recommendations return only rows of models of
    [laptop_models] whose [is_discontinued] is false. *)
Theorem listings_exclude_discontinued :
  (forall (app_db : Pool) (p : BrowseParams) (rows : list BrowseRow)
          (row : BrowseRow),
      get_laptops app_db p = Ok rows -> In row rows ->
      In (br_lm row) (laptop_models (pool_data app_db)) /\
      lm_is_discontinued (br_lm row) = Some false) /\
  (forall (w : World) (now : Z) (rows : list TrendingRow)
          (row : TrendingRow),
      get_trending w now = Ok rows -> In row rows ->
      exists pool lm,
        w_pool w = Some pool /\ In lm (laptop_models (pool_data pool)) /\
        lm_model_id lm = tr_model_id row /\
        lm_is_discontinued lm = Some false) /\
  (forall (w : World) (usage : string) (limit_param : option string)
          (rows : list UsageRow) (row : UsageRow),
      get_by_usage w usage limit_param = Ok rows -> In row rows ->
      exists pool,
        w_pool w = Some pool /\
        In (ur_lm row) (laptop_models (pool_data pool)) /\
        lm_is_discontinued (ur_lm row) = Some false) /\
  (forall (db : option Pool) (body : Body) (recs : list FallbackRec)
          (r : FallbackRec),
      getFallbackRecommendations db body = Ok recs -> In r recs ->
      exists pool lm,
        db = Some pool /\ In lm (laptop_models (pool_data pool)) /\
        lm_model_id lm = spec_id r /\
        lm_is_discontinued lm = Some false).
Proof.
  split; [| split; [| split]].
  - intros app_db p rows row H Hrow. unfold get_laptops in H.
    apply pool_query_ok in H. destruct H as [_ H].
    apply browse_rows_not_discontinued with (p := p) (rows := rows);
      assumption.
  - intros w now rows row H Hrow. unfold get_trending in H.
    apply bind_ok in H. destruct H as (pool & Hpool & H).
    apply pool_query_ok in H. destruct H as [_ H].
    destruct (trending_rows_not_discontinued now (pool_data pool) rows row
                H Hrow) as (lm & Hin & Hid & Hdisc).
    exists pool, lm. split; [apply getPool_ok; exact Hpool |]. auto.
  - intros w usage limit_param rows row H Hrow. unfold get_by_usage in H.
    apply bind_ok in H. destruct H as (pool & Hpool & H).
    apply pool_query_ok in H. destruct H as [_ H].
    exists pool. split; [apply getPool_ok; exact Hpool |].
    apply usage_rows_not_discontinued
      with (usage := usage) (limit_param := limit_param) (rows := rows);
      assumption.
  - intros db body recs r H Hr.
    destruct (fallback_entry_origin db body recs r H Hr)
      as (pool & x & Hdb & Hx & Hrx).
    exists pool, (offer_lm x). split; [exact Hdb |].
    assert (Hd : eval_cond NotDiscontinued (as_joined x) = true).
    { apply qualifying_cond with (body := body) (d := pool_data pool);
        [exact Hx | left; reflexivity]. }
    apply filter_In in Hx. destruct Hx as [Hfrom _].
    apply in_fallback_from in Hfrom. destruct Hfrom as (Hlm & _ & _).
    split; [exact Hlm |]. split; [subst r; reflexivity |].
    simpl in Hd.
    destruct (lm_is_discontinued (offer_lm x)) as [[|] |]; simpl in Hd;
      try discriminate Hd; reflexivity.
Qed.

Lemma listings_exclude_discontinued_witness :
  (exists rows,
      get_laptops sample_pool no_params = Ok rows /\ List.length rows = 3%nat /\
      Forall (fun row => lm_is_discontinued (br_lm row) = Some false) rows) /\
  (exists rows,
      get_trending ai_up 0 = Ok rows /\ List.length rows = 3%nat /\
      Forall (fun row => tr_model_id row <> lm_model_id latitude) rows) /\
  (exists rows,
      get_by_usage ai_up "Student" None = Ok rows /\
      List.length rows = 3%nat /\
      Forall (fun row => lm_is_discontinued (ur_lm row) = Some false) rows) /\
  (exists lm,
      In lm (laptop_models sample_db) /\
      lm_model_id lm = spec_id (entry_of inspiron_offer) /\
      lm_is_discontinued lm = Some false).
Proof.
  destruct listings_exclude_discontinued as (Hb & Ht & Hu & Hf).
  split; [| split; [| split]].
  - eexists. split; [vm_compute; reflexivity |]. split; [reflexivity |].
    rewrite Forall_forall. intros row Hrow.
    eapply (Hb sample_pool no_params _ row);
      [vm_compute; reflexivity | exact Hrow].
  - eexists. split; [vm_compute; reflexivity |]. split; [reflexivity |].
    rewrite Forall_forall. intros row Hrow.
    destruct (Ht ai_up 0%Z _ row ltac:(vm_compute; reflexivity) Hrow)
      as (pool & lm & Hpool & Hin & Hid & Hdisc).
    inversion Hpool. subst pool. rewrite <- Hid. intros E.
    simpl in Hin.
    destruct Hin as [L | [L | [L | [L | []]]]]; subst lm;
      try discriminate E; discriminate Hdisc.
  - eexists. split; [vm_compute; reflexivity |]. split; [reflexivity |].
    rewrite Forall_forall. intros row Hrow.
    destruct (Hu ai_up "Student" None _ row ltac:(vm_compute; reflexivity)
                Hrow) as (pool & _ & _ & Hdisc).
    exact Hdisc.
  - destruct (Hf (Some sample_pool) budget_body _ (entry_of inspiron_offer)
                budget_body_result (or_introl eq_refl))
      as (pool & lm & Hpool & Hin & Hid & Hdisc).
    inversion Hpool. subst pool. exists lm. auto.
Defined.

(* ================================================================== *)
(** * More on the request schema and the start of the handler *)

(** [top_k] is accepted exactly when it is a JSON number whose value is an
    integer from 1 to 20; the parsed value is that integer. *)
Theorem top_k_accepted_exactly :
  forall (v : Json) (k : Z),
    z_top_k v = Ok k <->
    exists q, v = JNum q /\ q == inject_Z k /\ (1 <= k <= 20)%Z.
Proof.
  intros v k. split.
  - intros H. pose proof (z_top_k_range v k H) as Hrange.
    unfold z_top_k in H.
    destruct v as [| b | q | s | items | props]; simpl in H;
      try discriminate H.
    destruct (is_integer q) eqn:Hint; simpl in H; [| discriminate H].
    destruct (Qle_bool 1 q && Qle_bool q 20)%bool; [| discriminate H].
    inversion H as [Hk]. exists q. split; [reflexivity |]. split; [| lia].
    unfold is_integer in Hint. apply Pos.eqb_eq in Hint.
    apply Qeq_trans with (Qred q); [symmetry; apply Qred_correct |].
    clear H Hk Hrange. destruct (Qred q) as [n d]. simpl in *. subst d.
    reflexivity.
  - intros (q & Hv & Hq & Hlo & Hhi). subst v. unfold z_top_k. simpl.
    assert (Hred : Qred q = inject_Z k).
    { rewrite <- (Qred_integer k). apply Qred_complete. exact Hq. }
    unfold is_integer. rewrite Hred. simpl.
    assert (H1 : Qle_bool 1 q = true).
    { apply Qle_bool_iff. rewrite Hq. unfold Qle. simpl. lia. }
    assert (H2 : Qle_bool q 20 = true).
    { apply Qle_bool_iff. rewrite Hq. unfold Qle. simpl. lia. }
    rewrite H1, H2. reflexivity.
Qed.

Lemma top_k_accepted_exactly_witness :
  z_top_k (JNum (40 # 2)) = Ok 20%Z /\
  (exists q, JNum 7 = JNum q /\ q == inject_Z 7 /\ (1 <= 7 <= 20)%Z).
Proof.
  split.
  - apply (proj2 (top_k_accepted_exactly (JNum (40 # 2)) 20%Z)).
    exists (40 # 2). split; [reflexivity |]. split; [reflexivity | lia].
  - apply (proj1 (top_k_accepted_exactly (JNum 7) 7%Z)). reflexivity.
Defined.

Lemma only_zod_top_k (v : Json) : only_zod (z_top_k v).
Proof.
  unfold z_top_k. apply only_zod_bind; [apply only_zod_number |].
  intros q. destruct (is_integer q && Qle_bool 1 q && Qle_bool q 20)%bool;
    auto with zod.
Qed.

Lemma only_zod_schema (raw : option Json) :
  only_zod (recommendationSchema_parse raw).
Proof.
  unfold recommendationSchema_parse.
  destruct raw as [[| b | q | s | items | o] |]; auto with zod.
  apply only_zod_bind.
  - apply only_zod_required. apply only_zod_preferences.
  - intros prefs. apply only_zod_bind.
    + unfold z_default. destruct (get "top_k" o); auto with zod.
      apply only_zod_top_k.
    + intros k. apply only_zod_ok.
Qed.

(** The handler checks the pool and the body before anything else: without
    a pool every request is rejected with the pool's error, and a body the
    schema does not accept is rejected with a ZodError, with nothing logged
    or stored and whatever the AI service would have answered. *)
Theorem invalid_request_is_rejected_first :
  forall (fallback_db : option Pool) (w : World) (raw : option Json),
    (w_pool w = None ->
     post_recommendations fallback_db w raw = rejected PoolNotInitialized) /\
    (w_pool w <> None ->
     (forall body, recommendationSchema_parse raw <> Ok body) ->
     post_recommendations fallback_db w raw = rejected ZodError).
Proof.
  intros fallback_db w raw. unfold post_recommendations, getPool. split.
  - intros Hpool. rewrite Hpool. reflexivity.
  - intros Hpool Hbad. destruct (w_pool w) as [db |]; [| congruence].
    destruct (recommendationSchema_parse raw) as [body | e] eqn:Hparse.
    + exfalso. apply (Hbad body). reflexivity.
    + rewrite (only_zod_schema raw e Hparse). reflexivity.
Qed.

Lemma invalid_request_is_rejected_first_witness :
  post_recommendations module_db ai_up malformed_request =
  rejected ZodError.
Proof.
  apply (proj2 (invalid_request_is_rejected_first module_db ai_up
                  malformed_request)).
  - discriminate.
  - intros body H. discriminate H.
Defined.

(* ================================================================== *)
(** * The primary path *)

(** The primary path completes exactly when the AI service answers with an
    OK status and a JSON object whose [recommendations] is the empty array;
    nothing is enriched then.  In every other case, and so whenever the AI
    service ranks a model, the handler goes to its [catch] block. *)
Theorem primary_path_completes_exactly :
  forall (w : World) (db : Pool) (body : Body) (aiData : Json)
         (enriched : list EnrichedRec),
    primary_path w db body = Ok (aiData, enriched) <->
    exists statusText o,
      w_ai w body = Responded true statusText (Some aiData) /\
      aiData = JObj o /\
      get "recommendations" o = Some (JArr []) /\
      enriched = [].
Proof.
  intros w db body aiData enriched. split.
  - intros H. apply primary_path_ok in H.
    destruct H as (Hai & Hrecs & Hen).
    unfold fetch_ai in Hai.
    destruct (w_ai w body) as [| ok statusText json]; [discriminate Hai |].
    destruct ok; [| discriminate Hai].
    destruct json as [j |]; [| discriminate Hai]. inversion Hai. subst j.
    destruct aiData as [| b | q | s | l | o]; simpl in Hrecs;
      try discriminate Hrecs.
    exists statusText, o. inversion Hrecs. auto.
  - intros (statusText & o & Hai & Ho & Hrecs & Hen).
    unfold primary_path, fetch_ai. rewrite Hai. subst aiData enriched. simpl.
    rewrite Hrecs. reflexivity.
Qed.

Lemma primary_path_completes_exactly_witness :
  primary_path ai_empty down_pool general_body = Ok (empty_answer, []).
Proof.
  apply (proj2 (primary_path_completes_exactly ai_empty down_pool
                  general_body empty_answer [])).
  exists "OK", [("recommendations", JArr [])].
  split; [reflexivity |]. split; [reflexivity |]. split; reflexivity.
Defined.

Section MoreGroupFacts.
Context {A : Type} (same : A -> A -> bool).

Lemma add_to_groups_not_nil (x : A) (gs : list (A * list A)) :
  add_to_groups same x gs <> [].
Proof.
  destruct gs as [| [y ys] gs]; simpl; [discriminate |].
  destruct (same y x); discriminate.
Qed.

Lemma fold_groups_not_nil (rows : list A) (acc : list (A * list A)) :
  acc <> [] ->
  fold_left (fun gs x => add_to_groups same x gs) rows acc <> [].
Proof.
  revert acc. induction rows as [| x rows IH]; simpl; intros acc Hacc.
  - exact Hacc.
  - apply IH. apply add_to_groups_not_nil.
Qed.

(** Grouping leaves no group exactly when there is no row. *)
Lemma group_by_nil_iff (rows : list A) :
  group_by same rows = [] <-> rows = [].
Proof.
  split.
  - destruct rows as [| x rows]; [reflexivity |]. unfold group_by. simpl.
    intros H. exfalso.
    apply (fold_groups_not_nil rows (add_to_groups same x [])).
    + apply add_to_groups_not_nil.
    + exact H.
  - intros H. subst rows. reflexivity.
Qed.

(** The rows of a group agree with its first row on the grouping columns. *)
Lemma add_to_groups_same (x : A) (gs : list (A * list A)) :
  Forall (fun g => Forall (fun y => same (fst g) y = true) (snd g)) gs ->
  Forall (fun g => Forall (fun y => same (fst g) y = true) (snd g))
    (add_to_groups same x gs).
Proof.
  induction 1 as [| [y ys] gs Hg Hgs IH]; simpl.
  - constructor; [constructor | constructor].
  - destruct (same y x) eqn:Hyx.
    + constructor; [| exact Hgs]. simpl in *.
      apply Forall_app. split; [exact Hg |].
      constructor; [exact Hyx | constructor].
    + constructor; [exact Hg | exact IH].
Qed.

Lemma group_by_same (rows : list A) (g : A * list A) (y : A) :
  In g (group_by same rows) -> In y (snd g) -> same (fst g) y = true.
Proof.
  intros Hg Hy.
  assert (H : forall rows acc,
             Forall (fun g => Forall (fun y => same (fst g) y = true) (snd g))
               acc ->
             Forall (fun g => Forall (fun y => same (fst g) y = true) (snd g))
               (fold_left (fun gs x => add_to_groups same x gs) rows acc)).
  { clear. induction rows as [| x rows IH]; simpl; intros acc Hacc.
    - exact Hacc.
    - apply IH. apply add_to_groups_same. exact Hacc. }
  specialize (H rows [] (Forall_nil _)).
  rewrite Forall_forall in H. specialize (H g Hg).
  rewrite Forall_forall in H. apply H. exact Hy.
Qed.

(** Every row is the first row of a group or agrees with one. *)
Lemma add_to_groups_covers (x : A) (gs : list (A * list A)) :
  exists g, In g (add_to_groups same x gs) /\ In x (members g).
Proof.
  induction gs as [| [y ys] gs IH]; simpl.
  - exists (x, []). split; [left; reflexivity | left; reflexivity].
  - destruct (same y x).
    + exists (y, ys ++ [x]). split; [left; reflexivity |].
      right. apply in_or_app. right. left. reflexivity.
    + destruct IH as (g & Hg & Hx). exists g. split; [right; exact Hg |].
      exact Hx.
Qed.

Lemma add_to_groups_keeps (x : A) (gs : list (A * list A)) (z : A) :
  (exists g, In g gs /\ In z (members g)) ->
  exists g, In g (add_to_groups same x gs) /\ In z (members g).
Proof.
  induction gs as [| [y ys] gs IH]; simpl.
  - intros (g & [] & _).
  - intros (g & [Hg | Hg] & Hz).
    + subst g. destruct (same y x).
      * exists (y, ys ++ [x]). split; [left; reflexivity |].
        destruct Hz as [Hz | Hz]; [left; exact Hz |].
        right. apply in_or_app. left. exact Hz.
      * exists (y, ys). split; [left; reflexivity | exact Hz].
    + destruct (same y x).
      * exists g. split; [right; exact Hg | exact Hz].
      * destruct IH as (g' & Hg' & Hz'); [exists g; split; assumption |].
        exists g'. split; [right; exact Hg' | exact Hz'].
Qed.

Lemma group_by_covers (rows : list A) (z : A) :
  In z rows -> exists g, In g (group_by same rows) /\ In z (members g).
Proof.
  unfold group_by.
  assert (H : forall rows acc,
             (In z rows \/ exists g, In g acc /\ In z (members g)) ->
             exists g,
               In g (fold_left (fun gs x => add_to_groups same x gs) rows acc)
               /\ In z (members g)).
  { clear. induction rows as [| x rows IH]; simpl; intros acc Hz.
    - destruct Hz as [[] | Hz]. exact Hz.
    - apply IH. destruct Hz as [[Hz | Hz] | Hz].
      + subst x. right. apply add_to_groups_covers.
      + left. exact Hz.
      + right. apply add_to_groups_keeps. exact Hz. }
  intros Hz. apply H. left. exact Hz.
Qed.
End MoreGroupFacts.

Lemma in_left_join_any {A B} (on : A -> B -> bool) (l : list A)
  (r : list B) (a : A) :
  In a l -> exists ob, In (a, ob) (left_join on l r).
Proof.
  intros Ha. unfold left_join.
  destruct (filter (on a) r) as [| b m] eqn:Hf.
  - exists None. apply in_flat_map. exists a. split; [exact Ha |].
    rewrite Hf. left. reflexivity.
  - exists (Some b). apply in_flat_map. exists a. split; [exact Ha |].
    rewrite Hf. left. reflexivity.
Qed.

Lemma in_catalog_left_join_row
  (on : LaptopModel * Brand * HardwareSpec -> Inventory -> bool)
  (d : Database) (j : Joined) :
  In j (catalog_left_join on d) ->
  In (j_lm j, j_b j, j_hs j) (from_catalog d).
Proof.
  unfold catalog_left_join. intros H. apply in_map_iff in H.
  destruct H as (x & Hx & Hin). subst j. apply in_left_join in Hin.
  destruct Hin as [Hc _]. destruct x as [[[lm b] hs] oi]. exact Hc.
Qed.

Lemma catalog_left_join_covers
  (on : LaptopModel * Brand * HardwareSpec -> Inventory -> bool)
  (d : Database) (y : LaptopModel * Brand * HardwareSpec) :
  In y (from_catalog d) ->
  exists j, In j (catalog_left_join on d) /\
            (j_lm j, j_b j, j_hs j) = y.
Proof.
  intros Hy. destruct (in_left_join_any on _ (inventory d) y Hy) as [oi Hin].
  exists (left_joined (y, oi)). split.
  - unfold catalog_left_join. apply in_map. exact Hin.
  - destruct y as [[lm b] hs]. reflexivity.
Qed.

(* ================================================================== *)
(** * The enrichment of an entry *)

Lemma filter_nil_iff {A} (f : A -> bool) (l : list A) :
  filter f l = [] <-> forall x, In x l -> f x = false.
Proof.
  induction l as [| a l IH]; simpl.
  - split; [intros _ x [] | reflexivity].
  - destruct (f a) eqn:Ha.
    + split; [discriminate |]. intros H. specialize (H a (or_introl eq_refl)).
      congruence.
    + rewrite IH. split.
      * intros H x [Hx | Hx]; [subst x; exact Ha | apply H; exact Hx].
      * intros H x Hx. apply H. right. exact Hx.
Qed.

(** The server refuses the enrichment query, for every entry of the AI
    service's list and every catalog: its select list has [b.brand_slug],
    which is neither a grouping column nor covered by the primary key of
    [brands] among them (the only such column of the query).  So enriching
    an entry throws: a TypeError for [null], the error of the database for
    anything else.  The other grouped queries of the routes pass the same
    rule. *)
Theorem enrichment_query_is_refused :
  filter (fun c => negb (column_accepted enrich_grouping c)) enrich_selected =
    [("b", "brand_slug")] /\
  (forall (param : option string) (d : Database),
      enrich_query param d = Throw DbError) /\
  (forall (db : Pool) (rec : Json),
      enrich db rec =
      Throw (match rec with JNull => TypeError | _ => DbError end)) /\
  Forall (fun q => grouping_accepted (fst q) (snd q) = true)
    other_grouped_queries.
Proof.
  split; [vm_compute; reflexivity |].
  split; [exact enrich_query_refused |].
  split; [exact enrich_throws |].
  repeat constructor.
Qed.

Lemma get_set_prop_same (k : string) (v : Json)
  (props : list (string * Json)) :
  get k (set_prop k v props) = Some v.
Proof.
  induction props as [| [k' v'] props IH]; simpl.
  - rewrite String.eqb_refl. reflexivity.
  - destruct (String.eqb k k') eqn:E; simpl.
    + rewrite String.eqb_refl. reflexivity.
    + rewrite E. exact IH.
Qed.

Lemma get_set_prop_other (k k' : string) (v : Json)
  (props : list (string * Json)) :
  k <> k' -> get k (set_prop k' v props) = get k props.
Proof.
  intros Hk. induction props as [| [k0 v0] props IH]; simpl.
  - apply String.eqb_neq in Hk. rewrite Hk. reflexivity.
  - destruct (String.eqb_spec k' k0) as [E | E]; simpl.
    + subst k0. apply String.eqb_neq in Hk. rewrite Hk. reflexivity.
    + destruct (String.eqb k k0); [reflexivity | exact IH].
Qed.

(** An entry of the reply on the primary path has the catalog row (or
    [null]) as its [laptop], also when the AI service's entry brought a
    [laptop] of its own, and every other property as the AI service gave
    it. *)
Theorem enriched_entry_relays_the_ai_entry :
  forall (e : EnrichedRec),
    get "laptop" (enriched_props e) =
      Some (opt_json enriched_laptop_json (enriched_laptop e)) /\
    forall k, k <> "laptop" ->
              get k (enriched_props e) = get k (spread (ai_rec e)).
Proof.
  intros e. unfold enriched_props. split.
  - apply get_set_prop_same.
  - intros k Hk. apply get_set_prop_other. exact Hk.
Qed.

Lemma enriched_entry_relays_the_ai_entry_witness :
  get "relevance_score" (enriched_props (with_laptop latitude_rec None))
    = Some (JNum (9 # 10)) /\
  get "laptop" (enriched_props (with_laptop latitude_rec None))
    <> Some (JStr "mine").
Proof.
  destruct (enriched_entry_relays_the_ai_entry
              (with_laptop latitude_rec None)) as [Hl Hk].
  split.
  - rewrite Hk; [reflexivity | discriminate].
  - rewrite Hl. vm_compute. discriminate.
Defined.

(* ================================================================== *)
(** * What the analytics step stores *)

Lemma string_length_append (s t : string) :
  String.length (String.append s t) = (String.length s + String.length t)%nat.
Proof. induction s as [| c s IH]; simpl; [reflexivity | rewrite IH; reflexivity]. Qed.

Lemma append_suffix_inj (s s' t t' : string) :
  String.length t = String.length t' ->
  String.append s t = String.append s' t' -> t = t'.
Proof.
  intros Hlen Heq.
  assert (Hs : String.length s = String.length s').
  { apply (f_equal String.length) in Heq.
    rewrite !string_length_append in Heq. lia. }
  clear Hlen. revert s' Hs Heq.
  induction s as [| c s IH]; intros [| c' s'] Hs Heq; simpl in *;
    try discriminate Hs.
  - exact Heq.
  - inversion Heq. apply (IH s'); [lia | assumption].
Qed.

Lemma reason_ram_not_gaming (n : Z) : reason_ram n <> reason_gaming.
Proof.
  unfold reason_ram.
  change reason_gaming
    with (String.append "Dedica" "ted GPU for gaming performance").
  intros H. apply append_suffix_inj in H; [discriminate H | reflexivity].
Qed.

(** The reason stored with a recommendation is the generic reason or the
    reasons joined by a comma, and these are the RAM, the portability and
    the budget reason only: the row the enrichment query yields has no
    [gpu_type], so the gaming reason is never among them. *)
Theorem stored_reason_is_never_the_gaming_one :
  forall (aiData : Json) (prefs : UserPreferences) (rec : EnrichedRec),
    exists rs,
      iv_recommendation_reason (insert_values aiData prefs rec) =
        joined_reasons rs /\
      ~ In reason_gaming rs /\
      forall r, In r rs ->
                r = reason_portable \/ r = reason_budget \/
                exists n, (16 <= n)%Z /\ r = reason_ram n.
Proof.
  intros aiData prefs rec.
  set (laptop := option_map props_of_enriched (enriched_laptop rec)).
  exists (reasons laptop prefs).
  assert (Hgaming : signal_gaming laptop prefs = false).
  { unfold signal_gaming, laptop.
    destruct (enriched_laptop rec); simpl; apply andb_false_r. }
  assert (Hall : forall r, In r (reasons laptop prefs) ->
                   r = reason_portable \/ r = reason_budget \/
                   exists n, (16 <= n)%Z /\ r = reason_ram n).
  { unfold reasons. rewrite Hgaming. simpl. intros r Hr.
    apply in_app_or in Hr. destruct Hr as [Hr | Hr].
    - unfold signal_ram in Hr.
      destruct (opt_bind laptop ram_gb) as [n |]; [| destruct Hr].
      destruct (Z.leb_spec 16 n) as [Hn | Hn]; [| destruct Hr].
      destruct Hr as [Hr | []]. right. right. exists n. auto.
    - apply in_app_or in Hr. destruct Hr as [Hr | Hr].
      + destruct (signal_portable laptop prefs); [| destruct Hr].
        destruct Hr as [Hr | []]. left. auto.
      + destruct (signal_budget laptop prefs); [| destruct Hr].
        destruct Hr as [Hr | []]. right. left. auto. }
  split; [| split; [| exact Hall]].
  { change (iv_recommendation_reason (insert_values aiData prefs rec))
      with (generateRecommendationReason laptop prefs).
    unfold generateRecommendationReason, joined_reasons.
    destruct (reasons laptop prefs); reflexivity. }
  intros Hin. destruct (Hall _ Hin) as [H | [H | (n & _ & H)]].
  - discriminate H.
  - discriminate H.
  - apply (reason_ram_not_gaming n). symmetry. exact H.
Qed.

(** No request stores a row in [recommendations]: the value the handler
    binds to [user_id] is its placeholder, which is not the text of a UUID,
    so every insert is refused and leaves a warning; and a request that is
    answered has enriched nothing, so that it inserts nothing and logs
    nothing. *)
Theorem no_request_stores_a_row :
  forall (w : World) (raw : option Json),
    inserted (recommendationsRoutes_post w raw) = [] /\
    (forall payload,
        reply (recommendationsRoutes_post w raw) = Ok payload ->
        logged (recommendationsRoutes_post w raw) = []) /\
    (forall aiData prefs rec,
        iv_user_id (insert_values aiData prefs rec) = userId) /\
    uuid_in userId = None.
Proof.
  intros w raw. split; [| split; [| split]].
  - unfold recommendationsRoutes_post, post_recommendations.
    destruct (getPool w) as [db | e0]; [| reflexivity].
    destruct (recommendationSchema_parse raw) as [body | e1];
      [| reflexivity].
    destruct (primary_path w db body) as [[aiData enriched] | e].
    + rewrite record_analytics_warns. reflexivity.
    + unfold on_primary_failure.
      destruct (getFallbackRecommendations module_db body); reflexivity.
  - intros payload H. apply answered_request in H.
    destruct H as (db & body & aiData & _ & _ & _ & _ & Hlog & _).
    exact Hlog.
  - intros aiData prefs rec. reflexivity.
  - exact userId_is_no_uuid.
Qed.

Lemma no_request_stores_a_row_witness :
  logged (recommendationsRoutes_post ai_empty general_request) = [].
Proof.
  apply (proj1 (proj2 (no_request_stores_a_row ai_empty general_request))
           (primary_payload ai_empty general_body [])).
  vm_compute. reflexivity.
Defined.

Lemma stored_reason_is_never_the_gaming_one_witness :
  iv_recommendation_reason
    (insert_values ai_answer (user_preferences budget_body)
       (with_laptop (JObj [("spec_id", JStr "m-legion")])
          (Some legion_laptop))) =
  "16GB RAM for smooth multitasking" /\
  hs_gpu_type spec_legion = Dedicated.
Proof.
  destruct (stored_reason_is_never_the_gaming_one ai_answer
              (user_preferences budget_body)
              (with_laptop (JObj [("spec_id", JStr "m-legion")])
                 (Some legion_laptop)))
    as (rs & Hrs & _ & _).
  split; [| reflexivity]. vm_compute. reflexivity.
Defined.

(* ================================================================== *)
(** * More on the fallback ranker *)

Lemma StronglySorted_app_le {A} (R : A -> A -> Prop) (l1 l2 : list A) :
  StronglySorted R (l1 ++ l2) ->
  forall x y, In x l1 -> In y l2 -> R x y.
Proof.
  induction l1 as [| a l1 IH]; simpl; intros Hs x y Hx Hy.
  - destruct Hx.
  - apply StronglySorted_inv in Hs. destruct Hs as [Hs Ha].
    destruct Hx as [Hx | Hx].
    + subst x. rewrite Forall_forall in Ha. apply Ha.
      apply in_or_app. right. exact Hy.
    + apply IH; assumption.
Qed.

(** The fallback query returns the cheapest qualifying offers, the cheaper
    first: as many as qualify, up to [top_k]; the qualifying offers are the
    returned ones and the rest, and no offer of the rest costs less than a
    returned one. *)
Theorem fallback_query_returns_the_cheapest :
  forall (body : Body) (d : Database) (rows : list FallbackRow),
    fallback_query body d = Ok rows ->
    exists chosen rest,
      rows = map fallback_select chosen /\
      Permutation (chosen ++ rest) (qualifying body d) /\
      List.length chosen =
        Nat.min (Z.to_nat (top_k body)) (List.length (qualifying body d)) /\
      StronglySorted price_le chosen /\
      forall x y, In x chosen -> In y rest -> price x <= price y.
Proof.
  intros body d rows H. unfold fallback_query in H. apply bind_ok in H.
  destruct H as (chosen & Hc & H). inversion H as [Hrows]. clear H.
  apply fallback_offers_ok in Hc. destruct Hc as (_ & _ & Hc).
  set (ordered := order_by (tie_order d Offer) price_leb (qualifying body d))
    in *.
  exists chosen, (skipn (Z.to_nat (top_k body)) ordered).
  split; [reflexivity |]. subst chosen. split; [| split; [| split]].
  - rewrite firstn_skipn. apply order_by_perm.
  - rewrite length_firstn. unfold ordered. rewrite order_by_length.
    reflexivity.
  - apply StronglySorted_firstn. apply order_by_price_sorted.
  - apply (StronglySorted_app_le price_le). rewrite firstn_skipn.
    apply order_by_price_sorted.
Qed.

Lemma fallback_query_returns_the_cheapest_witness :
  exists chosen rest,
    [fallback_select inspiron_offer] = map fallback_select chosen /\
    Permutation (chosen ++ rest)
      (qualifying {| user_preferences := prefs_of General; top_k := 1 |}
         sample_db) /\
    List.length chosen = 1%nat /\
    StronglySorted price_le chosen /\
    forall x y, In x chosen -> In y rest -> price x <= price y.
Proof.
  exact (fallback_query_returns_the_cheapest
           {| user_preferences := prefs_of General; top_k := 1 |}
           sample_db [fallback_select inspiron_offer]
           ltac:(vm_compute; reflexivity)).
Defined.

(** A row of the fallback query is an offer of the inventory that is
    available and in stock; its price is at most a declared non-zero maximum
    budget, its RAM at least a declared non-zero minimum, its GPU type the
    preferred one when one is declared.  The query reads no other
    preference: requests that agree on these three and on [top_k] build the
    same query, whatever their minimum budget, minimum storage, minimum
    display size and maximum weight. *)
Theorem fallback_query_reads_three_preferences :
  (forall (body : Body) (d : Database) (rows : list FallbackRow)
          (r : FallbackRow),
      fallback_query body d = Ok rows -> In r rows ->
      (forall m, max_budget (user_preferences body) = Some m -> ~ m == 0 ->
                 row_min_price r <= m) /\
      (forall g, min_ram_gb (user_preferences body) = Some g -> ~ g == 0 ->
                 g <= inject_Z (row_ram_gb r)) /\
      (forall t, preferred_gpu_type (user_preferences body) = Some t ->
                 row_gpu_type r = t) /\
      (exists i,
          In i (inventory d) /\ i_model_id i = row_spec_id r /\
          i_unit_price i = row_min_price r /\
          i_is_available i = Some true /\ (0 < i_stock_quantity i)%Z)) /\
  (forall (body body' : Body) (d : Database),
      max_budget (user_preferences body) =
        max_budget (user_preferences body') ->
      min_ram_gb (user_preferences body) =
        min_ram_gb (user_preferences body') ->
      preferred_gpu_type (user_preferences body) =
        preferred_gpu_type (user_preferences body') ->
      top_k body = top_k body' ->
      fallback_query body d = fallback_query body' d).
Proof.
  split.
  - intros body d rows r H Hr. unfold fallback_query in H.
    apply bind_ok in H. destruct H as (chosen & Hc & H).
    inversion H. subst rows. clear H.
    apply fallback_offers_ok in Hc. destruct Hc as (_ & _ & Hc).
    apply in_map_iff in Hr. destruct Hr as (x & Hrx & Hx). subst r chosen.
    apply in_firstn, in_order_by in Hx. simpl.
    assert (Hc : forall c,
               In c (fallback_conditions (user_preferences body)) ->
               eval_cond c (as_joined x) = true).
    { intros c. apply qualifying_cond with (d := d). exact Hx. }
    unfold fallback_conditions in Hc.
    split; [| split; [| split]].
    + intros m Hm Hnz.
      assert (E : eval_cond (PriceAtMost m) (as_joined x) = true).
      { apply Hc. apply in_or_app. right. apply in_or_app. left.
        apply push_if_truthy_in; assumption. }
      simpl in E. apply Qle_bool_iff. exact E.
    + intros g Hg Hnz.
      assert (E : eval_cond (RamAtLeast g) (as_joined x) = true).
      { apply Hc. apply in_or_app. right. apply in_or_app. right.
        apply in_or_app. left. apply push_if_truthy_in; assumption. }
      simpl in E. apply Qle_bool_iff. exact E.
    + intros t Ht.
      assert (E : eval_cond (GpuTypeIs (gpu_name t)) (as_joined x) = true).
      { apply Hc. apply in_or_app. right. apply in_or_app. right.
        apply in_or_app. right. rewrite Ht. left. reflexivity. }
      simpl in E. apply gpu_name_inj. exact E.
    + exists (offer_i x).
      assert (Ea : eval_cond OfferAvailable (as_joined x) = true).
      { apply Hc. apply in_or_app. left. right. left. reflexivity. }
      assert (Es : eval_cond OfferInStock (as_joined x) = true).
      { apply Hc. apply in_or_app. left. right. right. left. reflexivity. }
      apply filter_In in Hx. destruct Hx as [Hfrom _].
      apply in_fallback_from in Hfrom. destruct Hfrom as (_ & Hi & Hid).
      unfold eval_cond, on_offer, as_joined in Ea, Es. simpl in Ea, Es.
      split; [exact Hi |].
      split; [symmetry; exact Hid |]. split; [reflexivity |]. split.
      * destruct (i_is_available (offer_i x)) as [[|] |]; simpl in Ea;
          try discriminate Ea; reflexivity.
      * apply Z.ltb_lt. exact Es.
  - intros body body' d Hmax Hram Hgpu Hk.
    unfold fallback_query, fallback_offers, qualifying, fallback_conditions.
    rewrite Hmax, Hram, Hgpu, Hk. reflexivity.
Qed.

Lemma fallback_query_reads_three_preferences_witness :
  row_min_price (fallback_select inspiron_offer) <= 150000 /\
  fallback_query picky_body sample_db = fallback_query general_body sample_db.
Proof.
  destruct fallback_query_reads_three_preferences as [Hrows Hsame].
  split.
  - destruct (Hrows budget_body sample_db [fallback_select inspiron_offer]
                (fallback_select inspiron_offer)
                ltac:(vm_compute; reflexivity) (or_introl eq_refl))
      as (Hmax & _).
    apply (Hmax 150000).
    + reflexivity.
    + intros E. vm_compute in E. discriminate E.
  - apply (Hsame picky_body general_body sample_db); reflexivity.
Defined.

Lemma push_if_truthy_zero (v : option Q) (c : Q -> Cond) (q : Q) :
  v = Some q -> q == 0 -> push_if_truthy v c = [].
Proof.
  intros Hv Hq. subst v. unfold push_if_truthy, truthy_num.
  apply Qeq_bool_iff in Hq. rewrite Hq. reflexivity.
Qed.

(** A maximum budget of 0, and likewise a minimum RAM of 0, is treated by
    the fallback as not declared: the result is the one of the same request
    without it. *)
Theorem zero_is_treated_as_not_declared :
  forall (db : option Pool) (body : Body) (q : Q),
    q == 0 ->
    (max_budget (user_preferences body) = Some q ->
     getFallbackRecommendations db body =
     getFallbackRecommendations db
       (with_prefs body (with_max_budget (user_preferences body) None))) /\
    (min_ram_gb (user_preferences body) = Some q ->
     getFallbackRecommendations db body =
     getFallbackRecommendations db
       (with_prefs body (with_min_ram (user_preferences body) None))).
Proof.
  intros db body q Hq.
  assert (Hsame : forall p,
             fallback_conditions p = fallback_conditions (user_preferences body) ->
             getFallbackRecommendations db body =
             getFallbackRecommendations db (with_prefs body p)).
  { intros p Hp. unfold getFallbackRecommendations, fallback_query,
      fallback_offers, qualifying.
    cbn [user_preferences top_k with_prefs]. rewrite Hp. reflexivity. }
  split; intros Hv; apply Hsame; unfold fallback_conditions; simpl.
  - rewrite (push_if_truthy_zero (max_budget (user_preferences body))
               PriceAtMost q Hv Hq). reflexivity.
  - rewrite (push_if_truthy_zero (min_ram_gb (user_preferences body))
               RamAtLeast q Hv Hq). reflexivity.
Qed.

Lemma zero_is_treated_as_not_declared_witness :
  getFallbackRecommendations (Some sample_pool)
    (with_prefs general_body (with_max_budget (prefs_of General) (Some 0))) =
  Ok [entry_of inspiron_offer; entry_of thinkpad_offer;
      entry_of legion_offer].
Proof.
  rewrite (proj1 (zero_is_treated_as_not_declared (Some sample_pool)
                    (with_prefs general_body
                       (with_max_budget (prefs_of General) (Some 0)))
                    0 (Qeq_refl 0)) eq_refl).
  exact general_body_result.
Defined.

(* ================================================================== *)
(** * The by-usage endpoint *)

Lemma push_if_truthy_inv (v : option Q) (c : Q -> Cond) (x : Cond) :
  In x (push_if_truthy v c) -> exists q, v = Some q /\ x = c q.
Proof.
  unfold push_if_truthy. destruct v as [q |]; [| intros []].
  destruct (truthy_num (Some q)); [| intros []].
  intros [H | []]. exists q. auto.
Qed.

(** Every minimum of the table is a non-zero number. *)
Lemma usage_minima_truthy (usage : string) :
  (forall m, us_min_ram_gb (specs_of usage) = Some m -> ~ m == 0) /\
  (forall m, us_min_cores (specs_of usage) = Some m -> ~ m == 0) /\
  (forall m, us_min_refresh_rate (specs_of usage) = Some m -> ~ m == 0).
Proof.
  unfold specs_of.
  destruct (find (fun kv => String.eqb (toLowerCase usage) (fst kv))
              usageSpecs) as [kv |] eqn:F.
  - apply find_some in F. destruct F as [Hin _]. simpl in Hin.
    destruct Hin as [E | [E | [E | [E | [E | [E | []]]]]]]; subst kv; simpl;
      repeat split; intros m Hm; try discriminate Hm;
      inversion Hm; intros Z; vm_compute in Z; discriminate Z.
  - simpl. repeat split; intros m Hm; discriminate Hm.
Qed.

Lemma usage_conditions_hold_iff (usage : string) (j : Joined) :
  where_ (usage_conditions (specs_of usage)) j = true <->
  lm_is_discontinued (j_lm j) = Some false /\
  meets_minima (specs_of usage) (j_hs j).
Proof.
  destruct (usage_minima_truthy usage) as (Tram & Tcores & Trefresh).
  unfold where_, usage_conditions, meets_minima. rewrite forallb_forall.
  split.
  - intros H. split; [| split; [| split]].
    + assert (E : eval_cond NotDiscontinued j = true).
      { apply H. apply in_or_app. left. left. reflexivity. }
      simpl in E.
      destruct (lm_is_discontinued (j_lm j)) as [[|] |]; simpl in E;
        try discriminate E; reflexivity.
    + intros m Hm.
      assert (E : eval_cond (RamAtLeast m) j = true).
      { apply H. apply in_or_app. right. apply in_or_app. left.
        apply push_if_truthy_in; [exact Hm | apply Tram; exact Hm]. }
      apply Qle_bool_iff. exact E.
    + intros m Hm.
      assert (E : eval_cond (CoresAtLeast m) j = true).
      { apply H. apply in_or_app. right. apply in_or_app. right.
        apply in_or_app. left.
        apply push_if_truthy_in; [exact Hm | apply Tcores; exact Hm]. }
      apply Qle_bool_iff. exact E.
    + intros m Hm.
      assert (E : eval_cond (RefreshAtLeast m) j = true).
      { apply H. apply in_or_app. right. apply in_or_app. right.
        apply in_or_app. right.
        apply push_if_truthy_in; [exact Hm | apply Trefresh; exact Hm]. }
      simpl in E. destruct (hs_refresh_rate_hz (j_hs j)) as [hz |];
        [| discriminate E].
      exists hz. split; [reflexivity | apply Qle_bool_iff; exact E].
  - intros (Hd & Hram & Hcores & Hrefresh) c Hc.
    apply in_app_or in Hc. destruct Hc as [[Hc | []] | Hc].
    { subst c. simpl. rewrite Hd. reflexivity. }
    apply in_app_or in Hc. destruct Hc as [Hc | Hc].
    { apply push_if_truthy_inv in Hc. destruct Hc as (q & Hq & Hc).
      subst c. simpl. apply Qle_bool_iff. apply Hram. exact Hq. }
    apply in_app_or in Hc. destruct Hc as [Hc | Hc].
    { apply push_if_truthy_inv in Hc. destruct Hc as (q & Hq & Hc).
      subst c. simpl. apply Qle_bool_iff. apply Hcores. exact Hq. }
    apply push_if_truthy_inv in Hc. destruct Hc as (q & Hq & Hc).
    subst c. simpl. destruct (Hrefresh q Hq) as (hz & Hhz & Hle).
    rewrite Hhz. apply Qle_bool_iff. exact Hle.
Qed.

Lemma get_by_usage_ok (w : World) (usage : string)
  (limit_param : option string) (rows : list UsageRow) :
  get_by_usage w usage limit_param = Ok rows ->
  exists pool,
    w_pool w = Some pool /\ pool_up pool = true /\
    (0 <= usage_limit limit_param < 2 ^ 63)%Z /\
    rows = firstn (Z.to_nat (usage_limit limit_param))
             (order_by (tie_order (pool_data pool) UsageRow) usage_leb
                (map usage_select
                   (group_by same_usage_group
                      (filter (where_ (usage_conditions (specs_of usage)))
                         (catalog_left_join on_available
                            (pool_data pool)))))).
Proof.
  unfold get_by_usage. intros H. apply bind_ok in H.
  destruct H as (pool & Hpool & H). apply getPool_ok in Hpool.
  apply pool_query_ok in H. destruct H as [Hup H].
  unfold by_usage_query in H. apply bind_ok in H.
  destruct H as (bound & _ & H).
  pose proof (limit_int8 _ _ _ H) as Hhi.
  apply limit_ok in H. destruct H as [Hl H].
  exists pool. repeat split; try assumption; lia.
Qed.

Lemma same_usage_group_model (x y : Joined) :
  same_usage_group x y = true ->
  lm_model_id (j_lm x) = lm_model_id (j_lm y).
Proof.
  unfold same_usage_group. intros H.
  apply andb_prop in H. destruct H as [H _].
  apply andb_prop in H. destruct H as [H _].
  apply String.eqb_eq. exact H.
Qed.

(** A row of the by-usage list is a model that is not discontinued and whose
    hardware meets the RAM, core and refresh-rate minima of the usage; and
    whenever the list is shorter than the limit, every such model of the
    catalog is on it, offers or not. *)
Theorem by_usage_lists_the_models_meeting_the_minima :
  forall (w : World) (usage : string) (limit_param : option string)
         (rows : list UsageRow),
    get_by_usage w usage limit_param = Ok rows ->
    (forall row, In row rows -> meets_minima (specs_of usage) (ur_hs row)) /\
    ((Z.of_nat (List.length rows) < usage_limit limit_param)%Z ->
     forall pool y,
       w_pool w = Some pool ->
       In y (from_catalog (pool_data pool)) ->
       lm_is_discontinued (fst (fst y)) = Some false ->
       meets_minima (specs_of usage) (snd y) ->
       exists row,
         In row rows /\ lm_model_id (ur_lm row) = lm_model_id (fst (fst y))).
Proof.
  intros w usage limit_param rows H. apply get_by_usage_ok in H.
  destruct H as (pool & Hpool & _ & Hl & Hrows).
  set (kept := filter (where_ (usage_conditions (specs_of usage)))
                 (catalog_left_join on_available (pool_data pool))) in *.
  set (all := order_by (tie_order (pool_data pool) UsageRow) usage_leb
                (map usage_select (group_by same_usage_group kept))) in *.
  split.
  - intros row Hrow. rewrite Hrows in Hrow. apply in_firstn in Hrow.
    apply in_order_by, in_map_iff in Hrow.
    destruct Hrow as (g & Hg & Hin). subst row. simpl.
    apply group_by_first in Hin. apply filter_In in Hin.
    destruct Hin as [_ Hw]. apply usage_conditions_hold_iff in Hw.
    apply Hw.
  - intros Hshort pool' y Hpool' Hy Hd Hm.
    rewrite Hpool in Hpool'. inversion Hpool'. subst pool'.
    assert (Hall : rows = all).
    { rewrite Hrows. apply firstn_all2. rewrite Hrows in Hshort.
      rewrite length_firstn in Hshort. lia. }
    destruct (catalog_left_join_covers on_available (pool_data pool) y Hy)
      as (j & Hj & Hjy).
    assert (Hk : In j kept).
    { unfold kept. apply filter_In. split; [exact Hj |].
      apply usage_conditions_hold_iff. subst y. simpl in *. auto. }
    destruct (group_by_covers same_usage_group kept j Hk) as (g & Hg & Hjg).
    exists (usage_select g). split.
    + rewrite Hall. unfold all. apply in_order_by. apply in_map. exact Hg.
    + simpl. subst y. simpl. destruct Hjg as [Hjg | Hjg].
      * rewrite Hjg. reflexivity.
      * apply same_usage_group_model.
        apply (group_by_same same_usage_group kept g j Hg Hjg).
Qed.

Lemma by_usage_lists_the_models_meeting_the_minima_witness :
  exists rows,
    get_by_usage ai_up "GAMING" None = Ok rows /\
    (forall row, In row rows -> 16 <= inject_Z (hs_ram_gb (ur_hs row))) /\
    exists row, In row rows /\ lm_model_id (ur_lm row) = "m-legion".
Proof.
  eexists. split; [vm_compute; reflexivity |].
  match goal with
  | |- (forall row, In row ?rows -> _) /\ _ =>
      destruct (by_usage_lists_the_models_meeting_the_minima ai_up "GAMING"
                  None rows ltac:(vm_compute; reflexivity)) as [Hmeet Hall]
  end.
  split.
  - intros row Hrow. destruct (Hmeet row Hrow) as (Hram & _ & _).
    apply (Hram 16). reflexivity.
  - apply (Hall ltac:(vm_compute; reflexivity) sample_pool
             (legion, lenovo, spec_legion) eq_refl).
    + vm_compute. tauto.
    + reflexivity.
    + split; [| split]; intros m Hm; vm_compute in Hm; inversion Hm.
      * vm_compute. discriminate.
      * exists 165%Z. split; [reflexivity |]. vm_compute. discriminate.
Defined.

Lemma price_opt_leb_true (x y : option Q) :
  price_opt_leb x y = true -> price_opt_le x y.
Proof.
  destruct x as [a |], y as [b |]; simpl; intros H;
    try exact I; try discriminate H.
  apply Qle_bool_iff. exact H.
Qed.

Lemma price_opt_leb_false (x y : option Q) :
  price_opt_leb x y = false -> price_opt_le y x.
Proof.
  destruct x as [a |], y as [b |]; simpl; intros H;
    try exact I; try discriminate H.
  apply Qle_bool_false. exact H.
Qed.

Lemma price_opt_le_trans (x y z : option Q) :
  price_opt_le x y -> price_opt_le y z -> price_opt_le x z.
Proof.
  destruct x as [a |], y as [b |], z as [c |]; simpl; intros H1 H2;
    try exact I; try contradiction.
  eapply Qle_trans; eassumption.
Qed.

(** What [parseInt] makes of the decimal text of a number. *)
Lemma digits_of_uint (d : Decimal.uint) (acc : Z) :
  digits 10 (NilEmpty.string_of_uint d) (Some acc) =
  Some (acc * 10 ^ Z.of_N (DecimalPos.Unsigned.usize d)
        + Z.of_N (DecimalPos.Unsigned.of_lu (Decimal.rev d)))%Z.
Proof.
  revert acc. induction d as [| d IH | d IH | d IH | d IH | d IH | d IH
                             | d IH | d IH | d IH | d IH]; intros acc;
    [simpl; f_equal; lia | ..];
    cbn [NilEmpty.string_of_uint digits];
    match goal with
    | |- context [digit_of ?r ?c] =>
        let v := eval vm_compute in (digit_of r c) in
        change (digit_of r c) with v
    end;
    cbv iota; rewrite IH; f_equal;
    match goal with
    | |- context [Decimal.rev (?D d)] =>
        change (Decimal.rev (D d)) with (Decimal.revapp d (D Decimal.Nil))
    end;
    rewrite DecimalPos.Unsigned.of_lu_revapp;
    match goal with
    | |- context [DecimalPos.Unsigned.of_lu (?D Decimal.Nil)] =>
        let v := eval vm_compute in
                   (DecimalPos.Unsigned.of_lu (D Decimal.Nil)) in
        change (DecimalPos.Unsigned.of_lu (D Decimal.Nil)) with v
    end;
    cbn [DecimalPos.Unsigned.usize];
    rewrite N2Z.inj_add, N2Z.inj_mul, N2Z.inj_pow, N2Z.inj_succ,
      Z.pow_succ_r by apply N2Z.is_nonneg;
    simpl Z.of_N; ring.
Qed.

(** The decimal text of a positive number does not start with a zero. *)
Lemma to_uint_leading (p : positive) (d : Decimal.uint) :
  Pos.to_uint p <> Decimal.D0 d.
Proof.
  intros H.
  assert (E : Pos.to_uint p = Decimal.unorm (Pos.to_uint p)).
  { rewrite <- (DecimalPos.Unsigned.to_of (Pos.to_uint p)),
      DecimalPos.Unsigned.of_to.
    reflexivity. }
  assert (Hn : Decimal.nzhead (Pos.to_uint p) <> Decimal.Nil).
  { intros Hn. apply DecimalFacts.unorm_0 in Hn. rewrite <- E in Hn.
    apply (DecimalPos.Unsigned.to_uint_nonzero p). exact Hn. }
  rewrite (DecimalFacts.unorm_nzhead _ Hn) in E. rewrite E in H.
  apply (DecimalFacts.nzhead_nonzero _ _ H).
Qed.

(** A natural number below [2 ^ 53] is a double. *)
Lemma to_double_exact (n : Z) :
  (0 <= n < 2 ^ 53)%Z -> to_double n = n.
Proof.
  intros [Hlo Hhi]. unfold to_double.
  rewrite (Z.abs_eq n Hlo).
  destruct (Z.eq_dec n 0) as [E | E]; [subst n; reflexivity |].
  assert (Hlog : (Z.log2 n < 53)%Z) by (apply Z.log2_lt_pow2; lia).
  destruct (Z.leb_spec (Z.log2 n + 1 - 53) 0) as [_ | H]; [| lia].
  assert (Hbig : (n < 2 ^ 1024)%Z).
  { apply Z.lt_trans with (2 ^ 53)%Z; [exact Hhi |].
    apply Z.pow_lt_mono_r; lia. }
  destruct (Z.leb_spec (2 ^ 1024) n) as [H | _]; [lia |].
  rewrite Z.sgn_pos by lia. lia.
Qed.

Lemma parseInt_decimal (n : Z) :
  (0 < n < 2 ^ 53)%Z -> parseInt (number_to_string n) = Some n.
Proof.
  intros Hn. destruct n as [| p | p]; try lia.
  unfold number_to_string. cbn [Z.to_int NilZero.string_of_int].
  unfold NilZero.string_of_uint.
  pose proof (DecimalPos.Unsigned.to_uint_nonnil p) as Hnil.
  pose proof (to_uint_leading p) as Hlead.
  assert (Hval : Z.of_N (DecimalPos.Unsigned.of_lu
                           (Decimal.rev (Pos.to_uint p)))
                 = Z.pos p).
  { rewrite <- DecimalPos.Unsigned.of_uint_alt, DecimalPos.Unsigned.of_to.
    reflexivity. }
  pose proof (digits_of_uint (Pos.to_uint p) 0) as Hd.
  rewrite Hval in Hd. rewrite Z.mul_0_l, Z.add_0_l in Hd.
  destruct (Pos.to_uint p) as [| d | d | d | d | d | d | d | d | d | d];
    [contradiction | exfalso; apply (Hlead d); reflexivity | ..];
    match goal with
    | |- parseInt ?s = _ =>
        change (parseInt s)
          with (option_map to_double (digits 10 s (Some 0%Z)))
    end;
    rewrite Hd; cbn [option_map]; f_equal; apply to_double_exact; lia.
Qed.

(** The minima of the table are whole numbers an [INTEGER] holds. *)
Lemma usage_conditions_bindable (usage : string) :
  bind_params (usage_conditions (specs_of usage)) = Ok tt.
Proof.
  unfold specs_of.
  destruct (find (fun kv => String.eqb (toLowerCase usage) (fst kv))
              usageSpecs) as [kv |] eqn:F.
  - apply find_some in F. destruct F as [Hin _]. simpl in Hin.
    destruct Hin as [E | [E | [E | [E | [E | [E | []]]]]]]; subst kv;
      vm_compute; reflexivity.
  - vm_compute. reflexivity.
Qed.

(** The limit of the by-usage list is 10 when the request names none, or
    one that [parseInt] reads as NaN or as 0, and it is the number itself
    when the request gives the decimal text of a number from 1 to
    [2 ^ 53 - 1].  With the database reachable, the request is answered
    exactly when the limit is not negative and within the range of a
    [bigint]; otherwise the query fails.  An answer has at most [limit]
    rows, in ascending order of their lowest price, models without a price
    last. *)
Theorem by_usage_list_is_limited_and_ordered :
  forall (w : World) (usage : string) (limit_param : option string),
    (opt_bind limit_param parseInt = None \/
     opt_bind limit_param parseInt = Some 0%Z ->
     usage_limit limit_param = 10%Z) /\
    (forall n, (0 < n < 2 ^ 53)%Z ->
               limit_param = Some (number_to_string n) ->
               usage_limit limit_param = n) /\
    (forall pool,
        w_pool w = Some pool -> pool_up pool = true ->
        ((0 <= usage_limit limit_param < 2 ^ 63)%Z ->
         exists rows, get_by_usage w usage limit_param = Ok rows) /\
        (~ (0 <= usage_limit limit_param < 2 ^ 63)%Z ->
         get_by_usage w usage limit_param = Throw DbError)) /\
    (forall rows,
        get_by_usage w usage limit_param = Ok rows ->
        (Z.of_nat (List.length rows) <= usage_limit limit_param)%Z /\
        StronglySorted usage_le rows).
Proof.
  intros w usage limit_param. split; [| split; [| split]].
  - unfold usage_limit. intros [H | H]; rewrite H; reflexivity.
  - intros n Hn Hparam. subst limit_param. unfold usage_limit.
    cbn [opt_bind]. rewrite (parseInt_decimal n Hn).
    destruct (Z.eqb_spec n 0); [lia | reflexivity].
  - intros pool Hpool Hup.
    unfold get_by_usage, getPool, pool_query, by_usage_query.
    rewrite Hpool. cbn [bind]. rewrite Hup, usage_conditions_bindable.
    cbn [bind]. unfold limit, int8_ok. split.
    + intros [Hlo Hhi].
      destruct (Z.leb_spec (- 2 ^ 63) (usage_limit limit_param)); [| lia].
      destruct (Z.ltb_spec (usage_limit limit_param) (2 ^ 63)); [| lia].
      destruct (Z.ltb_spec (usage_limit limit_param) 0); [lia |].
      eexists. reflexivity.
    + intros Hout.
      destruct (Z.leb_spec (- 2 ^ 63) (usage_limit limit_param));
        [| reflexivity].
      destruct (Z.ltb_spec (usage_limit limit_param) (2 ^ 63));
        [| reflexivity].
      destruct (Z.ltb_spec (usage_limit limit_param) 0); [reflexivity | lia].
  - intros rows H. apply get_by_usage_ok in H.
    destruct H as (pool & _ & _ & Hl & Hrows). subst rows. split.
    + rewrite length_firstn. lia.
    + apply StronglySorted_firstn.
      apply order_by_sorted; unfold usage_le, usage_leb.
      * intros x y z. apply price_opt_le_trans.
      * intros x y. apply price_opt_leb_true.
      * intros x y. apply price_opt_leb_false.
Qed.

Lemma by_usage_list_is_limited_and_ordered_witness :
  usage_limit (Some "abc") = 10%Z /\
  usage_limit (Some (number_to_string 25)) = 25%Z /\
  get_by_usage ai_up "office" (Some "-1") = Throw DbError /\
  get_by_usage ai_up "office" (Some "99999999999999999999") =
    Throw DbError /\
  exists rows,
    get_by_usage ai_up "office" (Some "2 per page") = Ok rows /\
    (Z.of_nat (List.length rows) <= 2)%Z /\ StronglySorted usage_le rows.
Proof.
  destruct (by_usage_list_is_limited_and_ordered ai_up "office" (Some "abc"))
    as (Hdef & _ & _ & _).
  destruct (by_usage_list_is_limited_and_ordered ai_up "office"
              (Some (number_to_string 25))) as (_ & Hnum & _ & _).
  destruct (by_usage_list_is_limited_and_ordered ai_up "office" (Some "-1"))
    as (_ & _ & Hneg & _).
  destruct (by_usage_list_is_limited_and_ordered ai_up "office"
              (Some "99999999999999999999")) as (_ & _ & Hbig & _).
  destruct (by_usage_list_is_limited_and_ordered ai_up "office"
              (Some "2 per page")) as (_ & _ & _ & Hrows).
  split; [apply Hdef; left; reflexivity |].
  split; [apply (Hnum 25%Z); [lia | reflexivity] |].
  split.
  { apply (proj2 (Hneg sample_pool eq_refl eq_refl)).
    vm_compute. intros [H _]. apply H. reflexivity. }
  split.
  { apply (proj2 (Hbig sample_pool eq_refl eq_refl)).
    vm_compute. intros [_ H]. discriminate H. }
  eexists. split; [vm_compute; reflexivity |].
  apply Hrows. vm_compute. reflexivity.
Defined.

(* ================================================================== *)
(** * The trending endpoint *)

Lemma trending_leb_true (x y : TrendingRow) :
  trending_leb x y = true -> trending_le x y.
Proof.
  unfold trending_leb, trending_le.
  destruct (Z.ltb_spec (tr_recommendation_count y)
              (tr_recommendation_count x)) as [H | H]; [left; exact H |].
  destruct (Z.ltb_spec (tr_recommendation_count x)
              (tr_recommendation_count y)) as [H' | H']; [discriminate |].
  intros Hp. right. split; [lia | apply price_opt_leb_true; exact Hp].
Qed.

Lemma trending_leb_false (x y : TrendingRow) :
  trending_leb x y = false -> trending_le y x.
Proof.
  unfold trending_leb, trending_le.
  destruct (Z.ltb_spec (tr_recommendation_count y)
              (tr_recommendation_count x)) as [H | H]; [discriminate |].
  destruct (Z.ltb_spec (tr_recommendation_count x)
              (tr_recommendation_count y)) as [H' | H'];
    [intros _; left; exact H' |].
  intros Hp. right. split; [lia | apply price_opt_leb_false; exact Hp].
Qed.

Lemma trending_le_trans (x y z : TrendingRow) :
  trending_le x y -> trending_le y z -> trending_le x z.
Proof.
  unfold trending_le. intros [H1 | [H1 P1]] [H2 | [H2 P2]].
  - left. lia.
  - left. lia.
  - left. lia.
  - right. split; [lia |]. eapply price_opt_le_trans; eassumption.
Qed.

Lemma get_trending_ok (w : World) (now : Z) (rows : list TrendingRow) :
  get_trending w now = Ok rows ->
  exists pool,
    w_pool w = Some pool /\ pool_up pool = true /\
    rows = firstn 10
             (order_by (tie_order (pool_data pool) TrendingRow) trending_leb
                (map trending_select
                   (group_by same_trending_group
                      (filter (fun x => where_ [NotDiscontinued] (fst x))
                         (left_join (on_recent now)
                            (catalog_left_join on_available (pool_data pool))
                            (recommendations (pool_data pool))))))).
Proof.
  unfold get_trending. intros H. apply bind_ok in H.
  destruct H as (pool & Hpool & H). apply getPool_ok in Hpool.
  apply pool_query_ok in H. destruct H as [Hup H].
  unfold trending_query in H. apply limit_ok in H. destruct H as [_ H].
  exists pool. auto.
Qed.

Lemma non_null_in {A B} (f : A -> B) (l : list (option A)) (b : B) :
  In b (non_null f l) -> exists a, In (Some a) l /\ f a = b.
Proof.
  unfold non_null. intros H. apply in_flat_map in H.
  destruct H as ([a |] & Ha & Hb); [| destruct Hb].
  destruct Hb as [Hb | []]. exists a. auto.
Qed.

Lemma same_trending_group_model (x y : TrendingJoined) :
  same_trending_group x y = true ->
  lm_model_id (j_lm (fst x)) = lm_model_id (j_lm (fst y)).
Proof.
  unfold same_trending_group. intros H.
  repeat (apply andb_prop in H; destruct H as [H _]).
  apply String.eqb_eq. exact H.
Qed.

(** The trending list has at most 10 rows, those with more recommendations
    first and among equals the lower price first; a model has a positive
    count only if some recommendation of it is less than seven days old. *)
Theorem trending_list_is_limited_ordered_and_recent :
  forall (w : World) (now : Z) (rows : list TrendingRow),
    get_trending w now = Ok rows ->
    (List.length rows <= 10)%nat /\
    StronglySorted trending_le rows /\
    forall row,
      In row rows ->
      (0 <= tr_recommendation_count row)%Z /\
      ((0 < tr_recommendation_count row)%Z ->
       exists pool r,
         w_pool w = Some pool /\ In r (recommendations (pool_data pool)) /\
         r_model_id r = tr_model_id row /\
         (now - seven_days < r_created_at r)%Z).
Proof.
  intros w now rows H. apply get_trending_ok in H.
  destruct H as (pool & Hpool & _ & Hrows). subst rows.
  split; [| split].
  - rewrite length_firstn. lia.
  - apply StronglySorted_firstn. apply order_by_sorted.
    + apply trending_le_trans.
    + apply trending_leb_true.
    + apply trending_leb_false.
  - intros row Hrow. apply in_firstn, in_order_by, in_map_iff in Hrow.
    destruct Hrow as (g & Hg & Hin). subst row.
    unfold trending_select. cbn [tr_recommendation_count tr_model_id].
    split; [lia |]. intros Hpos.
    destruct (non_null r_recommendation_id (map snd (members g)))
      as [| rid rest] eqn:Hnn; [simpl in Hpos; lia |].
    assert (Hrid : In rid (non_null r_recommendation_id
                             (map snd (members g)))).
    { rewrite Hnn. left. reflexivity. }
    apply non_null_in in Hrid. destruct Hrid as (r & Hr & _).
    apply in_map_iff in Hr. destruct Hr as (m & Hm & Hmem).
    assert (Hkept : In m (filter
                            (fun x => where_ [NotDiscontinued] (fst x))
                            (left_join (on_recent now)
                               (catalog_left_join on_available
                                  (pool_data pool))
                               (recommendations (pool_data pool))))).
    { apply (group_by_incl same_trending_group _ g Hin). exact Hmem. }
    apply filter_In in Hkept. destruct Hkept as [Hjoin _].
    apply in_left_join in Hjoin. destruct Hjoin as [_ Hjoin].
    rewrite Hm in Hjoin. destruct Hjoin as [Hr Hon].
    unfold on_recent in Hon. apply andb_prop in Hon.
    destruct Hon as [Hid Hrecent].
    apply String.eqb_eq in Hid. apply Z.ltb_lt in Hrecent.
    exists pool, r. split; [exact Hpool |]. split; [exact Hr |].
    split; [| exact Hrecent].
    rewrite <- Hid. destruct Hmem as [Hmem | Hmem].
    + rewrite Hmem. reflexivity.
    + symmetry. apply same_trending_group_model.
      apply (group_by_same same_trending_group _ g m Hin Hmem).
Qed.

Lemma trending_list_is_limited_ordered_and_recent_witness :
  exists rows,
    get_trending ai_up 0 = Ok rows /\
    (List.length rows <= 10)%nat /\ StronglySorted trending_le rows /\
    Forall (fun row => tr_recommendation_count row = 0%Z) rows.
Proof.
  eexists. split; [vm_compute; reflexivity |].
  match goal with
  | |- (List.length ?rows <= _)%nat /\ _ =>
      destruct (trending_list_is_limited_ordered_and_recent ai_up 0%Z rows
                  ltac:(vm_compute; reflexivity)) as (Hlen & Hsorted & Hrec)
  end.
  split; [exact Hlen |]. split; [exact Hsorted |].
  rewrite Forall_forall. intros row Hrow.
  destruct (Hrec row Hrow) as [Hnonneg Hpos].
  destruct (Z.eq_dec (tr_recommendation_count row) 0) as [E | E];
    [exact E |].
  destruct Hpos as (pool & r & Hpool & Hr & _); [lia |].
  inversion Hpool. subst pool. destruct Hr.
Defined.

(* ================================================================== *)
(** * The browse listing *)

Lemma push_int_ok (v : option string) (c : Q -> Cond) (l : list Cond) :
  push_int v c = Ok l ->
  match truthy_str v with
  | Some s => exists n, parseInt10 s = Some n /\ l = [c (inject_Z n)]
  | None => l = []
  end.
Proof.
  unfold push_int. destruct (truthy_str v) as [s |].
  - intros H. apply bind_ok in H. destruct H as (n & Hn & H).
    unfold int_param in Hn. destruct (parseInt10 s) as [n' |];
      [| discriminate Hn].
    inversion Hn. inversion H. exists n. subst. auto.
  - intros H. inversion H. reflexivity.
Qed.

Lemma push_str_in (v : option string) (c : string -> Cond) (s : string) :
  truthy_str v = Some s -> In (c s) (push_str v c).
Proof. unfold push_str. intros H. rewrite H. left. reflexivity. Qed.

Lemma inject_Z_le (a b : Z) :
  Qle_bool (inject_Z a) (inject_Z b) = true -> (a <= b)%Z.
Proof. intros H. apply Qle_bool_iff in H. rewrite Zle_Qle. exact H. Qed.

Lemma get_laptops_ok (app_db : Pool) (p : BrowseParams)
  (rows : list BrowseRow) :
  get_laptops app_db p = Ok rows ->
  exists conditions lim off,
    browse_conditions p = Ok conditions /\
    parseInt10 (default "50" (limit_ p)) = Some lim /\ (0 <= lim)%Z /\
    parseInt10 (default "0" (offset_ p)) = Some off /\ (0 <= off)%Z /\
    rows = firstn (Z.to_nat lim)
             (skipn (Z.to_nat off)
                (order_by (tie_order (pool_data app_db) BrowseRow)
                   browse_leb
                   (map browse_select
                      (group_by same_browse_group
                         (filter (where_ conditions)
                            (catalog_left_join on_in_stock
                               (pool_data app_db))))))).
Proof.
  unfold get_laptops. intros H. apply pool_query_ok in H.
  destruct H as [_ H]. unfold browse_query in H.
  apply bind_ok in H. destruct H as (conditions & Hc & H).
  apply bind_ok in H. destruct H as (lim & Hlim & H).
  apply bind_ok in H. destruct H as (off & Hoff & H).
  apply bind_ok in H. destruct H as (bound & _ & H).
  apply bind_ok in H. destruct H as (skipped & Hs & H).
  apply offset_ok in Hs. destruct Hs as [Hoff0 Hs].
  apply limit_ok in H. destruct H as [Hlim0 H]. subst skipped.
  unfold int_param in Hlim, Hoff.
  destruct (parseInt10 (default "50" (limit_ p))) as [l |];
    [| discriminate Hlim].
  destruct (parseInt10 (default "0" (offset_ p))) as [o |];
    [| discriminate Hoff].
  inversion Hlim. inversion Hoff. subst l o.
  exists conditions, lim, off. auto 10.
Qed.

(** The browse listing returns at most [limit] rows (50 when the request
    names none), and every row passes each filter the request names: brand
    slug, RAM and storage bounds, GPU type and series; a filter or limit that
    is not a number makes the request fail instead. *)
Theorem browse_rows_pass_the_filters :
  forall (app_db : Pool) (p : BrowseParams) (rows : list BrowseRow),
    get_laptops app_db p = Ok rows ->
    (exists lim, parseInt10 (default "50" (limit_ p)) = Some lim /\
                 (Z.of_nat (List.length rows) <= lim)%Z) /\
    forall row,
      In row rows ->
      (forall s, truthy_str (brand p) = Some s ->
                 b_brand_slug (br_b row) = s) /\
      (forall s, truthy_str (minRam p) = Some s ->
                 exists n, parseInt10 s = Some n /\
                           (n <= hs_ram_gb (br_hs row))%Z) /\
      (forall s, truthy_str (maxRam p) = Some s ->
                 exists n, parseInt10 s = Some n /\
                           (hs_ram_gb (br_hs row) <= n)%Z) /\
      (forall s, truthy_str (minStorage p) = Some s ->
                 exists n, parseInt10 s = Some n /\
                           (n <= hs_storage_capacity_gb (br_hs row))%Z) /\
      (forall s, truthy_str (maxStorage p) = Some s ->
                 exists n, parseInt10 s = Some n /\
                           (hs_storage_capacity_gb (br_hs row) <= n)%Z) /\
      (forall s, truthy_str (gpuType p) = Some s ->
                 gpu_name (hs_gpu_type (br_hs row)) = s) /\
      (forall s, truthy_str (series p) = Some s ->
                 lm_series (br_lm row) = Some s).
Proof.
  intros app_db p rows H. apply get_laptops_ok in H.
  destruct H as (conditions & lim & off & Hc & Hlim & Hlim0 & _ & _ & Hrows).
  split.
  - exists lim. split; [exact Hlim |]. rewrite Hrows, length_firstn. lia.
  - intros row Hrow. rewrite Hrows in Hrow.
    apply in_firstn, in_skipn, in_order_by, in_map_iff in Hrow.
    destruct Hrow as (g & Hg & Hin). subst row. simpl.
    apply group_by_first in Hin. apply filter_In in Hin.
    destruct Hin as [_ Hw]. unfold where_ in Hw.
    rewrite forallb_forall in Hw.
    unfold browse_conditions in Hc.
    apply bind_ok in Hc. destruct Hc as (c1 & H1 & Hc).
    apply bind_ok in Hc. destruct Hc as (c2 & H2 & Hc).
    apply bind_ok in Hc. destruct Hc as (c3 & H3 & Hc).
    apply bind_ok in Hc. destruct Hc as (c4 & H4 & Hc).
    inversion Hc as [Hconds]. clear Hc.
    apply push_int_ok in H1. apply push_int_ok in H2.
    apply push_int_ok in H3. apply push_int_ok in H4.
    assert (Hin : forall c,
               In c (push_str (brand p) BrandSlugIs) \/ In c c1 \/ In c c2 \/
               In c c3 \/ In c c4 \/
               In c (push_str (gpuType p) GpuTypeIs) \/
               In c (push_str (series p) SeriesIs) ->
               eval_cond c (fst g) = true).
    { intros c Hcin. apply Hw. rewrite <- Hconds. apply in_cons.
      destruct Hcin as [Hcin | Hcin];
        [apply in_or_app; left; exact Hcin | apply in_or_app; right].
      destruct Hcin as [Hcin | Hcin];
        [apply in_or_app; left; exact Hcin | apply in_or_app; right].
      destruct Hcin as [Hcin | Hcin];
        [apply in_or_app; left; exact Hcin | apply in_or_app; right].
      destruct Hcin as [Hcin | Hcin];
        [apply in_or_app; left; exact Hcin | apply in_or_app; right].
      destruct Hcin as [Hcin | Hcin];
        [apply in_or_app; left; exact Hcin | apply in_or_app; right].
      destruct Hcin as [Hcin | Hcin];
        [apply in_or_app; left; exact Hcin | apply in_or_app; right].
      exact Hcin. }
    repeat split.
    + intros s Hs. apply String.eqb_eq.
      apply (Hin (BrandSlugIs s)). left. apply push_str_in. exact Hs.
    + intros s Hs. rewrite Hs in H1. destruct H1 as (n & Hn & Hl).
      exists n. split; [exact Hn |]. apply inject_Z_le.
      apply (Hin (RamAtLeast (inject_Z n))). right. left. rewrite Hl.
      left. reflexivity.
    + intros s Hs. rewrite Hs in H2. destruct H2 as (n & Hn & Hl).
      exists n. split; [exact Hn |]. apply inject_Z_le.
      apply (Hin (RamAtMost (inject_Z n))). right. right. left. rewrite Hl.
      left. reflexivity.
    + intros s Hs. rewrite Hs in H3. destruct H3 as (n & Hn & Hl).
      exists n. split; [exact Hn |]. apply inject_Z_le.
      apply (Hin (StorageAtLeast (inject_Z n))). do 3 right. left.
      rewrite Hl. left. reflexivity.
    + intros s Hs. rewrite Hs in H4. destruct H4 as (n & Hn & Hl).
      exists n. split; [exact Hn |]. apply inject_Z_le.
      apply (Hin (StorageAtMost (inject_Z n))). do 4 right. left.
      rewrite Hl. left. reflexivity.
    + intros s Hs. apply String.eqb_eq.
      apply (Hin (GpuTypeIs s)). do 5 right. left. apply push_str_in.
      exact Hs.
    + intros s Hs.
      assert (E : eval_cond (SeriesIs s) (fst g) = true).
      { apply Hin. do 6 right. apply push_str_in. exact Hs. }
      simpl in E. destruct (lm_series (j_lm (fst g))) as [t |];
        [| discriminate E].
      apply String.eqb_eq in E. subst t. reflexivity.
Qed.

Lemma browse_rows_pass_the_filters_witness :
  exists rows,
    get_laptops sample_pool lenovo_params = Ok rows /\
    List.length rows = 2%nat /\
    Forall (fun row => b_brand_slug (br_b row) = "lenovo" /\
                       (16 <= hs_ram_gb (br_hs row))%Z) rows.
Proof.
  eexists. split; [vm_compute; reflexivity |]. split; [reflexivity |].
  rewrite Forall_forall. intros row Hrow.
  match type of Hrow with
  | In row ?rows =>
      destruct (browse_rows_pass_the_filters sample_pool lenovo_params rows
                  ltac:(vm_compute; reflexivity)) as [_ Hpass]
  end.
  destruct (Hpass row Hrow) as (Hbrand & Hram & _).
  split.
  - apply Hbrand. reflexivity.
  - destruct (Hram "16" eq_refl) as (n & Hn & Hle).
    vm_compute in Hn. inversion Hn. subst n. exact Hle.
Defined.

Lemma fold_min_spec (vs : list Q) (v : Q) :
  let m := fold_left (fun m x => if Qle_bool x m then x else m) vs v in
  In m (v :: vs) /\ m <= v /\ forall x, In x vs -> m <= x.
Proof.
  revert v. induction vs as [| a vs IH]; intros v; simpl.
  - split; [left; reflexivity |]. split; [apply Qle_refl | intros x []].
  - destruct (Qle_bool a v) eqn:E.
    + destruct (IH a) as (Hin & Hle & Hall). apply Qle_bool_iff in E.
      split; [right; exact Hin |]. split.
      * eapply Qle_trans; eassumption.
      * intros x [Hx | Hx]; [subst x; exact Hle | apply Hall; exact Hx].
    + destruct (IH v) as (Hin & Hle & Hall). apply Qle_bool_false in E.
      split; [destruct Hin as [Hin | Hin]; [left; exact Hin |
                                            right; right; exact Hin] |].
      split; [exact Hle |].
      intros x [Hx | Hx]; [subst x; eapply Qle_trans; eassumption |
                           apply Hall; exact Hx].
Qed.

Lemma fold_max_spec (vs : list Q) (v : Q) :
  let m := fold_left (fun m x => if Qle_bool m x then x else m) vs v in
  v <= m /\ forall x, In x vs -> x <= m.
Proof.
  revert v. induction vs as [| a vs IH]; intros v; simpl.
  - split; [apply Qle_refl | intros x []].
  - destruct (Qle_bool v a) eqn:E.
    + destruct (IH a) as (Hle & Hall). apply Qle_bool_iff in E. split.
      * eapply Qle_trans; eassumption.
      * intros x [Hx | Hx]; [subst x; exact Hle | apply Hall; exact Hx].
    + destruct (IH v) as (Hle & Hall). apply Qle_bool_false in E.
      split; [exact Hle |].
      intros x [Hx | Hx]; [subst x; eapply Qle_trans; eassumption |
                           apply Hall; exact Hx].
Qed.

Lemma non_null_length {A B C} (f : A -> B) (g : A -> C)
  (l : list (option A)) :
  List.length (non_null f l) = List.length (non_null g l).
Proof.
  induction l as [| [a |] l IH]; simpl; [reflexivity | | exact IH].
  rewrite IH. reflexivity.
Qed.

Lemma same_browse_group_model (x y : Joined) :
  same_browse_group x y = true ->
  lm_model_id (j_lm x) = lm_model_id (j_lm y).
Proof.
  unfold same_browse_group. intros H.
  repeat (apply andb_prop in H; destruct H as [H _]).
  apply String.eqb_eq. exact H.
Qed.

(** In a row of the browse listing the lowest price is absent exactly when
    the count of offers is 0; when present it is the price of an offer of
    that model that is available and in stock, and it does not exceed the
    highest price. *)
Theorem browse_prices_come_from_offers_in_stock :
  forall (app_db : Pool) (p : BrowseParams) (rows : list BrowseRow)
         (row : BrowseRow),
    get_laptops app_db p = Ok rows -> In row rows ->
    (br_min_price row = None <-> br_available_count row = 0%Z) /\
    (forall lo,
        br_min_price row = Some lo ->
        (exists i,
            In i (inventory (pool_data app_db)) /\
            i_model_id i = lm_model_id (br_lm row) /\
            i_unit_price i = lo /\ i_is_available i = Some true /\
            (0 < i_stock_quantity i)%Z) /\
        exists hi, br_max_price row = Some hi /\ lo <= hi).
Proof.
  intros app_db p rows row H Hrow. apply get_laptops_ok in H.
  destruct H as (conditions & lim & off & _ & _ & _ & _ & _ & Hrows).
  rewrite Hrows in Hrow.
  apply in_firstn, in_skipn, in_order_by, in_map_iff in Hrow.
  destruct Hrow as (g & Hg & Hin). subst row.
  unfold browse_select.
  cbn [br_min_price br_max_price br_available_count br_lm].
  unfold group_count, group_prices.
  set (offers := map j_i (members g)).
  rewrite (non_null_length i_inventory_id i_unit_price offers).
  destruct (non_null i_unit_price offers) as [| v vs] eqn:Hv.
  - simpl. split; [tauto |]. intros lo Hlo. discriminate Hlo.
  - split; [simpl; split; [discriminate | lia] |].
    intros lo Hlo. simpl in Hlo. inversion Hlo as [Hm]. clear Hlo.
    destruct (fold_min_spec vs v) as (Hmin_in & Hmin_le & _).
    split.
    + rewrite <- Hv in Hmin_in. apply non_null_in in Hmin_in.
      destruct Hmin_in as (i & Hi & Hprice).
      unfold offers in Hi. apply in_map_iff in Hi.
      destruct Hi as (m & Hmi & Hmem).
      assert (Hkept : In m (filter (where_ conditions)
                              (catalog_left_join on_in_stock
                                 (pool_data app_db)))).
      { apply (group_by_incl same_browse_group _ g Hin). exact Hmem. }
      apply filter_In in Hkept. destruct Hkept as [Hjoin _].
      unfold catalog_left_join in Hjoin. apply in_map_iff in Hjoin.
      destruct Hjoin as (x & Hx & Hjoin). apply in_left_join in Hjoin.
      destruct Hjoin as [_ Hjoin]. subst m. simpl in Hmi.
      rewrite Hmi in Hjoin. destruct Hjoin as [Hinv Hon].
      unfold on_in_stock, on_available, on_inventory in Hon.
      apply andb_prop in Hon. destruct Hon as [Hon Hstock].
      apply andb_prop in Hon. destruct Hon as [Hid Havail].
      apply String.eqb_eq in Hid. apply Z.ltb_lt in Hstock.
      exists i. split; [exact Hinv |]. split; [| split; [| split]].
      * rewrite <- Hid. destruct Hmem as [Hmem | Hmem].
        -- rewrite Hmem. reflexivity.
        -- symmetry.
           apply (same_browse_group_model (fst g) (left_joined x)).
           apply (group_by_same same_browse_group _ g _ Hin Hmem).
      * congruence.
      * destruct (i_is_available i) as [[|] |]; simpl in Havail;
          try discriminate Havail; reflexivity.
      * exact Hstock.
    + eexists. split; [reflexivity |].
      destruct (fold_max_spec vs v) as (Hmax_le & _).
      eapply Qle_trans; eassumption.
Qed.

Lemma browse_prices_come_from_offers_in_stock_witness :
  exists rows,
    get_laptops sample_pool lenovo_params = Ok rows /\
    Forall (fun row => br_min_price row = Some 189999 /\
                       br_available_count row = 1%Z) rows /\
    Forall (fun row => br_min_price row = None <->
                       br_available_count row = 0%Z) rows.
Proof.
  eexists. split; [vm_compute; reflexivity |].
  split; [repeat constructor |].
  rewrite Forall_forall. intros row Hrow.
  match type of Hrow with
  | In row ?rows =>
      destruct (browse_prices_come_from_offers_in_stock sample_pool
                  lenovo_params rows row ltac:(vm_compute; reflexivity)
                  Hrow) as [Hiff _]
  end.
  exact Hiff.
Defined.

(* ================================================================== *)
(** * One laptop with its offers *)

(** With the database up, [GET /:id] fails when the id is not the text of
    a UUID: the server refuses the value.  For the text of a UUID it answers
    404 exactly when no row of the catalog has that UUID; otherwise it sends
    a catalog row with that UUID, discontinued or not, together with exactly
    the offers for it that are available, in stock and sold by a known
    vendor, in ascending order of price. *)
Theorem laptop_page_shows_the_model_and_its_offers :
  forall (vendors : list Vendor) (i_vendor_id : Inventory -> string)
         (app_db : Pool) (id : string),
    pool_up app_db = true ->
    (uuid_in id = None ->
     get_laptop_by_id vendors i_vendor_id app_db id = Throw DbError) /\
    (forall u,
        uuid_in id = Some u ->
        (get_laptop_by_id vendors i_vendor_id app_db id = Ok DetailNotFound <->
         forall y, In y (from_catalog (pool_data app_db)) ->
                   lm_model_id (fst (fst y)) <> u) /\
        (forall row offers,
            get_laptop_by_id vendors i_vendor_id app_db id
            = Ok (DetailFound row offers) ->
            In row (from_catalog (pool_data app_db)) /\
            lm_model_id (fst (fst row)) = u /\
            StronglySorted vendor_offer_le offers /\
            forall i v,
              In (i, v) offers <->
              In i (inventory (pool_data app_db)) /\ In v vendors /\
              i_vendor_id i = v_vendor_id v /\ i_model_id i = u /\
              i_is_available i = Some true /\ (0 < i_stock_quantity i)%Z)).
Proof.
  intros vendors i_vendor_id app_db id Hup.
  unfold get_laptop_by_id, pool_query. rewrite Hup.
  unfold detail_query, detail_offers_query. split.
  { intros Hid. rewrite Hid. reflexivity. }
  intros u Hu. rewrite Hu. cbn [bind].
  destruct (filter (fun y => String.eqb (lm_model_id (fst (fst y))) u)
              (from_catalog (pool_data app_db))) as [| row0 rest] eqn:Hf.
  - split.
    + split; [| reflexivity]. intros _ y Hy Hid.
      assert (Hin : In y []).
      { rewrite <- Hf. apply filter_In. split; [exact Hy |].
        apply String.eqb_eq. exact Hid. }
      destruct Hin.
    + intros row offers H. discriminate H.
  - assert (Hrow0 : In row0 (from_catalog (pool_data app_db)) /\
                    lm_model_id (fst (fst row0)) = u).
    { assert (Hin : In row0 (row0 :: rest)) by (left; reflexivity).
      rewrite <- Hf in Hin. apply filter_In in Hin.
      destruct Hin as [Hin Hid]. apply String.eqb_eq in Hid. tauto. }
    split.
    + split; [intros H; discriminate H |].
      intros Hnone. destruct Hrow0 as [Hin Hid].
      destruct (Hnone row0 Hin Hid).
    + intros row offers H. inversion H. subst row offers.
      destruct Hrow0 as [Hin Hid].
      split; [exact Hin |]. split; [exact Hid |]. split.
      * apply (order_by_sorted _ vendor_offer_leb vendor_offer_le).
        -- intros x y z Hxy Hyz. unfold vendor_offer_le in *.
           eapply Qle_trans; eassumption.
        -- intros x y E. apply Qle_bool_iff. exact E.
        -- intros x y E. apply Qle_bool_false. exact E.
      * intros i v. rewrite in_order_by, filter_In, in_inner_join.
        unfold offered_for, on_vendor. simpl.
        rewrite !andb_true_iff, !String.eqb_eq, Z.ltb_lt.
        assert (Ha : sql_is true (i_is_available i) = true <->
                     i_is_available i = Some true).
        { destruct (i_is_available i) as [[|] |]; simpl;
            split; intros E; try discriminate E; reflexivity. }
        rewrite Ha. tauto.
Qed.

Lemma laptop_page_shows_the_model_and_its_offers_witness :
  get_laptop_by_id sample_vendors sample_vendor_id keyed_pool "m-latitude"
    = Throw DbError /\
  exists row offers,
    get_laptop_by_id sample_vendors sample_vendor_id keyed_pool
      "{A0EEBC999C0B4EF8BB6D6BB9BD380A14}"
    = Ok (DetailFound row offers) /\
    lm_is_discontinued (fst (fst row)) = Some true /\
    lm_model_id (fst (fst row)) = latitude_uuid /\
    StronglySorted vendor_offer_le offers.
Proof.
  split.
  - apply (proj1 (laptop_page_shows_the_model_and_its_offers
                    sample_vendors sample_vendor_id keyed_pool
                    "m-latitude" eq_refl)).
    vm_compute. reflexivity.
  - eexists. eexists. split; [vm_compute; reflexivity |].
    split; [reflexivity |].
    match goal with
    | |- lm_model_id (fst (fst ?row)) = _ /\ StronglySorted _ ?offers =>
        destruct (proj2 (proj2 (laptop_page_shows_the_model_and_its_offers
                                  sample_vendors sample_vendor_id keyed_pool
                                  "{A0EEBC999C0B4EF8BB6D6BB9BD380A14}"
                                  eq_refl)
                           latitude_uuid ltac:(vm_compute; reflexivity))
                    row offers ltac:(vm_compute; reflexivity))
          as (_ & Hid & Hsorted & _)
    end.
    split; [exact Hid | exact Hsorted].
Defined.

(* ================================================================== *)
(** * The search *)

Lemma search_hit_iff (ilike : string -> string -> bool) (pattern : string)
  (j : Joined) :
  search_hit ilike pattern j = true <->
  search_matches ilike pattern (j_lm j, j_b j, j_hs j).
Proof.
  unfold search_hit, search_matches. simpl.
  rewrite !orb_true_iff.
  destruct (lm_series (j_lm j)) as [s |].
  - split.
    + intros [[[H | H] | H] | H]; eauto.
    + intros [H | [(s' & Hs & H) | [H | H]]]; auto.
      inversion Hs. subst s'. auto.
  - split.
    + intros [[[H | H] | H] | H]; auto. discriminate H.
    + intros [H | [(s' & Hs & H) | [H | H]]]; auto. discriminate Hs.
Qed.

Lemma same_search_group_model (x y : Joined) :
  same_search_group x y = true ->
  lm_model_id (j_lm x) = lm_model_id (j_lm y).
Proof.
  unfold same_search_group. intros H.
  repeat (apply andb_prop in H; destruct H as [H _]).
  apply String.eqb_eq. exact H.
Qed.

(** Whatever the pattern match of the database is, the search sends at most
    20 rows; each is a catalog row that is not discontinued and whose model
    name, series, brand name or processor model matches [%query%]; and when
    fewer than 20 rows are sent, every such model of the catalog is among
    them. *)
Theorem search_lists_the_matching_models :
  forall (ilike : string -> string -> bool) (app_db : Pool)
         (query : string) (rows : list SearchRow),
    search_laptops ilike app_db query = Ok rows ->
    (List.length rows <= 20)%nat /\
    (forall row, In row rows ->
       exists y,
         In y (from_catalog (pool_data app_db)) /\
         sr_model_id row = lm_model_id (fst (fst y)) /\
         lm_is_discontinued (fst (fst y)) = Some false /\
         search_matches ilike (String.append "%" (String.append query "%")) y)
    /\
    ((List.length rows < 20)%nat ->
     forall y,
       In y (from_catalog (pool_data app_db)) ->
       lm_is_discontinued (fst (fst y)) = Some false ->
       search_matches ilike (String.append "%" (String.append query "%")) y ->
       exists row,
         In row rows /\ sr_model_id row = lm_model_id (fst (fst y))).
Proof.
  intros ilike app_db query rows H. unfold search_laptops in H.
  apply pool_query_ok in H. destruct H as [_ H].
  unfold search_query in H. apply limit_ok in H. destruct H as [_ Hrows].
  fold (search_pattern query).
  set (keep := fun j => sql_is false (lm_is_discontinued (j_lm j))
                        && search_hit ilike (search_pattern query) j) in *.
  set (kept := filter keep (catalog_left_join on_available
                              (pool_data app_db))) in *.
  assert (Hkeep : forall j,
             keep j = true <->
             lm_is_discontinued (j_lm j) = Some false /\
             search_matches ilike (search_pattern query)
               (j_lm j, j_b j, j_hs j)).
  { intros j. unfold keep. rewrite andb_true_iff, search_hit_iff.
    destruct (lm_is_discontinued (j_lm j)) as [[|] |]; simpl;
      intuition congruence. }
  split; [| split].
  - rewrite Hrows. rewrite length_firstn.
    change (Z.to_nat 20) with 20%nat. lia.
  - intros row Hrow. rewrite Hrows in Hrow. apply in_firstn in Hrow.
    apply in_map_iff in Hrow. destruct Hrow as (g & Hg & Hin). subst row.
    apply group_by_first in Hin. apply filter_In in Hin.
    destruct Hin as [Hj Hk]. apply Hkeep in Hk. destruct Hk as [Hd Hm].
    exists (j_lm (fst g), j_b (fst g), j_hs (fst g)).
    split; [apply (in_catalog_left_join_row on_available); exact Hj |].
    split; [reflexivity |]. split; [exact Hd | exact Hm].
  - intros Hshort y Hy Hd Hm.
    assert (Hall : rows = map search_select
                            (group_by same_search_group kept)).
    { rewrite Hrows. apply firstn_all2. rewrite Hrows in Hshort.
      rewrite length_firstn in Hshort.
      change (Z.to_nat 20) with 20%nat in *. lia. }
    destruct (catalog_left_join_covers on_available (pool_data app_db) y Hy)
      as (j & Hj & Hjy).
    assert (Hk : In j kept).
    { unfold kept. apply filter_In. split; [exact Hj |].
      apply Hkeep. rewrite Hjy. subst y. simpl in *. auto. }
    destruct (group_by_covers same_search_group kept j Hk) as (g & Hg & Hjg).
    exists (search_select g). split.
    + rewrite Hall. apply in_map. exact Hg.
    + simpl. subst y. simpl. destruct Hjg as [Hjg | Hjg].
      * rewrite Hjg. reflexivity.
      * apply same_search_group_model.
        apply (group_by_same same_search_group kept g j Hg Hjg).
Qed.

Lemma search_lists_the_matching_models_witness :
  exists rows,
    search_laptops prefix_match sample_pool "Leg" = Ok rows /\
    (List.length rows <= 20)%nat /\
    exists row, In row rows /\ sr_model_id row = "m-legion".
Proof.
  eexists. split; [vm_compute; reflexivity |].
  match goal with
  | |- (List.length ?rows <= _)%nat /\ _ =>
      destruct (search_lists_the_matching_models prefix_match sample_pool
                  "Leg" rows ltac:(vm_compute; reflexivity))
        as (Hlen & _ & Hall)
  end.
  split; [exact Hlen |].
  apply (Hall ltac:(vm_compute; lia) (legion, lenovo, spec_legion)).
  - vm_compute. tauto.
  - reflexivity.
  - left. reflexivity.
Defined.

(* ================================================================== *)
(** * The comparison *)



(* ================================================================== *)
(** * [truncate] *)

Lemma substring_length (n : nat) (s : string) :
  String.length (substring 0 n s) = Nat.min n (String.length s).
Proof.
  revert s. induction n as [| n IH]; intros [| c s]; simpl;
    try reflexivity.
  rewrite IH. reflexivity.
Qed.

Lemma to_integer_nonneg (q : Q) (len : Z) :
  0 <= q -> q < inject_Z len -> (0 <= to_integer q < len)%Z.
Proof.
  destruct q as [a b]. unfold Qle, Qlt, to_integer. simpl.
  intros Ha Hlt. rewrite Z.quot_div_nonneg by lia. split.
  - apply Z.div_pos; lia.
  - apply Z.div_lt_upper_bound; lia.
Qed.

Lemma to_integer_negative (q : Q) : q <= -1 -> (to_integer q <= -1)%Z.
Proof.
  destruct q as [a b]. unfold Qle, to_integer. simpl. intros Ha.
  replace a with (- - a)%Z by lia. rewrite Z.quot_opp_l by lia.
  rewrite Z.quot_div_nonneg by lia.
  assert (1 <= (- a) / Z.pos b)%Z; [| lia].
  apply Z.div_le_lower_bound; lia.
Qed.

(** [truncate] returns a text no longer than [length] unchanged.  A longer
    text is cut to its first [length] code units, [length] rounded down,
    and three dots are appended, so that the result has three code units
    more than [length]; for a negative [length] of -1 or less the cut drops
    that many code units from the end instead. *)
Theorem truncate_cuts_then_appends_three_dots :
  forall (text : string) (length : Q),
    (inject_Z (Z.of_nat (String.length text)) <= length ->
     truncate text length = text) /\
    (0 <= length -> length < inject_Z (Z.of_nat (String.length text)) ->
     (Z.to_nat (to_integer length) < String.length text)%nat /\
     truncate text length
     = String.append (substring 0 (Z.to_nat (to_integer length)) text) "..."
     /\
     String.length (truncate text length)
     = (Z.to_nat (to_integer length) + 3)%nat) /\
    (length <= -1 ->
     truncate text length
     = String.append
         (substring 0 (String.length text - Z.to_nat (- to_integer length))
            text) "...").
Proof.
  intros text length. unfold truncate. split; [| split].
  - intros H. apply Qle_bool_iff in H. rewrite H. reflexivity.
  - intros H0 Hlt.
    destruct (Qle_bool (inject_Z (Z.of_nat (String.length text))) length)
      eqn:E.
    { apply Qle_bool_iff in E. destruct (Qlt_not_le _ _ Hlt E). }
    destruct (to_integer_nonneg length _ H0 Hlt) as [Hn0 Hn].
    unfold slice0. destruct (Z.ltb_spec (to_integer length) 0); [lia |].
    rewrite Z.min_l by lia.
    split; [lia |]. split; [reflexivity |].
    rewrite string_length_append, substring_length. simpl. lia.
  - intros Hneg.
    destruct (Qle_bool (inject_Z (Z.of_nat (String.length text))) length)
      eqn:E.
    { apply Qle_bool_iff in E. exfalso.
      assert (H : inject_Z (Z.of_nat (String.length text)) <= -1).
      { eapply Qle_trans; eassumption. }
      unfold Qle in H. simpl in H. lia. }
    pose proof (to_integer_negative length Hneg) as Hn.
    unfold slice0. destruct (Z.ltb_spec (to_integer length) 0); [| lia].
    f_equal. f_equal. lia.
Qed.

Lemma truncate_cuts_then_appends_three_dots_witness :
  truncate "abc" 3 = "abc" /\
  String.length (truncate "abcd" 3) = 6%nat /\
  truncate "abcdef" (-2 # 1) = "abcd...".
Proof.
  split; [| split].
  - apply (proj1 (truncate_cuts_then_appends_three_dots "abc" 3)).
    vm_compute. discriminate.
  - apply (proj1 (proj2 (truncate_cuts_then_appends_three_dots "abcd" 3))).
    + vm_compute. discriminate.
    + vm_compute. reflexivity.
  - apply (proj2 (proj2 (truncate_cuts_then_appends_three_dots "abcdef"
                           (-2 # 1)))).
    vm_compute. discriminate.
Defined.

(* ================================================================== *)
(** * Groups, joins and keys *)

Section GroupMembers.
Context {A : Type} (same : A -> A -> bool).
Hypothesis same_refl : forall x, same x x = true.
Hypothesis same_sym : forall x y, same x y = true -> same y x = true.
Hypothesis same_trans :
  forall x y z, same x y = true -> same y z = true -> same x z = true.

Lemma add_to_groups_cases (x : A) (gs : list (A * list A)) :
  (exists gs1 y ys gs2,
      gs = gs1 ++ (y, ys) :: gs2 /\
      add_to_groups same x gs = gs1 ++ (y, ys ++ [x]) :: gs2 /\
      same y x = true /\
      forall g, In g gs1 -> same (fst g) x = false) \/
  (add_to_groups same x gs = gs ++ [(x, [])] /\
   forall g, In g gs -> same (fst g) x = false).
Proof.
  induction gs as [| [y ys] gs IH]; simpl.
  - right. split; [reflexivity | intros g []].
  - destruct (same y x) eqn:E.
    + left. exists [], y, ys, gs. simpl.
      split; [reflexivity |]. split; [reflexivity |].
      split; [exact E | intros g []].
    + destruct IH as [(gs1 & y' & ys' & gs2 & Hgs & Hadd & Hy & Hbefore)
                     | [Hadd Hnone]].
      * left. exists ((y, ys) :: gs1), y', ys', gs2. simpl.
        rewrite Hadd, Hgs. split; [reflexivity |]. split; [reflexivity |].
        split; [exact Hy |].
        intros g [Hg | Hg]; [subst g; exact E | apply Hbefore; exact Hg].
      * right. rewrite Hadd. split; [reflexivity |].
        intros g [Hg | Hg]; [subst g; exact E | apply Hnone; exact Hg].
Qed.

Lemma filter_snoc_true (p : A -> bool) (rows : list A) (x : A) :
  p x = true -> filter p (rows ++ [x]) = filter p rows ++ [x].
Proof. intros H. rewrite filter_app. simpl. rewrite H. reflexivity. Qed.

Lemma filter_snoc_false (p : A -> bool) (rows : list A) (x : A) :
  p x = false -> filter p (rows ++ [x]) = filter p rows.
Proof.
  intros H. rewrite filter_app. simpl. rewrite H. apply app_nil_r.
Qed.

Lemma group_by_snoc (rows : list A) (x : A) :
  group_by same (rows ++ [x]) = add_to_groups same x (group_by same rows).
Proof. unfold group_by. rewrite fold_left_app. reflexivity. Qed.

Lemma ordered_pairs_after (R : A -> A -> Prop) (l1 l2 : list A) (a b : A) :
  ForallOrdPairs R (l1 ++ a :: l2) -> In b l2 -> R a b.
Proof.
  induction l1 as [| c l1 IH]; simpl; intros H Hb; inversion H; subst.
  - rewrite Forall_forall in H2. apply H2. exact Hb.
  - apply IH; assumption.
Qed.

Lemma ordered_pairs_snoc (R : A -> A -> Prop) (l : list A) (x : A) :
  ForallOrdPairs R l -> Forall (fun a => R a x) l ->
  ForallOrdPairs R (l ++ [x]).
Proof.
  induction l as [| c l IH]; simpl; intros H Hx.
  - constructor; constructor.
  - inversion H; subst. inversion Hx; subst. constructor.
    + apply Forall_app. split; [assumption |]. constructor; [assumption |].
      constructor.
    + apply IH; assumption.
Qed.

(** The groups: each is the rows with the grouping columns of its first
    row, every row is in a group, and no two groups share their grouping
    columns. *)
Lemma group_by_partition (rows : list A) :
  (forall g, In g (group_by same rows) ->
             members g = filter (same (fst g)) rows) /\
  (forall z, In z rows ->
             exists g, In g (group_by same rows) /\ same (fst g) z = true) /\
  ForallOrdPairs (fun a b => same a b = false)
    (map fst (group_by same rows)).
Proof.
  induction rows as [| x rows IH] using rev_ind.
  - split; [intros g [] |]. split; [intros z [] | constructor].
  - destruct IH as (Hmem & Hcov & Hsep). rewrite group_by_snoc.
    destruct (add_to_groups_cases x (group_by same rows))
      as [(gs1 & y & ys & gs2 & Hgs & Hadd & Hy & Hbefore) | [Hadd Hnone]];
      rewrite Hadd.
    + assert (Hafter : forall g, In g gs2 -> same (fst g) x = false).
      { intros g Hg. destruct (same (fst g) x) eqn:E; [| reflexivity].
        rewrite Hgs, map_app in Hsep. simpl in Hsep.
        pose proof (ordered_pairs_after _ _ _ y (fst g) Hsep
                      (in_map fst _ _ Hg)) as Hs.
        simpl in Hs. rewrite <- Hs. symmetry.
        apply same_trans with x; [exact Hy | apply same_sym; exact E]. }
      split; [| split].
      * intros g Hg. apply in_app_or in Hg.
        destruct Hg as [Hg | [Hg | Hg]].
        -- rewrite filter_snoc_false by (apply Hbefore; exact Hg).
           apply Hmem. rewrite Hgs. apply in_or_app. left. exact Hg.
        -- subst g. simpl. rewrite filter_snoc_true by exact Hy.
           assert (Hm : members (y, ys) = filter (same y) rows).
           { apply (Hmem (y, ys)). rewrite Hgs. apply in_or_app.
             right. left. reflexivity. }
           rewrite <- Hm. reflexivity.
        -- rewrite filter_snoc_false by (apply Hafter; exact Hg).
           apply Hmem. rewrite Hgs. apply in_or_app. right. right. exact Hg.
      * intros z Hz. apply in_app_or in Hz. destruct Hz as [Hz | [Hz | []]].
        -- destruct (Hcov z Hz) as (g & Hg & Hgz). rewrite Hgs in Hg.
           apply in_app_or in Hg. destruct Hg as [Hg | [Hg | Hg]].
           ++ exists g. split; [apply in_or_app; left; exact Hg | exact Hgz].
           ++ subst g. exists (y, ys ++ [x]).
              split; [apply in_or_app; right; left; reflexivity | exact Hgz].
           ++ exists g.
              split; [apply in_or_app; right; right; exact Hg | exact Hgz].
        -- subst z. exists (y, ys ++ [x]).
           split; [apply in_or_app; right; left; reflexivity | exact Hy].
      * rewrite Hgs in Hsep. rewrite map_app in *. exact Hsep.
    + assert (Hfresh : forall z, In z rows -> same x z = false).
      { intros z Hz. destruct (same x z) eqn:E; [| reflexivity].
        destruct (Hcov z Hz) as (g & Hg & Hgz).
        rewrite <- (Hnone g Hg). symmetry.
        apply same_trans with z; [exact Hgz | apply same_sym; exact E]. }
      split; [| split].
      * intros g Hg. apply in_app_or in Hg. destruct Hg as [Hg | [Hg | []]].
        -- rewrite filter_snoc_false by (apply Hnone; exact Hg).
           apply Hmem. exact Hg.
        -- subst g. simpl. rewrite filter_app.
           assert (Hnil : filter (same x) rows = []).
           { apply filter_nil_iff. exact Hfresh. }
           rewrite Hnil. simpl.
           rewrite same_refl. reflexivity.
      * intros z Hz. apply in_app_or in Hz. destruct Hz as [Hz | [Hz | []]].
        -- destruct (Hcov z Hz) as (g & Hg & Hgz). exists g.
           split; [apply in_or_app; left; exact Hg | exact Hgz].
        -- subst z. exists (x, []).
           split; [apply in_or_app; right; left; reflexivity |].
           apply same_refl.
      * rewrite map_app. simpl. apply ordered_pairs_snoc; [exact Hsep |].
        rewrite Forall_forall. intros a Ha. apply in_map_iff in Ha.
        destruct Ha as (g & Hfst & Hg). subst a. apply Hnone. exact Hg.
Qed.
End GroupMembers.

Section LeftJoinCounts.
Context {A B : Type} (on : A -> B -> bool).

(** A condition on the left columns only may be applied before the join. *)
Lemma filter_left_join (p : A * option B -> bool) (q : A -> bool)
  (l : list A) (r : list B) :
  (forall a ob, p (a, ob) = q a) ->
  filter p (left_join on l r) = left_join on (filter q l) r.
Proof.
  intros Hp. unfold left_join.
  set (F := fun a => match filter (on a) r with
                     | [] => [(a, None)]
                     | m => map (fun b => (a, Some b)) m
                     end).
  induction l as [| a l IH]; [reflexivity |].
  cbn [flat_map filter]. rewrite filter_app, IH.
  assert (Ha : forall m : list (A * option B),
             (forall x, In x m -> fst x = a) ->
             filter p m = if q a then m else []).
  { intros m Hm. induction m as [| x m IHm]; simpl.
    - destruct (q a); reflexivity.
    - destruct x as [a' ob].
      assert (a' = a) by (apply (Hm (a', ob)); left; reflexivity). subst a'.
      rewrite Hp, IHm by (intros x Hx; apply Hm; right; exact Hx).
      destruct (q a); reflexivity. }
  rewrite Ha.
  - destruct (q a); reflexivity.
  - intros x Hx. unfold F in Hx. destruct (filter (on a) r).
    + destruct Hx as [Hx | []]. subst x. reflexivity.
    + apply in_map_iff in Hx. destruct Hx as (b' & Hx & _). subst x.
      reflexivity.
Qed.

(** One left row yields one joined row, or as many as it has matches. *)
Lemma left_join_one_length (a : A) (r : list B) :
  List.length (left_join on [a] r)
  = Nat.max 1 (List.length (filter (on a) r)).
Proof.
  unfold left_join. simpl. rewrite app_nil_r.
  destruct (filter (on a) r) as [| b m]; simpl; [reflexivity |].
  rewrite length_map. reflexivity.
Qed.

(** When every left row has the same matches, the matched right rows of the
    join are those matches once for every left row. *)
Lemma left_join_matched_count {C} (f : B -> C) (c : B -> bool)
  (l : list A) (r : list B) :
  (forall a b, In a l -> on a b = c b) ->
  List.length (non_null f (map snd (left_join on l r)))
  = (List.length l * List.length (filter c r))%nat.
Proof.
  intros Hc. unfold left_join.
  set (F := fun a => match filter (on a) r with
                     | [] => [(a, None)]
                     | m => map (fun b => (a, Some b)) m
                     end).
  induction l as [| a l IH]; [reflexivity |].
  cbn [flat_map List.length Nat.mul].
  rewrite map_app. unfold non_null in *. rewrite flat_map_app, length_app.
  rewrite IH by (intros a' b Ha'; apply Hc; right; exact Ha').
  f_equal. unfold F.
  rewrite (filter_ext (on a) c) by (intros b; apply Hc; left; reflexivity).
  clear IH.
  destruct (filter c r) as [| b m]; simpl; [reflexivity |].
  f_equal. induction m as [| b' m IHm]; simpl; [reflexivity |].
  rewrite IHm. reflexivity.
Qed.
End LeftJoinCounts.

Lemma filter_twice {A} (p q : A -> bool) (l : list A) :
  filter p (filter q l) = filter (fun x => q x && p x) l.
Proof.
  induction l as [| a l IH]; simpl; [reflexivity |].
  destruct (q a); simpl; [destruct (p a) |]; rewrite IH; reflexivity.
Qed.

(** A key without duplicates selects at most one row. *)
Lemma filter_by_key {A} (key : A -> string) (p : A -> bool) (l : list A)
  (y0 : A) :
  NoDup (map key l) -> In y0 l -> p y0 = true ->
  (forall y, In y l -> p y = true -> key y = key y0) ->
  filter p l = [y0].
Proof.
  induction l as [| a l IH]; simpl; intros Hnd Hin Hp Hkey; [destruct Hin |].
  inversion Hnd as [| k ks Hnotin Hnd']. subst.
  destruct Hin as [Hin | Hin].
  - subst a. rewrite Hp. f_equal. apply filter_nil_iff. intros x Hx.
    destruct (p x) eqn:E; [| reflexivity]. exfalso. apply Hnotin.
    rewrite <- (Hkey x (or_intror Hx) E). apply in_map. exact Hx.
  - destruct (p a) eqn:E.
    + exfalso. apply Hnotin. rewrite (Hkey a (or_introl eq_refl) E).
      apply in_map. exact Hin.
    + apply IH; auto.
Qed.

Lemma filter_at_most_one {B} (key : B -> string) (k : string)
  (p : B -> bool) (r : list B) :
  NoDup (map key r) -> (forall b, p b = true -> key b = k) ->
  (List.length (filter p r) <= 1)%nat.
Proof.
  intros Hnd Hk. destruct (filter p r) as [| b m] eqn:Hf; simpl; [lia |].
  assert (Hb : In b r /\ p b = true).
  { apply filter_In. rewrite Hf. left. reflexivity. }
  rewrite (filter_by_key key p r b Hnd) in Hf; try tauto.
  - inversion Hf. simpl. lia.
  - intros y _ Hy. rewrite (Hk y Hy), (Hk b (proj2 Hb)). reflexivity.
Qed.

Lemma inner_join_keeps_key {A B} (on : A -> B -> bool) (key : A -> string)
  (l : list A) (r : list B) :
  NoDup (map key l) ->
  (forall a, (List.length (filter (on a) r) <= 1)%nat) ->
  NoDup (map (fun x => key (fst x)) (inner_join on l r)).
Proof.
  intros Hnd Hone. unfold inner_join.
  induction l as [| a l IH]; simpl; [constructor |].
  inversion Hnd as [| k ks Hnotin Hnd']. subst. rewrite map_app.
  specialize (Hone a). destruct (filter (on a) r) as [| b [| b' m]];
    simpl in *; [apply IH; exact Hnd' | | lia].
  constructor; [| apply IH; exact Hnd'].
  intros Hin. apply Hnotin. apply in_map_iff in Hin.
  destruct Hin as (x & Hx & Hin). apply in_flat_map in Hin.
  destruct Hin as (a' & Ha' & Hin). apply in_map_iff in Hin.
  destruct Hin as (b'' & Hb & _). subst x. simpl in Hx. rewrite <- Hx.
  apply in_map. exact Ha'.
Qed.

(** With the primary keys of the three tables, the catalog has one row for
    a model id. *)
Lemma from_catalog_one_row_a_model (d : Database) :
  primary_keys d ->
  NoDup (map (fun y => lm_model_id (fst (fst y))) (from_catalog d)).
Proof.
  intros (Hlm & Hb & Hhs). unfold from_catalog.
  apply (inner_join_keeps_key on_spec (fun x => lm_model_id (fst x))).
  - apply (inner_join_keeps_key on_brand lm_model_id); [exact Hlm |].
    intros lm. apply (filter_at_most_one b_brand_id (lm_brand_id lm));
      [exact Hb |].
    intros b E. apply String.eqb_eq in E. symmetry. exact E.
  - intros x. apply (filter_at_most_one hs_spec_id (lm_spec_id (fst x)));
      [exact Hhs |].
    intros hs E. apply String.eqb_eq in E. symmetry. exact E.
Qed.

Lemma same_trending_group_iff (x y : TrendingJoined) :
  same_trending_group x y = true <->
  lm_model_id (j_lm (fst x)) = lm_model_id (j_lm (fst y)) /\
  b_brand_name (j_b (fst x)) = b_brand_name (j_b (fst y)) /\
  hs_ram_gb (j_hs (fst x)) = hs_ram_gb (j_hs (fst y)) /\
  hs_storage_capacity_gb (j_hs (fst x))
  = hs_storage_capacity_gb (j_hs (fst y)) /\
  gpu_name (hs_gpu_type (j_hs (fst x))) = gpu_name (hs_gpu_type (j_hs (fst y))).
Proof.
  unfold same_trending_group, gpu_eqb.
  rewrite !andb_true_iff, !String.eqb_eq, !Z.eqb_eq. tauto.
Qed.

(** Under the primary keys of the catalog, the [recommendation_count] of a
    trending row is the number of recommendations of the model from the last
    seven days multiplied by the number of its available offers (by one
    when it has none): the two left joins pair every offer with every
    recommendation. *)
Theorem trending_count_is_multiplied_by_the_offers :
  forall (w : World) (now : Z) (rows : list TrendingRow) (pool : Pool)
         (row : TrendingRow),
    get_trending w now = Ok rows -> w_pool w = Some pool ->
    primary_keys (pool_data pool) ->
    In row rows ->
    tr_recommendation_count row
    = Z.of_nat
        (Nat.max 1 (List.length
                      (available_offers (pool_data pool) (tr_model_id row)))
         * List.length
             (recent_recommendations now (pool_data pool) (tr_model_id row))).
Proof.
  intros w now rows pool row H Hpool Hkeys Hrow.
  apply get_trending_ok in H. destruct H as (pool' & Hpool' & _ & Hrows).
  rewrite Hpool in Hpool'. inversion Hpool'. subst pool'. clear Hpool'.
  set (d := pool_data pool) in *.
  rewrite Hrows in Hrow. apply in_firstn, in_order_by, in_map_iff in Hrow.
  destruct Hrow as (g & Hg & Hin). subst row.
  set (nd := fun x : TrendingJoined => where_ [NotDiscontinued] (fst x)) in *.
  set (joined := left_join (on_recent now)
                   (catalog_left_join on_available d) (recommendations d))
    in *.
  assert (Hequiv := group_by_partition same_trending_group).
  destruct (Hequiv
              ltac:(intros x; apply same_trending_group_iff; tauto)
              ltac:(intros x y E; apply same_trending_group_iff;
                    apply same_trending_group_iff in E;
                    intuition congruence)
              ltac:(intros x y z E1 E2; apply same_trending_group_iff;
                    apply same_trending_group_iff in E1;
                    apply same_trending_group_iff in E2;
                    intuition congruence)
              (filter nd joined)) as (Hmem & _ & _).
  clear Hequiv. specialize (Hmem g Hin).
  unfold trending_select.
  cbn [tr_recommendation_count tr_model_id].
  rewrite Hmem. f_equal.
  (* the first row of the group *)
  assert (Hfirst : In (fst g) (filter nd joined)).
  { apply (group_by_first same_trending_group). exact Hin. }
  apply filter_In in Hfirst. destruct Hfirst as [Hj Hnd].
  unfold joined in Hj. apply in_left_join in Hj. destruct Hj as [Hj _].
  unfold catalog_left_join in Hj. apply in_map_iff in Hj.
  destruct Hj as (x0 & Hx0 & Hj). apply in_left_join in Hj.
  destruct Hj as [Hy0 _].
  set (y0 := fst x0) in *.
  set (id := lm_model_id (j_lm (fst (fst g)))).
  assert (Hid : lm_model_id (fst (fst y0)) = id).
  { unfold id. rewrite <- Hx0. reflexivity. }
  (* the rows of the group *)
  set (pj := fun j : Joined => same_trending_group (fst g) (j, None)).
  set (py := fun y : LaptopModel * Brand * HardwareSpec =>
               where_ [NotDiscontinued] (left_joined (y, None))
               && pj (left_joined (y, None))).
  assert (Hrowsg :
            filter (same_trending_group (fst g)) (filter nd joined)
            = left_join (on_recent now)
                (map left_joined (left_join on_available [y0] (inventory d)))
                (recommendations d)).
  { unfold joined.
    rewrite (filter_left_join (on_recent now) nd (where_ [NotDiscontinued]))
      by reflexivity.
    rewrite (filter_left_join (on_recent now)
               (same_trending_group (fst g)) pj) by reflexivity.
    f_equal. unfold catalog_left_join.
    rewrite !filter_map_swap. f_equal.
    rewrite (filter_left_join on_available
               (fun a => where_ [NotDiscontinued] (left_joined a))
               (fun y => where_ [NotDiscontinued] (left_joined (y, None))))
      by reflexivity.
    rewrite (filter_left_join on_available
               (fun a => pj (left_joined a))
               (fun y => pj (left_joined (y, None)))) by reflexivity.
    f_equal. rewrite filter_twice.
    apply (filter_by_key (fun y => lm_model_id (fst (fst y)))).
    - apply from_catalog_one_row_a_model. exact Hkeys.
    - exact Hy0.
    - apply andb_true_intro. split.
      + unfold nd in Hnd. rewrite <- Hx0 in Hnd. exact Hnd.
      + unfold pj. apply same_trending_group_iff. rewrite <- Hx0.
        simpl. tauto.
    - intros y _ Hy. apply andb_prop in Hy. destruct Hy as [_ Hy].
      unfold pj in Hy. apply same_trending_group_iff in Hy.
      destruct Hy as [Hy _]. simpl in Hy. rewrite <- Hy, Hid. reflexivity. }
  rewrite Hrowsg.
  rewrite (left_join_matched_count (on_recent now) r_recommendation_id
             (fun r => String.eqb id (r_model_id r)
                       && (now - seven_days <? r_created_at r)%Z)).
  - rewrite length_map. unfold CatalogRow.
    rewrite left_join_one_length. unfold available_offers,
      recent_recommendations. fold d. f_equal. f_equal. f_equal.
    apply filter_ext. intros i. unfold on_available, on_inventory.
    rewrite Hid. reflexivity.
  - intros j r Hjin. apply in_map_iff in Hjin.
    destruct Hjin as (x & Hx & Hxin). apply in_left_join in Hxin.
    destruct Hxin as [[Hxy | []] _]. subst j. unfold on_recent. simpl.
    rewrite <- Hxy, Hid. reflexivity.
Qed.

Lemma key_without_duplicates_inj {A} (key : A -> string) (l : list A)
  (a b : A) :
  NoDup (map key l) -> In a l -> In b l -> key a = key b -> a = b.
Proof.
  induction l as [| c l IH]; simpl; intros Hnd Ha Hb Hk; [destruct Ha |].
  inversion Hnd as [| k ks Hnotin Hnd']. subst.
  destruct Ha as [Ha | Ha], Hb as [Hb | Hb]; subst.
  - reflexivity.
  - exfalso. apply Hnotin. rewrite Hk. apply in_map. exact Hb.
  - exfalso. apply Hnotin. rewrite <- Hk. apply in_map. exact Ha.
  - apply IH; assumption.
Qed.

Lemma ordered_pairs_keys {A} (R : A -> A -> Prop) (key : A -> string)
  (l : list A) :
  ForallOrdPairs R l ->
  (forall a b, In a l -> In b l -> R a b -> key a <> key b) ->
  NoDup (map key l).
Proof.
  induction l as [| c l IH]; simpl; intros H Hk; [constructor |].
  inversion H as [| c' l' Hc Hl]. subst. constructor.
  - intros Hin. apply in_map_iff in Hin. destruct Hin as (b & Hkb & Hb).
    rewrite Forall_forall in Hc.
    apply (Hk c b (or_introl eq_refl) (or_intror Hb) (Hc b Hb)).
    symmetry. exact Hkb.
  - apply IH; [exact Hl |]. intros a b Ha Hb. apply Hk; right; assumption.
Qed.

Lemma NoDup_map_firstn {A} (key : A -> string) (n : nat) (l : list A) :
  NoDup (map key l) -> NoDup (map key (firstn n l)).
Proof.
  intros H. rewrite <- (firstn_skipn n l), map_app in H.
  apply NoDup_app_remove_r in H. exact H.
Qed.

Lemma NoDup_map_skipn {A} (key : A -> string) (n : nat) (l : list A) :
  NoDup (map key l) -> NoDup (map key (skipn n l)).
Proof.
  intros H. rewrite <- (firstn_skipn n l), map_app in H.
  apply NoDup_app_remove_l in H. exact H.
Qed.

Lemma NoDup_map_order_by {A} (tie leb : A -> A -> bool) (key : A -> string)
  (l : list A) :
  NoDup (map key l) -> NoDup (map key (order_by tie leb l)).
Proof.
  intros H. apply (Permutation_NoDup (l := map key l)); [| exact H].
  apply Permutation_map. apply Permutation_sym. apply order_by_perm.
Qed.

(** Grouping by columns that the key determines yields one group a key. *)
Lemma group_by_one_group_a_key {A R} (same : A -> A -> bool)
  (key : A -> string) (select : A * list A -> R) (rkey : R -> string)
  (rows : list A) :
  (forall x, same x x = true) ->
  (forall x y, same x y = true -> same y x = true) ->
  (forall x y z, same x y = true -> same y z = true -> same x z = true) ->
  (forall a b, In a rows -> In b rows -> key a = key b -> same a b = true) ->
  (forall g, rkey (select g) = key (fst g)) ->
  NoDup (map rkey (map select (group_by same rows))).
Proof.
  intros Hrefl Hsym Htrans Hkey Hsel.
  destruct (group_by_partition same Hrefl Hsym Htrans rows) as (_ & _ & Hsep).
  rewrite map_map.
  rewrite (map_ext _ (fun g => key (fst g))) by (intros g; apply Hsel).
  rewrite <- (map_map fst key).
  apply (ordered_pairs_keys _ key _ Hsep).
  intros a b Ha Hb Hab Hk.
  apply in_map_iff in Ha. destruct Ha as (ga & Hga & Ha).
  apply in_map_iff in Hb. destruct Hb as (gb & Hgb & Hb).
  subst a b. apply group_by_first in Ha, Hb.
  rewrite (Hkey _ _ Ha Hb Hk) in Hab. discriminate Hab.
Qed.

Lemma joined_same_model
  (on : LaptopModel * Brand * HardwareSpec -> Inventory -> bool)
  (d : Database) (a b : Joined) :
  primary_keys d ->
  In a (catalog_left_join on d) -> In b (catalog_left_join on d) ->
  lm_model_id (j_lm a) = lm_model_id (j_lm b) ->
  j_lm a = j_lm b /\ j_b a = j_b b /\ j_hs a = j_hs b.
Proof.
  intros Hkeys Ha Hb Hid.
  apply in_catalog_left_join_row in Ha, Hb.
  assert (E : (j_lm a, j_b a, j_hs a) = (j_lm b, j_b b, j_hs b)).
  { apply (key_without_duplicates_inj
             (fun y => lm_model_id (fst (fst y))) (from_catalog d));
      [apply from_catalog_one_row_a_model; exact Hkeys | | | exact Hid];
      assumption. }
  inversion E. auto.
Qed.

Lemma same_browse_group_iff (x y : Joined) :
  same_browse_group x y = true <->
  lm_model_id (j_lm x) = lm_model_id (j_lm y) /\
  b_brand_id (j_b x) = b_brand_id (j_b y) /\
  hs_spec_id (j_hs x) = hs_spec_id (j_hs y).
Proof.
  unfold same_browse_group. rewrite !andb_true_iff, !String.eqb_eq. tauto.
Qed.

Lemma same_usage_group_iff (x y : Joined) :
  same_usage_group x y = true <->
  lm_model_id (j_lm x) = lm_model_id (j_lm y) /\
  b_brand_name (j_b x) = b_brand_name (j_b y) /\
  hs_spec_id (j_hs x) = hs_spec_id (j_hs y).
Proof.
  unfold same_usage_group. rewrite !andb_true_iff, !String.eqb_eq. tauto.
Qed.

Lemma same_search_group_iff (x y : Joined) :
  same_search_group x y = true <->
  lm_model_id (j_lm x) = lm_model_id (j_lm y) /\
  b_brand_name (j_b x) = b_brand_name (j_b y) /\
  hs_processor_model (j_hs x) = hs_processor_model (j_hs y) /\
  hs_ram_gb (j_hs x) = hs_ram_gb (j_hs y) /\
  hs_storage_capacity_gb (j_hs x) = hs_storage_capacity_gb (j_hs y).
Proof.
  unfold same_search_group.
  rewrite !andb_true_iff, !String.eqb_eq, !Z.eqb_eq. tauto.
Qed.

Lemma same_browse_group_respects :
  (forall x y, same_browse_group x y = true -> same_browse_group y x = true)
  /\
  (forall x y z, same_browse_group x y = true ->
                 same_browse_group y z = true ->
                 same_browse_group x z = true) /\
  (forall x y, same_browse_group x y = true ->
               lm_model_id (j_lm x) = lm_model_id (j_lm y)) /\
  (forall x y, j_lm x = j_lm y -> j_b x = j_b y -> j_hs x = j_hs y ->
               same_browse_group x y = true).
Proof.
  repeat split.
  - intros x y E. apply same_browse_group_iff.
    apply same_browse_group_iff in E. intuition congruence.
  - intros x y z E1 E2. apply same_browse_group_iff.
    apply same_browse_group_iff in E1. apply same_browse_group_iff in E2.
    intuition congruence.
  - intros x y E. apply same_browse_group_iff in E. tauto.
  - intros x y E1 E2 E3. apply same_browse_group_iff.
    rewrite E1, E2, E3. tauto.
Qed.

Lemma same_usage_group_respects :
  (forall x y, same_usage_group x y = true -> same_usage_group y x = true)
  /\
  (forall x y z, same_usage_group x y = true ->
                 same_usage_group y z = true ->
                 same_usage_group x z = true) /\
  (forall x y, same_usage_group x y = true ->
               lm_model_id (j_lm x) = lm_model_id (j_lm y)) /\
  (forall x y, j_lm x = j_lm y -> j_b x = j_b y -> j_hs x = j_hs y ->
               same_usage_group x y = true).
Proof.
  repeat split.
  - intros x y E. apply same_usage_group_iff.
    apply same_usage_group_iff in E. intuition congruence.
  - intros x y z E1 E2. apply same_usage_group_iff.
    apply same_usage_group_iff in E1. apply same_usage_group_iff in E2.
    intuition congruence.
  - intros x y E. apply same_usage_group_iff in E. tauto.
  - intros x y E1 E2 E3. apply same_usage_group_iff.
    rewrite E1, E2, E3. tauto.
Qed.

Lemma same_search_group_respects :
  (forall x y, same_search_group x y = true -> same_search_group y x = true)
  /\
  (forall x y z, same_search_group x y = true ->
                 same_search_group y z = true ->
                 same_search_group x z = true) /\
  (forall x y, same_search_group x y = true ->
               lm_model_id (j_lm x) = lm_model_id (j_lm y)) /\
  (forall x y, j_lm x = j_lm y -> j_b x = j_b y -> j_hs x = j_hs y ->
               same_search_group x y = true).
Proof.
  repeat split.
  - intros x y E. apply same_search_group_iff.
    apply same_search_group_iff in E. intuition congruence.
  - intros x y z E1 E2. apply same_search_group_iff.
    apply same_search_group_iff in E1. apply same_search_group_iff in E2.
    intuition congruence.
  - intros x y E. apply same_search_group_iff in E. tauto.
  - intros x y E1 E2 E3. apply same_search_group_iff.
    rewrite E1, E2, E3. tauto.
Qed.

(** With the primary keys of the catalog, the browse, by-usage, trending,
    search and comparison listings show a model at most once. *)
Theorem listings_show_a_model_once :
  forall (pool : Pool),
    primary_keys (pool_data pool) ->
    (forall p rows,
        get_laptops pool p = Ok rows ->
        NoDup (map (fun row => lm_model_id (br_lm row)) rows)) /\
    (forall w usage limit_param rows,
        w_pool w = Some pool ->
        get_by_usage w usage limit_param = Ok rows ->
        NoDup (map (fun row => lm_model_id (ur_lm row)) rows)) /\
    (forall w now rows,
        w_pool w = Some pool ->
        get_trending w now = Ok rows ->
        NoDup (map tr_model_id rows)) /\
    (forall ilike query rows,
        search_laptops ilike pool query = Ok rows ->
        NoDup (map sr_model_id rows)) /\
    (forall w model_ids rows,
        w_pool w = Some pool ->
        post_compare w model_ids = Ok (CompareRows rows) ->
        NoDup (map (fun row => lm_model_id (cmp_lm row)) rows)).
Proof.
  intros pool Hkeys.
  assert (Hsame : forall on (keep : Joined -> bool) a b,
             In a (filter keep (catalog_left_join on (pool_data pool))) ->
             In b (filter keep (catalog_left_join on (pool_data pool))) ->
             lm_model_id (j_lm a) = lm_model_id (j_lm b) ->
             j_lm a = j_lm b /\ j_b a = j_b b /\ j_hs a = j_hs b).
  { intros on keep a b Ha Hb. apply filter_In in Ha, Hb.
    apply (joined_same_model on (pool_data pool)); tauto. }
  split; [| split; [| split; [| split]]].
  - intros p rows H. apply get_laptops_ok in H.
    destruct H as (conditions & lim & off & _ & _ & _ & _ & _ & Hrows).
    rewrite Hrows.
    apply NoDup_map_firstn, NoDup_map_skipn, NoDup_map_order_by.
    destruct same_browse_group_respects as (Hsym & Htrans & _ & Hcat).
    apply (group_by_one_group_a_key same_browse_group
             (fun j => lm_model_id (j_lm j)));
      [intros x; apply Hcat; reflexivity | exact Hsym | exact Htrans |
       | reflexivity].
    intros a b Ha Hb Hid.
    destruct (Hsame _ _ a b Ha Hb Hid) as (E1 & E2 & E3).
    apply Hcat; assumption.
  - intros w usage limit_param rows Hpool H. apply get_by_usage_ok in H.
    destruct H as (pool' & Hpool' & _ & _ & Hrows).
    rewrite Hpool in Hpool'. inversion Hpool'. subst pool'.
    rewrite Hrows. apply NoDup_map_firstn, NoDup_map_order_by.
    destruct same_usage_group_respects as (Hsym & Htrans & _ & Hcat).
    apply (group_by_one_group_a_key same_usage_group
             (fun j => lm_model_id (j_lm j)));
      [intros x; apply Hcat; reflexivity | exact Hsym | exact Htrans |
       | reflexivity].
    intros a b Ha Hb Hid.
    destruct (Hsame _ _ a b Ha Hb Hid) as (E1 & E2 & E3).
    apply Hcat; assumption.
  - intros w now rows Hpool H. apply get_trending_ok in H.
    destruct H as (pool' & Hpool' & _ & Hrows).
    rewrite Hpool in Hpool'. inversion Hpool'. subst pool'.
    rewrite Hrows. apply NoDup_map_firstn, NoDup_map_order_by.
    apply (group_by_one_group_a_key same_trending_group
             (fun x => lm_model_id (j_lm (fst x))));
      [intros x; apply same_trending_group_iff; tauto
      | intros x y E; apply same_trending_group_iff;
        apply same_trending_group_iff in E; intuition congruence
      | intros x y z E1 E2; apply same_trending_group_iff;
        apply same_trending_group_iff in E1;
        apply same_trending_group_iff in E2; intuition congruence
      | | reflexivity].
    intros a b Ha Hb Hid. apply same_trending_group_iff.
    apply filter_In in Ha, Hb. destruct Ha as [Ha _], Hb as [Hb _].
    apply in_left_join in Ha, Hb. destruct Ha as [Ha _], Hb as [Hb _].
    destruct (joined_same_model on_available (pool_data pool) (fst a) (fst b)
                Hkeys Ha Hb Hid) as (E1 & E2 & E3).
    rewrite E2, E3. tauto.
  - intros ilike query rows H. unfold search_laptops in H.
    apply pool_query_ok in H. destruct H as [_ H].
    unfold search_query in H. apply limit_ok in H. destruct H as [_ Hrows].
    rewrite Hrows. apply NoDup_map_firstn.
    destruct same_search_group_respects as (Hsym & Htrans & _ & Hcat).
    apply (group_by_one_group_a_key same_search_group
             (fun j => lm_model_id (j_lm j)));
      [intros x; apply Hcat; reflexivity | exact Hsym | exact Htrans |
       | reflexivity].
    intros a b Ha Hb Hid.
    destruct (Hsame _ _ a b Ha Hb Hid) as (E1 & E2 & E3).
    apply Hcat; assumption.
  - intros w model_ids rows Hpool H. unfold post_compare, getPool in H.
    rewrite Hpool in H. simpl in H. destruct model_ids as [ids |];
      [| discriminate H].
    destruct (Nat.eqb (List.length ids) 0 || Nat.ltb 4 (List.length ids))%bool;
      [discriminate H |].
    apply bind_ok in H. destruct H as (rows' & H & Hr). inversion Hr.
    subst rows'. apply pool_query_ok in H. destruct H as [_ H].
    unfold compare_query in H. inversion H as [Hrows].
    destruct same_usage_group_respects as (Hsym & Htrans & _ & Hcat).
    apply (group_by_one_group_a_key same_usage_group
             (fun j => lm_model_id (j_lm j)));
      [intros x; apply Hcat; reflexivity | exact Hsym | exact Htrans |
       | reflexivity].
    intros a b Ha Hb Hid.
    destruct (Hsame _ _ a b Ha Hb Hid) as (E1 & E2 & E3).
    apply Hcat; assumption.
Qed.

Lemma sample_primary_keys : primary_keys (pool_data sample_pool).
Proof.
  unfold primary_keys. simpl.
  repeat split;
    repeat (constructor; [simpl; intuition discriminate |]); constructor.
Qed.

Lemma trending_count_is_multiplied_by_the_offers_witness :
  exists rows row,
    get_trending trending_world 1000000 = Ok rows /\
    In row rows /\ tr_model_id row = "m-legion" /\
    tr_recommendation_count row = 4%Z.
Proof.
  eexists. eexists. split; [vm_compute; reflexivity |].
  split; [left; reflexivity |]. split; [reflexivity |].
  match goal with
  | |- tr_recommendation_count ?row = _ =>
      rewrite (trending_count_is_multiplied_by_the_offers trending_world
                 1000000 _ trending_pool row
                 ltac:(vm_compute; reflexivity) eq_refl
                 sample_primary_keys ltac:(left; reflexivity))
  end.
  reflexivity.
Defined.

Lemma listings_show_a_model_once_witness :
  exists rows,
    get_laptops sample_pool no_params = Ok rows /\
    List.length rows = 3%nat /\
    NoDup (map (fun row => lm_model_id (br_lm row)) rows).
Proof.
  eexists. split; [vm_compute; reflexivity |]. split; [reflexivity |].
  apply (proj1 (listings_show_a_model_once sample_pool sample_primary_keys)
           no_params).
  vm_compute. reflexivity.
Defined.

(* ================================================================== *)
(** * The aggregates of the listings *)

Lemma where_catalog (conditions : list Cond)
  (y : LaptopModel * Brand * HardwareSpec) (oi : option Inventory) :
  forallb catalog_cond conditions = true ->
  where_ conditions (left_joined (y, oi))
  = where_ conditions (left_joined (y, None)).
Proof.
  unfold where_. induction conditions as [| c cs IH]; simpl;
    [reflexivity |].
  intros H. apply andb_prop in H. destruct H as [Hc Hcs].
  rewrite IH by exact Hcs. f_equal.
  destruct c; try discriminate Hc; reflexivity.
Qed.

Lemma browse_conditions_catalog (p : BrowseParams) (conditions : list Cond) :
  browse_conditions p = Ok conditions ->
  forallb catalog_cond conditions = true.
Proof.
  unfold browse_conditions. intros H.
  apply bind_ok in H. destruct H as (c1 & H1 & H).
  apply bind_ok in H. destruct H as (c2 & H2 & H).
  apply bind_ok in H. destruct H as (c3 & H3 & H).
  apply bind_ok in H. destruct H as (c4 & H4 & H).
  inversion H. clear H.
  apply push_int_ok in H1, H2, H3, H4. unfold push_str.
  destruct (truthy_str (minRam p));
    [destruct H1 as (n1 & _ & H1) |]; subst c1;
  destruct (truthy_str (maxRam p));
    [destruct H2 as (n2 & _ & H2) | |  destruct H2 as (n2 & _ & H2) |];
    subst c2;
  destruct (truthy_str (minStorage p));
    try destruct H3 as (n3 & _ & H3); subst c3;
  destruct (truthy_str (maxStorage p));
    try destruct H4 as (n4 & _ & H4); subst c4;
  destruct (truthy_str (brand p)); destruct (truthy_str (gpuType p));
    destruct (truthy_str (series p)); reflexivity.
Qed.

Lemma usage_conditions_catalog (specs : UsageSpec) :
  forallb catalog_cond (usage_conditions specs) = true.
Proof.
  unfold usage_conditions, push_if_truthy.
  destruct (us_min_ram_gb specs) as [a |];
    destruct (us_min_cores specs) as [b |];
    destruct (us_min_refresh_rate specs) as [c |];
    repeat match goal with
           | |- context [truthy_num ?v] => destruct (truthy_num v)
           end; reflexivity.
Qed.

Lemma left_join_one_values {A B C} (on : A -> B -> bool) (f : B -> C)
  (a : A) (r : list B) :
  non_null f (map snd (left_join on [a] r)) = map f (filter (on a) r).
Proof.
  unfold left_join. simpl. rewrite app_nil_r.
  assert (H : forall m : list B,
             non_null f (map snd (map (fun b => (a, Some b)) m)) = map f m).
  { induction m as [| b m IH]; simpl; [reflexivity |].
    unfold non_null in *. simpl. rewrite IH. reflexivity. }
  destruct (filter (on a) r) as [| b m]; [reflexivity | apply (H (b :: m))].
Qed.

(** With the primary keys, a group of a listing holds the rows of one
    catalog row: one for each of its offers that the join admits. *)
Lemma group_offers_of_the_model
  (same : Joined -> Joined -> bool)
  (on : LaptopModel * Brand * HardwareSpec -> Inventory -> bool)
  (keep : Joined -> bool) (d : Database) (g : Joined * list Joined) :
  primary_keys d ->
  (forall x y, same x y = true -> same y x = true) ->
  (forall x y z, same x y = true -> same y z = true -> same x z = true) ->
  (forall x y, same x y = true ->
               lm_model_id (j_lm x) = lm_model_id (j_lm y)) ->
  (forall x y, j_lm x = j_lm y -> j_b x = j_b y -> j_hs x = j_hs y ->
               same x y = true) ->
  (forall y oi, keep (left_joined (y, oi)) = keep (left_joined (y, None))) ->
  In g (group_by same (filter keep (catalog_left_join on d))) ->
  map j_i (members g)
  = map snd (left_join on [(j_lm (fst g), j_b (fst g), j_hs (fst g))]
               (inventory d)).
Proof.
  intros Hkeys Hsym Htrans Hmodel Hcat Hkeep Hin.
  assert (Hrefl : forall x, same x x = true)
    by (intros x; apply Hcat; reflexivity).
  destruct (group_by_partition same Hrefl Hsym Htrans
              (filter keep (catalog_left_join on d))) as (Hmem & _ & _).
  rewrite (Hmem g Hin).
  assert (Hfirst : In (fst g) (filter keep (catalog_left_join on d))).
  { apply (group_by_first same). exact Hin. }
  apply filter_In in Hfirst. destruct Hfirst as [Hj Hk].
  pose proof (in_catalog_left_join_row on d (fst g) Hj) as Hy0.
  set (y0 := (j_lm (fst g), j_b (fst g), j_hs (fst g))) in *.
  assert (Hsame : forall y oi,
             same (fst g) (left_joined (y, oi))
             = same (fst g) (left_joined (y, None))).
  { intros y oi.
    assert (E1 : same (left_joined (y, oi)) (left_joined (y, None)) = true)
      by (apply Hcat; reflexivity).
    assert (E2 : same (left_joined (y, None)) (left_joined (y, oi)) = true)
      by (apply Hcat; reflexivity).
    destruct (same (fst g) (left_joined (y, oi))) eqn:Ea;
      destruct (same (fst g) (left_joined (y, None))) eqn:Eb;
      try reflexivity.
    - rewrite <- Eb. symmetry. eapply Htrans; eassumption.
    - rewrite <- Ea. eapply Htrans; eassumption. }
  unfold catalog_left_join. rewrite !filter_map_swap.
  rewrite (filter_left_join on (fun a => keep (left_joined a))
             (fun y => keep (left_joined (y, None))))
    by (intros y oi; apply Hkeep).
  rewrite (filter_left_join on (fun a => same (fst g) (left_joined a))
             (fun y => same (fst g) (left_joined (y, None))))
    by (intros y oi; apply Hsame).
  rewrite filter_twice.
  rewrite (filter_by_key (fun y => lm_model_id (fst (fst y))) _ _ y0).
  - rewrite map_map. apply map_ext. intros x. reflexivity.
  - apply from_catalog_one_row_a_model. exact Hkeys.
  - exact Hy0.
  - apply andb_true_intro. split.
    + rewrite <- Hk. symmetry.
      destruct (fst g) as [lm b hs oi]. apply (Hkeep (lm, b, hs) oi).
    + apply Hcat; reflexivity.
  - intros y _ Hy. apply andb_prop in Hy. destruct Hy as [_ Hy].
    apply Hmodel in Hy. simpl in Hy. symmetry. exact Hy.
Qed.

Lemma group_prices_of_the_model
  (same : Joined -> Joined -> bool)
  (on : LaptopModel * Brand * HardwareSpec -> Inventory -> bool)
  (keep : Joined -> bool) (d : Database) (g : Joined * list Joined) :
  primary_keys d ->
  (forall x y, same x y = true -> same y x = true) ->
  (forall x y z, same x y = true -> same y z = true -> same x z = true) ->
  (forall x y, same x y = true ->
               lm_model_id (j_lm x) = lm_model_id (j_lm y)) ->
  (forall x y, j_lm x = j_lm y -> j_b x = j_b y -> j_hs x = j_hs y ->
               same x y = true) ->
  (forall y oi, keep (left_joined (y, oi)) = keep (left_joined (y, None))) ->
  In g (group_by same (filter keep (catalog_left_join on d))) ->
  group_prices g
  = map i_unit_price
      (filter (on (j_lm (fst g), j_b (fst g), j_hs (fst g))) (inventory d)) /\
  group_count g
  = Z.of_nat
      (List.length
         (filter (on (j_lm (fst g), j_b (fst g), j_hs (fst g)))
            (inventory d))).
Proof.
  intros Hkeys Hsym Htrans Hmodel Hcat Hkeep Hin.
  unfold group_prices, group_count.
  rewrite (group_offers_of_the_model same on keep d g Hkeys Hsym Htrans
             Hmodel Hcat Hkeep Hin).
  rewrite !left_join_one_values, length_map. split; reflexivity.
Qed.

(** With the primary keys of the catalog, the aggregates of a row of the
    browse listing range over all offers of the model that are available and
    in stock: [available_count] is their number, and [min_price] and
    [max_price] are their lowest and highest price. *)
Theorem browse_aggregates_range_over_the_offers_in_stock :
  forall (app_db : Pool) (p : BrowseParams) (rows : list BrowseRow)
         (row : BrowseRow),
    get_laptops app_db p = Ok rows ->
    primary_keys (pool_data app_db) ->
    In row rows ->
    br_available_count row
    = Z.of_nat (List.length (offers_in_stock (pool_data app_db)
                               (lm_model_id (br_lm row)))) /\
    forall i,
      In i (offers_in_stock (pool_data app_db) (lm_model_id (br_lm row))) ->
      exists lo hi,
        br_min_price row = Some lo /\ br_max_price row = Some hi /\
        lo <= i_unit_price i /\ i_unit_price i <= hi.
Proof.
  intros app_db p rows row H Hkeys Hrow. apply get_laptops_ok in H.
  destruct H as (conditions & lim & off & Hc & _ & _ & _ & _ & Hrows).
  rewrite Hrows in Hrow.
  apply in_firstn, in_skipn, in_order_by, in_map_iff in Hrow.
  destruct Hrow as (g & Hg & Hin). subst row.
  destruct same_browse_group_respects as (Hsym & Htrans & Hmodel & Hcat).
  assert (Hkeep : forall y oi,
             where_ conditions (left_joined (y, oi))
             = where_ conditions (left_joined (y, None))).
  { intros y oi. apply where_catalog.
    apply (browse_conditions_catalog p). exact Hc. }
  destruct (group_prices_of_the_model same_browse_group on_in_stock
              (where_ conditions) (pool_data app_db) g Hkeys
              Hsym Htrans Hmodel Hcat Hkeep Hin) as [Hp Hn].
  unfold browse_select.
  cbn [br_available_count br_min_price br_max_price br_lm].
    rewrite Hp, Hn. unfold offers_in_stock.
    set (offers := filter (on_in_stock (j_lm (fst g), j_b (fst g),
                                        j_hs (fst g)))
                     (inventory (pool_data app_db))).
    assert (Hoffers :
              filter (fun i => String.eqb (lm_model_id (j_lm (fst g)))
                                 (i_model_id i)
                               && sql_is true (i_is_available i)
                               && (0 <? i_stock_quantity i)%Z)
                (inventory (pool_data app_db)) = offers)
      by reflexivity.
    rewrite Hoffers. split; [reflexivity |].
    intros i Hi. apply (in_map i_unit_price) in Hi.
    destruct (map i_unit_price offers) as [| v vs]; [destruct Hi |].
    destruct (fold_min_spec vs v) as (_ & Hmin & Hmins).
    destruct (fold_max_spec vs v) as (Hmax & Hmaxs).
    eexists. eexists. split; [reflexivity |]. split; [reflexivity |].
    destruct Hi as [Hi | Hi].
    + rewrite <- Hi. split; assumption.
    + split; [apply Hmins | apply Hmaxs]; exact Hi.
Qed.

Lemma browse_aggregates_range_over_the_offers_in_stock_witness :
  exists rows row,
    get_laptops sample_pool lenovo_params = Ok rows /\
    In row rows /\ lm_model_id (br_lm row) = "m-legion" /\
    br_available_count row = 1%Z.
Proof.
  eexists. eexists. split; [vm_compute; reflexivity |].
  split; [left; reflexivity |]. split; [reflexivity |].
  match goal with
  | |- br_available_count ?row = _ =>
      rewrite (proj1 (browse_aggregates_range_over_the_offers_in_stock
                        sample_pool lenovo_params _ row
                        ltac:(vm_compute; reflexivity)
                        sample_primary_keys ltac:(left; reflexivity)))
  end.
  reflexivity.
Defined.

(** With the primary keys of the catalog, the [min_price] of a row of the
    by-usage list, of the search and of the comparison is the lowest price
    among all offers of the model that are marked available, whether they
    are in stock or not. *)
Theorem listed_min_price_does_not_look_at_the_stock :
  forall (pool : Pool),
    primary_keys (pool_data pool) ->
    (forall w usage limit_param rows row,
        w_pool w = Some pool ->
        get_by_usage w usage limit_param = Ok rows -> In row rows ->
        ur_min_price row
        = sql_min (map i_unit_price
                     (available_offers (pool_data pool)
                        (lm_model_id (ur_lm row))))) /\
    (forall ilike query rows row,
        search_laptops ilike pool query = Ok rows -> In row rows ->
        sr_min_price row
        = sql_min (map i_unit_price
                     (available_offers (pool_data pool) (sr_model_id row))))
    /\
    (forall w model_ids rows row,
        w_pool w = Some pool ->
        post_compare w model_ids = Ok (CompareRows rows) -> In row rows ->
        cmp_min_price row
        = sql_min (map i_unit_price
                     (available_offers (pool_data pool)
                        (lm_model_id (cmp_lm row))))).
Proof.
  intros pool Hkeys. split; [| split].
  - intros w usage limit_param rows row Hpool H Hrow.
    apply get_by_usage_ok in H.
    destruct H as (pool' & Hpool' & _ & _ & Hrows).
    rewrite Hpool in Hpool'. inversion Hpool'. subst pool'.
    rewrite Hrows in Hrow. apply in_firstn, in_order_by, in_map_iff in Hrow.
    destruct Hrow as (g & Hg & Hin). subst row.
    destruct same_usage_group_respects as (Hsym & Htrans & Hmodel & Hcat).
    destruct (group_prices_of_the_model same_usage_group on_available
                (where_ (usage_conditions (specs_of usage)))
                (pool_data pool) g Hkeys Hsym Htrans Hmodel Hcat
                ltac:(intros y oi; apply where_catalog;
                      apply usage_conditions_catalog) Hin) as [Hp _].
    unfold usage_select. cbn [ur_min_price ur_lm]. rewrite Hp.
    reflexivity.
  - intros ilike query rows row H Hrow. unfold search_laptops in H.
    apply pool_query_ok in H. destruct H as [_ H].
    unfold search_query in H. apply limit_ok in H. destruct H as [_ Hrows].
    rewrite Hrows in Hrow. apply in_firstn, in_map_iff in Hrow.
    destruct Hrow as (g & Hg & Hin). subst row.
    destruct same_search_group_respects as (Hsym & Htrans & Hmodel & Hcat).
    destruct (group_prices_of_the_model same_search_group on_available
                (fun j => sql_is false (lm_is_discontinued (j_lm j))
                          && search_hit ilike (search_pattern query) j)
                (pool_data pool) g Hkeys Hsym Htrans Hmodel Hcat
                ltac:(intros y oi; reflexivity) Hin) as [Hp _].
    unfold search_select. cbn [sr_min_price sr_model_id]. rewrite Hp.
    reflexivity.
  - intros w model_ids rows row Hpool H Hrow.
    unfold post_compare, getPool in H.
    rewrite Hpool in H. simpl in H. destruct model_ids as [ids |];
      [| discriminate H].
    destruct (Nat.eqb (List.length ids) 0 || Nat.ltb 4 (List.length ids))%bool;
      [discriminate H |].
    apply bind_ok in H. destruct H as (rows' & H & Hr). inversion Hr.
    subst rows'. apply pool_query_ok in H. destruct H as [_ H].
    unfold compare_query in H. inversion H as [Hrows]. clear H.
    rewrite <- Hrows in Hrow. apply in_map_iff in Hrow.
    destruct Hrow as (g & Hg & Hin). subst row.
    destruct same_usage_group_respects as (Hsym & Htrans & Hmodel & Hcat).
    destruct (group_prices_of_the_model same_usage_group on_available
                (fun j => existsb (String.eqb (lm_model_id (j_lm j))) ids)
                (pool_data pool) g Hkeys Hsym Htrans Hmodel Hcat
                ltac:(intros y oi; reflexivity) Hin) as [Hp _].
    unfold compare_select. cbn [cmp_min_price cmp_lm]. rewrite Hp.
    reflexivity.
Qed.

Lemma listed_min_price_does_not_look_at_the_stock_witness :
  exists rows row i,
    search_laptops prefix_match sample_pool "Leg" = Ok rows /\
    In row rows /\
    In i (inventory sample_db) /\ i_stock_quantity i = 0%Z /\
    sr_min_price row = Some (i_unit_price i).
Proof.
  eexists. eexists. exists (offer "i-5" "m-legion" 179999 0).
  split; [vm_compute; reflexivity |].
  split; [left; reflexivity |].
  split; [vm_compute; tauto |]. split; [reflexivity |].
  match goal with
  | |- sr_min_price ?row = _ =>
      rewrite (proj1 (proj2 (listed_min_price_does_not_look_at_the_stock
                               sample_pool sample_primary_keys))
                 prefix_match "Leg" _ row
                 ltac:(vm_compute; reflexivity) ltac:(left; reflexivity))
  end.
  vm_compute. reflexivity.
Defined.
